(** * The interactive MCP client of [examples/mcp/client/main.py]

    A shallow embedding of [build_arguments_from_schema] and of the
    menu loop of [interactive_tool_client], together with the facts the
    specification states about them.

    Text is modelled as [string] (a sequence of 8-bit characters), so the
    development covers ASCII text: a character above 127 is neither a
    space, nor a letter, nor a word character.  Console input is a finite
    script of lines; reading past its end is Python's [EOFError]. *)

From Stdlib Require Import String Ascii List ZArith Lia Bool Arith.
From Stdlib Require Import SpecFloat DecimalString DecimalPos DecimalZ.
Set Warnings "-register-all".
Import ListNotations.
Open Scope string_scope.
Open Scope list_scope.
Open Scope nat_scope.

(** ** Python's [str] operations used by the client *)

Module PyStr.

(** [str.isspace] on ASCII: TAB, LF, VT, FF, CR, FS, GS, RS, US, SPACE. *)
Definition isspace (c : ascii) : bool :=
  let n := nat_of_ascii c in
  ((9 <=? n) && (n <=? 13)) || ((28 <=? n) && (n <=? 32)).

Definition isdigit (c : ascii) : bool :=
  let n := nat_of_ascii c in (48 <=? n) && (n <=? 57).

Definition isupper (c : ascii) : bool :=
  let n := nat_of_ascii c in (65 <=? n) && (n <=? 90).

Definition islower (c : ascii) : bool :=
  let n := nat_of_ascii c in (97 <=? n) && (n <=? 122).

(** The class [\w] of [re]: letters, digits and the underscore. *)
Definition is_word (c : ascii) : bool :=
  isdigit c || isupper c || islower c || Ascii.eqb c "_".

Fixpoint lstrip (s : string) : string :=
  match s with
  | EmptyString => EmptyString
  | String c s' => if isspace c then lstrip s' else s
  end.

Fixpoint rstrip (s : string) : string :=
  match s with
  | EmptyString => EmptyString
  | String c s' =>
      match rstrip s' with
      | EmptyString => if isspace c then EmptyString else String c EmptyString
      | r => String c r
      end
  end.

(** [s.strip()] *)
Definition strip (s : string) : string := rstrip (lstrip s).

Definition lower_char (c : ascii) : ascii :=
  if isupper c then ascii_of_nat (nat_of_ascii c + 32) else c.

(** [s.lower()] *)
Fixpoint lower (s : string) : string :=
  match s with
  | EmptyString => EmptyString
  | String c s' => String (lower_char c) (lower s')
  end.

(** [not s] on a string *)
Definition is_empty (s : string) : bool :=
  match s with EmptyString => true | _ => false end.

(** [x in xs] on a tuple or list of strings *)
Definition str_in (x : string) (xs : list string) : bool :=
  existsb (String.eqb x) xs.

(** *** [re.findall(r'{(\w+)}', s)] *)

(** The longest run of word characters at the head of [s], and the rest. *)
Fixpoint span_word (s : string) : string * string :=
  match s with
  | EmptyString => (EmptyString, EmptyString)
  | String c s' =>
      if is_word c
      then let (w, r) := span_word s' in (String c w, r)
      else (EmptyString, s)
  end.

(** The pattern anchored at the head of [s]: an opening brace, one or more
    word characters (greedy; a closing brace is not a word character, so
    giving characters back never helps), a closing brace.  The result is
    the captured group. *)
Definition match_placeholder (s : string) : option string :=
  match s with
  | String "{"%char s' =>
      match span_word s' with
      | (String c w, String "}"%char _) => Some (String c w)
      | _ => None
      end
  | _ => None
  end.

(** Leftmost non-overlapping matches, scanning left to right; [skip] counts
    the characters of the last match still to be passed over. *)
Fixpoint findall_from (skip : nat) (s : string) : list string :=
  match s with
  | EmptyString => []
  | String _ s' =>
      match skip with
      | S k => findall_from k s'
      | O =>
          match match_placeholder s with
          | Some name => name :: findall_from (S (String.length name)) s'
          | None => findall_from 0 s'
          end
      end
  end.

Definition findall_placeholders (s : string) : list string :=
  findall_from 0 s.

(** *** [s.replace(old, new)] *)

(** [s] begins with [pre]. *)
Fixpoint has_prefix (pre s : string) : bool :=
  match pre with
  | EmptyString => true
  | String a pre' =>
      match s with
      | EmptyString => false
      | String b s' => Ascii.eqb a b && has_prefix pre' s'
      end
  end.

(** Non-empty [old]: every leftmost non-overlapping occurrence is replaced. *)
Fixpoint replace_from (old new : string) (skip : nat) (s : string) : string :=
  match s with
  | EmptyString => EmptyString
  | String c s' =>
      match skip with
      | S k => replace_from old new k s'
      | O =>
          if has_prefix old s
          then (new ++ replace_from old new (String.length old - 1) s')%string
          else String c (replace_from old new 0 s')
      end
  end.

(** Empty [old]: [new] goes before every character and at the end. *)
Fixpoint intersperse (new s : string) : string :=
  match s with
  | EmptyString => new
  | String c s' => (new ++ String c (intersperse new s'))%string
  end.

Definition replace (old new s : string) : string :=
  match old with
  | EmptyString => intersperse new s
  | _ => replace_from old new 0 s
  end.

(** *** [int(s)] *)

Definition digit_val (c : ascii) : Z := (Z.of_nat (nat_of_ascii c) - 48)%Z.

(** Decimal digits, a single underscore allowed between two digits.
    [prev] tells whether the previous character was a digit. *)
Fixpoint parse_digits (acc : Z) (prev : bool) (s : string) : option Z :=
  match s with
  | EmptyString => if prev then Some acc else None
  | String c s' =>
      if isdigit c then parse_digits (10 * acc + digit_val c)%Z true s'
      else if Ascii.eqb c "_" && prev then
        match s' with
        | EmptyString => None
        | _ => parse_digits acc false s'
        end
      else None
  end.

(** [sys.get_int_max_str_digits()]: the default of CPython 3.11. *)
Definition int_max_str_digits : nat := 4300.

(** The number of digit characters of [s]; underscores and letters do not
    count, leading zeros do. *)
Fixpoint count_digits (s : string) : nat :=
  match s with
  | EmptyString => 0
  | String c s' => if isdigit c then S (count_digits s') else count_digits s'
  end.

(** The unsigned numeral of [int]: a text with more digits than the limit
    is refused, whatever its value. *)
Definition parse_numeral (d : string) : option Z :=
  if count_digits d <=? int_max_str_digits
  then parse_digits 0%Z false d
  else None.

(** [int(s)] in base 10; [None] is [ValueError]. *)
Definition int (s : string) : option Z :=
  match strip s with
  | String "-"%char d => option_map Z.opp (parse_numeral d)
  | String "+"%char d => parse_numeral d
  | d => parse_numeral d
  end.

End PyStr.

(** ** Python's [float(s)]

    The accepted texts are those of the language reference: an optional
    sign, then [inf], [infinity] or [nan] in any case, or a decimal number
    with an optional exponent.  The value is the IEEE 754 binary64 number
    nearest to the decimal (ties to even), built with the operations of
    [SpecFloat]. *)

Module PyFloat.

Definition prec : Z := 53.
Definition emax : Z := 1024.

(** A run of digits in which an underscore may stand between two digits:
    the accumulated number, how many digits were read, and the rest. *)
Fixpoint digits_run (acc : Z) (n : nat) (s : string) {struct s}
  : Z * nat * string :=
  match s with
  | EmptyString => (acc, n, s)
  | String c s' =>
      if PyStr.isdigit c then
        let acc' := (10 * acc + PyStr.digit_val c)%Z in
        match s' with
        | String u t =>
            if Ascii.eqb u "_" then
              match t with
              | String d _ =>
                  if PyStr.isdigit d then digits_run acc' (S n) t
                  else (acc', S n, s')
              | EmptyString => (acc', S n, s')
              end
            else digits_run acc' (S n) s'
        | EmptyString => (acc', S n, s')
        end
      else (acc, n, s)
  end.

(** [exponent ::= ("e" | "E") [sign] digitpart], or nothing. *)
Definition parse_exponent (s : string) : option Z :=
  match s with
  | EmptyString => Some 0%Z
  | String c r =>
      if Ascii.eqb c "e" || Ascii.eqb c "E" then
        let '(neg, d) :=
          match r with
          | String "-"%char d => (true, d)
          | String "+"%char d => (false, d)
          | d => (false, d)
          end in
        match digits_run 0 0 d with
        | (x, S _, EmptyString) => Some (if neg then - x else x)%Z
        | _ => None
        end
      else None
  end.

(** [floatnumber]: the decimal [m * 10 ^ e] it denotes. *)
Definition parse_decimal (s : string) : option (Z * Z) :=
  let '(m1, n1, r1) := digits_run 0 0 s in
  match r1 with
  | String "."%char r2 =>
      let '(m2, n2, r3) := digits_run m1 0 r2 in
      match n1 + n2 with
      | O => None
      | S _ =>
          match parse_exponent r3 with
          | Some x => Some (m2, x - Z.of_nat n2)%Z
          | None => None
          end
      end
  | _ =>
      match n1 with
      | O => None
      | S _ =>
          match parse_exponent r1 with
          | Some x => Some (m1, x)
          | None => None
          end
      end
  end.

(** The binary64 number nearest to [(-1)^neg * m * 10 ^ e]. *)
Definition of_decimal (neg : bool) (m e : Z) : spec_float :=
  match m with
  | Z0 => S754_zero neg
  | _ =>
      match e with
      | Zneg p =>
          let '(q, e', l) :=
            SFdiv_core_binary prec emax m 0 (10 ^ Zpos p) 0 in
          binary_round_aux prec emax neg q e' l
      | _ =>
          binary_normalize prec emax
            ((if neg then - m else m) * 10 ^ e)%Z 0 false
      end
  end.

Definition parse_abs (neg : bool) (s : string) : option spec_float :=
  let l := PyStr.lower s in
  if String.eqb l "inf" || String.eqb l "infinity"
  then Some (S754_infinity neg)
  else if String.eqb l "nan" then Some S754_nan
  else
    match parse_decimal s with
    | Some (m, e) => Some (of_decimal neg m e)
    | None => None
    end.

(** [float(s)]; [None] is [ValueError]. *)
Definition float (s : string) : option spec_float :=
  match PyStr.strip s with
  | String "-"%char d => parse_abs true d
  | String "+"%char d => parse_abs false d
  | d => parse_abs false d
  end.

End PyFloat.

(** ** Python's [dict] with string keys

    An association list in insertion order; assigning to a key that is
    present keeps its place. *)

Module Dict.

Definition t (V : Type) : Type := list (string * V).

Definition empty {V : Type} : t V := [].

Fixpoint get {V : Type} (k : string) (d : t V) : option V :=
  match d with
  | [] => None
  | (k', v) :: d' => if String.eqb k k' then Some v else get k d'
  end.

(** [d[k] = v] *)
Fixpoint set {V : Type} (k : string) (v : V) (d : t V) : t V :=
  match d with
  | [] => [(k, v)]
  | (k', v') :: d' =>
      if String.eqb k k' then (k, v) :: d' else (k', v') :: set k v d'
  end.

Definition keys {V : Type} (d : t V) : list string := map fst d.

(** [k in d] *)
Definition mem {V : Type} (k : string) (d : t V) : bool :=
  PyStr.str_in k (keys d).

(** [len(d)] *)
Definition len {V : Type} (d : t V) : nat := length d.

End Dict.

(** ** Values and capability descriptors *)

(** What [json.loads] produces. *)
Inductive json : Type :=
| JNull
| JBool (b : bool)
| JInt (z : Z)
| JFloat (f : spec_float)
| JStr (s : string)
| JList (l : list json)
| JDict (d : list (string * json)).

(** How a call of [json.loads] ends: with a value; with a [ValueError]
    (the [json.JSONDecodeError] of a text that is not JSON is one); or
    with another exception of the interpreter, such as the
    [RecursionError] of a text nested deeper than the recursion limit
    allows.  All of these are ordinary exceptions (instances of
    [Exception]). *)
Inductive decoded : Type :=
| Decoded (j : json)
| JSONDecodeError (msg : string)
| DecoderFailure (msg : string).

(** [json.loads] is the standard library's; the client depends only on how
    the call ends. *)
Class JsonDecoder : Type := { json_loads : string -> decoded }.

(** A coerced argument value. *)
Inductive value : Type :=
| VInt (z : Z)
| VFloat (f : spec_float)
| VBool (b : bool)
| VJson (j : json)
| VStr (s : string).

(** One entry of a schema's ["properties"]. *)
Record ParamInfo : Type := {
  p_type : option string;
  p_description : option string
}.

(** A tool's [inputSchema]; a key that is absent is [None]. *)
Record InputSchema : Type := {
  properties : option (Dict.t ParamInfo);
  required : option (list string)
}.

Record Tool : Type := {
  tool_name : string;
  tool_description : option string;
  inputSchema : InputSchema
}.

Record Resource : Type := {
  resource_name : string;
  uri : string;
  resource_description : option string
}.

Record ResourceTemplate : Type := {
  template_name : string;
  uriTemplate : string;
  template_description : option string
}.

(** A content item: it has a [text] attribute, or a [blob] attribute, or
    neither. *)
Inductive Content : Type :=
| TextContent (text : string)
| BlobContent (blob : string)
| OtherContent (repr : string).

Record CallToolResult : Type := {
  content : list Content;
  isError : bool
}.

Record ReadResourceResult : Type := {
  contents : list Content
}.

(** ** Exceptions, console and session *)

Inductive exn : Type :=
| ValueError (msg : string)
| EOFError
| KeyboardInterrupt
| OtherException (msg : string)
| OtherBaseException (msg : string).

(** [isinstance(e, Exception)] *)
Definition is_Exception (e : exn) : bool :=
  match e with
  | KeyboardInterrupt | OtherBaseException _ => false
  | _ => true
  end.

(** The four places where [input] is called. *)
Inductive prompt : Type :=
| PromptEnterValue
| PromptSelect
| PromptParam (param : string)
| PromptContinue.

(** What the client prints; the wording of a message is in the source line
    named by each constructor. *)
Inductive message : Type :=
| MsgProvideParameters
| MsgParameter (param_name : string) (is_required : bool)
    (param_desc param_type : string)
| MsgRequired
| MsgInvalidInput (param_type : string)
| MsgNoCapabilities
| MsgMenu (tools : list Tool) (resources : list Resource)
    (templates : list ResourceTemplate)
| MsgGoodbye
| MsgInvalidSelection
| MsgExecutingTool (name : string)
| MsgCalling (name : string) (arguments : Dict.t value)
| MsgResult
| MsgResourceContents
| MsgText (text : string)
| MsgBinary (bytes : nat)
| MsgItem (item : Content)
| MsgNoContent
| MsgToolError
| MsgRule
| MsgReadingResource (name uri : string)
| MsgReadingTemplate (name uriTemplate : string)
| MsgParamRequired (param : string)
| MsgMissingParameters
| MsgConstructedURI (uri : string)
| MsgInvalidNumber
| MsgErrorExecuting (e : exn).

Inductive request : Type :=
| ListTools
| ListResources
| ListResourceTemplates
| CallTool (name : string) (arguments : Dict.t value)
| ReadResource (uri : string).

(** What an observer of the process sees, in order. *)
Inductive event : Type :=
| Print (m : message)
| Input (p : prompt)
| Send (r : request).

(** One entry of the input script: a line, or Ctrl-C at the prompt. *)
Inductive keyboard : Type :=
| Line (text : string)
| CtrlC.

(** The result of a statement: a value, or a raised exception. *)
Inductive result (A : Type) : Type :=
| Ok (a : A)
| Raise (e : exn).
Arguments Ok {A} a.
Arguments Raise {A} e.

(** The server behind [ClientSession]: any state, any answers. *)
Class Session (S : Type) : Type := {
  list_tools : S -> result (list Tool) * S;
  list_resources : S -> result (list Resource) * S;
  list_resource_templates : S -> result (list ResourceTemplate) * S;
  call_tool : string -> Dict.t value -> S -> result CallToolResult * S;
  read_resource : string -> S -> result ReadResourceResult * S
}.

(** The world a statement runs in. *)
Record world (S : Type) : Type := {
  stdin : list keyboard;
  server : S
}.
Arguments stdin {S} w.
Arguments server {S} w.
Arguments Build_world {S} stdin server.

(** A statement: the events it causes, its result, the world after it. *)
Definition M (S A : Type) : Type :=
  world S -> list event * result A * world S.

Definition ret {S A : Type} (a : A) : M S A := fun w => ([], Ok a, w).

Definition raise {S A : Type} (e : exn) : M S A := fun w => ([], Raise e, w).

Definition bind {S A B : Type} (m : M S A) (k : A -> M S B) : M S B :=
  fun w =>
    match m w with
    | (t, Ok a, w') => let '(t', r, w'') := k a w' in (t ++ t', r, w'')
    | (t, Raise e, w') => (t, Raise e, w')
    end.

Notation "x <- m ;; k" := (bind m (fun x => k))
  (at level 61, m at next level, right associativity).
Notation "m ;; k" := (bind m (fun _ => k))
  (at level 61, right associativity).

(** [try: m except: h] for the exceptions [h] handles. *)
Definition try_except {S A : Type} (m : M S A) (h : exn -> option (M S A))
  : M S A :=
  fun w =>
    match m w with
    | (t, Raise e, w') =>
        match h e with
        | Some k => let '(t', r, w'') := k w' in (t ++ t', r, w'')
        | None => (t, Raise e, w')
        end
    | out => out
    end.

Definition print {S : Type} (m : message) : M S unit :=
  fun w => ([Print m], Ok tt, w).

(** [input(prompt)] *)
Definition input {S : Type} (p : prompt) : M S string :=
  fun w =>
    match stdin w with
    | [] => ([Input p], Raise EOFError, w)
    | Line l :: rest => ([Input p], Ok l, Build_world rest (server w))
    | CtrlC :: rest =>
        ([Input p], Raise KeyboardInterrupt, Build_world rest (server w))
    end.

(** A request to the server. *)
Definition send {S A : Type} (r : request) (f : S -> result A * S) : M S A :=
  fun w =>
    let '(a, s') := f (server w) in ([Send r], a, Build_world (stdin w) s').

(** ** [build_arguments_from_schema] *)

Section Client.

Context {Srv : Type} `{Session Srv} `{JsonDecoder}.

(** Lines 54-64: the type conversion, with the exception it may raise:
    [int] and [float] raise [ValueError], [json.loads] raises what the
    decoder says. *)
Definition convert (param_type user_input : string) : result value :=
  if String.eqb param_type "integer" then
    match PyStr.int user_input with
    | Some z => Ok (VInt z)
    | None => Raise (ValueError "invalid literal for int() with base 10")
    end
  else if String.eqb param_type "number" then
    match PyFloat.float user_input with
    | Some f => Ok (VFloat f)
    | None => Raise (ValueError "could not convert string to float")
    end
  else if String.eqb param_type "boolean" then
    Ok (VBool (PyStr.str_in (PyStr.lower user_input)
                 ["true"; "yes"; "1"; "y"]))
  else if String.eqb param_type "object" || String.eqb param_type "array" then
    match json_loads user_input with
    | Decoded j => Ok (VJson j)
    | JSONDecodeError msg => Raise (ValueError msg)
    | DecoderFailure msg => Raise (OtherException msg)
    end
  else
    Ok (VStr user_input).

(** Lines 41-68: the [while True] loop of one parameter.  Every round
    reads the head of the script with [input], so the loop is defined by
    recursion on the script.  The [except] clause of line 66 catches
    [ValueError] (of which [json.JSONDecodeError] is a subclass) and
    nothing else. *)
Fixpoint enter_value (param_name param_type : string) (is_required : bool)
  (arguments : Dict.t value) (script : list keyboard) (srv : Srv)
  {struct script} : list event * result (Dict.t value) * world Srv :=
  match script with
  | [] =>
      ([Input PromptEnterValue], Raise EOFError, Build_world [] srv)
  | CtrlC :: rest =>
      ([Input PromptEnterValue], Raise KeyboardInterrupt,
       Build_world rest srv)
  | Line l :: rest =>
      let user_input := PyStr.strip l in
      if PyStr.is_empty user_input && negb is_required then
        ([Input PromptEnterValue], Ok arguments, Build_world rest srv)
      else if PyStr.is_empty user_input && is_required then
        let '(t, r, w) :=
          enter_value param_name param_type is_required arguments rest srv in
        (Input PromptEnterValue :: Print MsgRequired :: t, r, w)
      else
        match convert param_type user_input with
        | Ok v =>
            ([Input PromptEnterValue],
             Ok (Dict.set param_name v arguments), Build_world rest srv)
        | Raise (ValueError _) =>
            let '(t, r, w) :=
              enter_value param_name param_type is_required arguments rest
                srv in
            (Input PromptEnterValue :: Print (MsgInvalidInput param_type)
               :: t, r, w)
        | Raise e =>
            ([Input PromptEnterValue], Raise e, Build_world rest srv)
        end
  end.

(** [param_info.get("type", "string")] *)
Definition type_of (param_info : ParamInfo) : string :=
  match p_type param_info with Some t => t | None => "string" end.

(** [param_info.get("description", "")] *)
Definition description_of (param_info : ParamInfo) : string :=
  match p_description param_info with Some d => d | None => "" end.

(** Lines 28-68: the [for] loop over [properties.items()]. *)
Fixpoint for_properties (required : list string)
  (items : list (string * ParamInfo)) (arguments : Dict.t value)
  : M Srv (Dict.t value) :=
  match items with
  | [] => ret arguments
  | (param_name, param_info) :: rest =>
      let param_type := type_of param_info in
      let param_desc := description_of param_info in
      let is_required := PyStr.str_in param_name required in
      print (MsgParameter param_name is_required param_desc param_type) ;;
      arguments' <-
        (fun w => enter_value param_name param_type is_required arguments
                    (stdin w) (server w)) ;;
      for_properties required rest arguments'
  end.

(** [input_schema.get("required", [])] *)
Definition required_of (input_schema : InputSchema) : list string :=
  match required input_schema with Some r => r | None => [] end.

Definition build_arguments_from_schema (input_schema : InputSchema)
  : M Srv (Dict.t value) :=
  match properties input_schema with
  | None => ret Dict.empty
  | Some props =>
      print MsgProvideParameters ;;
      for_properties (required_of input_schema) props Dict.empty
  end.

(** ** The menu loop of [interactive_tool_client] *)

(** How one round of the loop ends: [continue] (or falling off the end of
    the body), or [break]. *)
Inductive control : Type := Continue | Break.

Fixpoint print_each (ms : list message) : M Srv unit :=
  match ms with
  | [] => ret tt
  | m :: rest => print m ;; print_each rest
  end.

(** Lines 191-194. *)
Definition show_tool_item (item : Content) : message :=
  match item with
  | TextContent text => MsgText text
  | _ => MsgItem item
  end.

(** Lines 221-226 and 275-280. *)
Definition show_resource_item (item : Content) : message :=
  match item with
  | TextContent text => MsgText text
  | BlobContent blob => MsgBinary (String.length blob)
  | _ => MsgItem item
  end.

(** Lines 186-201. *)
Definition display_tool_result (r : CallToolResult) : M Srv unit :=
  print MsgResult ;;
  match content r with
  | [] => print MsgNoContent
  | items => print_each (map show_tool_item items)
  end ;;
  (if isError r then print MsgToolError else ret tt) ;;
  print MsgRule.

(** Lines 216-230 and 270-284. *)
Definition display_resource_result (r : ReadResourceResult) : M Srv unit :=
  print MsgResourceContents ;;
  match contents r with
  | [] => print MsgNoContent
  | items => print_each (map show_resource_item items)
  end ;;
  print MsgRule.

(** [xs[i]] for an index that is not negative. *)
Definition index {A : Type} (xs : list A) (i : Z) : M Srv A :=
  match nth_error xs (Z.to_nat i) with
  | Some x => ret x
  | None => raise (OtherException "IndexError")
  end.

(** Lines 169-201. *)
Definition tool_branch (selected_tool : Tool) : M Srv (option control) :=
  print (MsgExecutingTool (tool_name selected_tool)) ;;
  arguments <- build_arguments_from_schema (inputSchema selected_tool) ;;
  print (MsgCalling (tool_name selected_tool) arguments) ;;
  r <- send (CallTool (tool_name selected_tool) arguments)
         (call_tool (tool_name selected_tool) arguments) ;;
  display_tool_result r ;;
  ret None.

(** Lines 204-230. *)
Definition resource_branch (selected_resource : Resource)
  : M Srv (option control) :=
  print (MsgReadingResource (resource_name selected_resource)
           (uri selected_resource)) ;;
  r <- send (ReadResource (uri selected_resource))
         (read_resource (uri selected_resource)) ;;
  display_resource_result r ;;
  ret None.

(** Lines 247-252: one prompt per element of [params]; an empty value
    leaves the loop. *)
Fixpoint prompt_params (params : list string) (param_values : Dict.t string)
  : M Srv (Dict.t string) :=
  match params with
  | [] => ret param_values
  | param :: rest =>
      line <- input (PromptParam param) ;;
      let value := PyStr.strip line in
      if PyStr.is_empty value then
        print (MsgParamRequired param) ;; ret param_values
      else prompt_params rest (Dict.set param value param_values)
  end.

(** Lines 259-261: one [replace] per item of [param_values], in order. *)
Fixpoint substitute (items : list (string * string)) (u : string) : string :=
  match items with
  | [] => u
  | (param, value) :: rest =>
      substitute rest (PyStr.replace ("{" ++ param ++ "}")%string value u)
  end.

(** Lines 233-284; [Some Continue] is the [continue] of line 256. *)
Definition template_branch (selected_template : ResourceTemplate)
  : M Srv (option control) :=
  print (MsgReadingTemplate (template_name selected_template)
           (uriTemplate selected_template)) ;;
  let params := PyStr.findall_placeholders (uriTemplate selected_template) in
  print MsgProvideParameters ;;
  param_values <- prompt_params params Dict.empty ;;
  if negb (Dict.len param_values =? length params) then
    print MsgMissingParameters ;; ret (Some Continue)
  else
    let u := substitute param_values (uriTemplate selected_template) in
    print (MsgConstructedURI u) ;;
    r <- send (ReadResource u) (read_resource u) ;;
    display_resource_result r ;;
    ret None.

(** Lines 287-290. *)
Definition ask_continue : M Srv control :=
  line <- input PromptContinue ;;
  if String.eqb (PyStr.lower (PyStr.strip line)) "q" then
    print MsgGoodbye ;; ret Break
  else ret Continue.

(** Lines 167-284: the branch chosen by [selection_index]. *)
Definition dispatch (tools : list Tool) (resources : list Resource)
  (templates : list ResourceTemplate) (selection_index : Z)
  : M Srv (option control) :=
  if (selection_index <? Z.of_nat (length tools))%Z then
    selected_tool <- index tools selection_index ;;
    tool_branch selected_tool
  else if (selection_index
             <? Z.of_nat (length tools) + Z.of_nat (length resources))%Z then
    selected_resource <-
      index resources (selection_index - Z.of_nat (length tools)) ;;
    resource_branch selected_resource
  else
    selected_template <-
      index templates
        (selection_index - Z.of_nat (length tools)
           - Z.of_nat (length resources)) ;;
    template_branch selected_template.

(** What follows the chosen branch: the round is over after a [continue],
    and otherwise goes on to lines 287-290. *)
Definition after_branch (jump : option control) : M Srv control :=
  match jump with
  | Some c => ret c
  | None => ask_continue
  end.

(** Lines 153-290: the body of the [try]. *)
Definition try_body (tools : list Tool) (resources : list Resource)
  (templates : list ResourceTemplate) : M Srv control :=
  line <- input PromptSelect ;;
  let choice := PyStr.strip line in
  if String.eqb choice "0" || String.eqb choice "" then
    print MsgGoodbye ;; ret Break
  else
    match PyStr.int choice with
    | None => raise (ValueError "invalid literal for int() with base 10")
    | Some n =>
        let selection_index := (n - 1)%Z in
        let total_items :=
          (Z.of_nat (length tools) + Z.of_nat (length resources)
             + Z.of_nat (length templates))%Z in
        if (selection_index <? 0)%Z || (selection_index >=? total_items)%Z
        then print MsgInvalidSelection ;; ret Continue
        else
          jump <- dispatch tools resources templates selection_index ;;
          after_branch jump
    end.

(** Lines 292-299: the [except] clauses, in order. *)
Definition handlers (e : exn) : option (M Srv control) :=
  match e with
  | ValueError _ => Some (print MsgInvalidNumber ;; ret Continue)
  | KeyboardInterrupt => Some (print MsgGoodbye ;; ret Break)
  | _ =>
      if is_Exception e
      then Some (print (MsgErrorExecuting e) ;; ret Continue)
      else None
  end.

(** Lines 97-299: one round of the [while True] loop. *)
Definition iteration : M Srv control :=
  tools <- send ListTools list_tools ;;
  resources <- send ListResources list_resources ;;
  templates <- send ListResourceTemplates list_resource_templates ;;
  match tools, resources, templates with
  | [], [], [] => print MsgNoCapabilities ;; ret Break
  | _, _, _ =>
      print (MsgMenu tools resources templates) ;;
      try_except (try_body tools resources templates) handlers
  end.

(** Lines 96-299: the loop, for at most [fuel] rounds; [true] when it was
    left by [break], [false] when the rounds ran out. *)
Fixpoint session_loop (fuel : nat) : M Srv bool :=
  match fuel with
  | O => ret false
  | S fuel' =>
      c <- iteration ;;
      match c with
      | Break => ret true
      | Continue => session_loop fuel'
      end
  end.

End Client.


(** ** A server with a fixed offer, and a decoder of literals

    Used to run the client on concrete sessions. *)

Record FixedServer : Type := {
  fs_tools : list Tool;
  fs_resources : list Resource;
  fs_templates : list ResourceTemplate;
  fs_call : string -> Dict.t value -> result CallToolResult;
  fs_read : string -> result ReadResourceResult
}.

#[export] Instance fixed_session : Session FixedServer := {
  list_tools s := (Ok (fs_tools s), s);
  list_resources s := (Ok (fs_resources s), s);
  list_resource_templates s := (Ok (fs_templates s), s);
  call_tool name arguments s := (fs_call s name arguments, s);
  read_resource u s := (fs_read s u, s)
}.

(** The arrays a text opens before anything else. *)
Fixpoint opening_brackets (s : string) : nat :=
  match s with
  | String "["%char s' => S (opening_brackets s')
  | _ => 0
  end.

(** How deep the decoder below follows nested arrays.  The scanner of
    [json] is recursive and stops with [RecursionError] at the recursion
    limit of the interpreter (1000 frames by default, some of them in use
    when [json.loads] is called). *)
Definition nesting_limit : nat := 994.

(** A decoder that knows the JSON literals and the empty containers, and
    that fails as the recursive scanner does on a text that opens more
    arrays than it can follow. *)
Definition literal_loads (s : string) : decoded :=
  let s := PyStr.strip s in
  if String.eqb s "null" then Decoded JNull
  else if String.eqb s "true" then Decoded (JBool true)
  else if String.eqb s "false" then Decoded (JBool false)
  else if String.eqb s "[]" then Decoded (JList [])
  else if String.eqb s "{}" then Decoded (JDict [])
  else if nesting_limit <? opening_brackets s
  then DecoderFailure "maximum recursion depth exceeded"
  else JSONDecodeError "Expecting value".

#[export] Instance literal_decoder : JsonDecoder := {
  json_loads := literal_loads
}.

Definition no_schema : InputSchema :=
  {| properties := None; required := None |}.

Definition integer_info : ParamInfo :=
  {| p_type := Some "integer"; p_description := Some "How many" |}.

Definition boolean_info : ParamInfo :=
  {| p_type := Some "boolean"; p_description := None |}.

(** A tool with a required integer and an optional boolean parameter. *)
Definition search_schema : InputSchema :=
  {| properties := Some [("limit", integer_info); ("exact", boolean_info)];
     required := Some ["limit"] |}.

Definition ping : Tool :=
  {| tool_name := "ping"; tool_description := None;
     inputSchema := no_schema |}.

Definition search : Tool :=
  {| tool_name := "search"; tool_description := Some "Search movies";
     inputSchema := search_schema |}.

Definition catalogue : Resource :=
  {| resource_name := "catalogue"; uri := "movies://all";
     resource_description := None |}.

Definition cast : ResourceTemplate :=
  {| template_name := "cast"; uriTemplate := "movies/{tmdbId}/cast";
     template_description := None |}.

(** Two tools, one resource, one template; every tool call reports an
    error, every read returns the address it was asked for. *)
Definition demo_server : FixedServer :=
  {| fs_tools := [ping; search];
     fs_resources := [catalogue];
     fs_templates := [cast];
     fs_call := fun _ _ =>
       Ok {| content := [TextContent "boom"]; isError := true |};
     fs_read := fun u => Ok {| contents := [TextContent u] |} |}.

Definition demo (script : list string) : world FixedServer :=
  Build_world (map Line script) demo_server.

(** ** Templates seen as segments

    A template in which every opening brace begins a placeholder is a
    sequence of literal texts and holes. *)

Inductive segment : Type :=
| Lit (text : string)
| Hole (name : string).

Definition render_segment (g : segment) : string :=
  match g with
  | Lit text => text
  | Hole name => ("{" ++ name ++ "}")%string
  end.

Fixpoint render (segs : list segment) : string :=
  match segs with
  | [] => EmptyString
  | g :: rest => (render_segment g ++ render rest)%string
  end.

Fixpoint holes (segs : list segment) : list string :=
  match segs with
  | [] => []
  | Lit _ :: rest => holes rest
  | Hole name :: rest => name :: holes rest
  end.

Fixpoint all_chars (p : ascii -> bool) (s : string) : bool :=
  match s with
  | EmptyString => true
  | String c s' => p c && all_chars p s'
  end.

(** One or more word characters. *)
Definition is_name (s : string) : bool :=
  negb (PyStr.is_empty s) && all_chars PyStr.is_word s.

Definition no_open_brace (s : string) : bool :=
  all_chars (fun c => negb (Ascii.eqb c "{")) s.

Definition wf_segment (g : segment) : bool :=
  match g with
  | Lit text => no_open_brace text
  | Hole name => is_name name
  end.

(** Every hole that has a value becomes that value, all at once. *)
Definition fill (values : Dict.t string) (g : segment) : segment :=
  match g with
  | Lit text => Lit text
  | Hole name =>
      match Dict.get name values with
      | Some v => Lit v
      | None => Hole name
      end
  end.

(** ** Auxiliary notions for the statements *)

(** The outcome [x], with the events [t] before its own. *)
Definition after {Srv A : Type} (t : list event)
  (x : list event * result A * world Srv)
  : list event * result A * world Srv :=
  let '(t', r, w) := x in (t ++ t', r, w).

(** Python's [str(z)]: the decimal numeral of an integer. *)
Definition str_of_Z (z : Z) : string :=
  DecimalString.NilZero.string_of_int (Z.to_int z).

(** The value of the numeral [d] read after the digits worth [acc]. *)
Fixpoint uint_value (d : Decimal.uint) (acc : Z) : Z :=
  match d with
  | Decimal.Nil => acc
  | Decimal.D0 l => uint_value l (10 * acc)
  | Decimal.D1 l => uint_value l (10 * acc + 1)
  | Decimal.D2 l => uint_value l (10 * acc + 2)
  | Decimal.D3 l => uint_value l (10 * acc + 3)
  | Decimal.D4 l => uint_value l (10 * acc + 4)
  | Decimal.D5 l => uint_value l (10 * acc + 5)
  | Decimal.D6 l => uint_value l (10 * acc + 6)
  | Decimal.D7 l => uint_value l (10 * acc + 7)
  | Decimal.D8 l => uint_value l (10 * acc + 8)
  | Decimal.D9 l => uint_value l (10 * acc + 9)
  end%Z.

(** The capital of a small ASCII letter. *)
Definition upper_char (c : ascii) : ascii :=
  if PyStr.islower c then ascii_of_nat (nat_of_ascii c - 32) else c.

(** Every way of writing the word [w] with some of its small letters as
    capitals. *)
Fixpoint spellings (w : string) : list string :=
  match w with
  | EmptyString => [EmptyString]
  | String c w' =>
      flat_map
        (fun r =>
           if PyStr.islower c
           then [String c r; String (upper_char c) r]
           else [String c r])
        (spellings w')
  end.

(** The text of [n] opening brackets. *)
Fixpoint brackets (n : nat) : string :=
  match n with
  | O => EmptyString
  | S k => String "[" (brackets k)
  end.

(** [param_values] after the prompts for [params] were answered by
    [lines], one assignment per prompt. *)
Fixpoint assign (params lines : list string) (param_values : Dict.t string)
  : Dict.t string :=
  match params, lines with
  | param :: params', l :: lines' =>
      assign params' lines' (Dict.set param (PyStr.strip l) param_values)
  | _, _ => param_values
  end.

Definition ask (param : string) : event := Input (PromptParam param).

(** A template that names the same placeholder twice, and one whose
    placeholders can be answered with brace text. *)
Definition knows : ResourceTemplate :=
  {| template_name := "knows"; uriTemplate := "people/{id}/knows/{id}";
     template_description := None |}.

Definition pair : ResourceTemplate :=
  {| template_name := "pair"; uriTemplate := "{a}/{b}";
     template_description := None |}.

(** A server that offers nothing. *)
Definition empty_server : FixedServer :=
  {| fs_tools := []; fs_resources := []; fs_templates := [];
     fs_call := fun _ _ => Raise (OtherException "unknown tool");
     fs_read := fun _ => Raise (OtherException "unknown resource") |}.

(** The exception [e] is one that [json.loads] raised, other than a
    [ValueError], on a line of [script]. *)
Definition decoder_failed `{JsonDecoder} (script : list keyboard) (e : exn)
  : Prop :=
  exists l msg,
    In (Line l) script
    /\ json_loads (PyStr.strip l) = DecoderFailure msg
    /\ e = OtherException msg.

(** A schema that lists under ["required"] a name it does not declare. *)
Definition ghost_schema : InputSchema :=
  {| properties := Some [("limit", integer_info)];
     required := Some ["limit"; "ghost"] |}.

Definition array_info : ParamInfo :=
  {| p_type := Some "array"; p_description := None |}.

(** A tool with one optional parameter of type [array]. *)
Definition tags_schema : InputSchema :=
  {| properties := Some [("tags", array_info)]; required := None |}.

Definition tag : Tool :=
  {| tool_name := "tag"; tool_description := None;
     inputSchema := tags_schema |}.

(** ** Notions for the further properties *)

Definition is_request (e : event) : bool :=
  match e with Send _ => true | _ => false end.

(** The exceptions for which the loop has an [except] clause. *)
Definition is_caught (e : exn) : bool :=
  match e with OtherBaseException _ => false | _ => true end.

(** One parameter of a schema, the line typed at its prompt, and what
    the builder makes of it: a stored value, or nothing. *)
Record answer : Type := {
  a_name : string;
  a_info : ParamInfo;
  a_line : string;
  a_value : option value
}.

Definition declared (a : answer) : string * ParamInfo :=
  (a_name a, a_info a).

(** The line is one that ends the parameter loop at once: non-empty and
    convertible, or empty at the prompt of an optional parameter. *)
Definition accepted `{JsonDecoder} (required : list string) (a : answer)
  : Prop :=
  match a_value a with
  | Some v =>
      PyStr.strip (a_line a) <> ""
      /\ convert (type_of (a_info a)) (PyStr.strip (a_line a)) = Ok v
  | None =>
      PyStr.strip (a_line a) = ""
      /\ PyStr.str_in (a_name a) required = false
  end.

Definition stored (answers : list answer) : Dict.t value :=
  flat_map (fun a => match a_value a with
                     | Some v => [(a_name a, v)]
                     | None => []
                     end) answers.

Definition asked_events (required : list string) (a : answer) : list event :=
  [Print (MsgParameter (a_name a) (PyStr.str_in (a_name a) required)
            (description_of (a_info a)) (type_of (a_info a)));
   Input PromptEnterValue].

(** Every exception that leaves [m] satisfies [P]. *)
Definition raises_only {Srv A : Type} (P : exn -> Prop) (m : M Srv A)
  : Prop :=
  forall w t e w', m w = (t, Raise e, w') -> P e.

(** What a round of the loop shows when the input is at its end. *)
Definition eof_round (tools : list Tool) (resources : list Resource)
  (templates : list ResourceTemplate) : list event :=
  [Send ListTools; Send ListResources; Send ListResourceTemplates;
   Print (MsgMenu tools resources templates); Input PromptSelect;
   Print (MsgErrorExecuting EOFError)].

(** A server that answers [n] more listings of its one tool and is then
    gone; the state is [n]. *)
#[export] Instance countdown_session : Session nat := {
  list_tools n :=
    match n with
    | O => (Raise (OtherException "connection closed"), O)
    | S k => (Ok [ping], k)
    end;
  list_resources n := (Ok [], n);
  list_resource_templates n := (Ok [], n);
  call_tool name arguments n :=
    (Ok {| content := [TextContent "pong"]; isError := false |}, n);
  read_resource u n := (Raise (OtherException "unknown resource"), n)
}.

(** *** The numbers of the menu, lines 115-146 *)

(** [enumerate(xs, start)] *)
Fixpoint enumerate {A : Type} (xs : list A) (start : Z) : list (Z * A) :=
  match xs with
  | [] => []
  | x :: rest => (start, x) :: enumerate rest (start + 1)
  end.

(** An entry of the menu. *)
Inductive capability : Type :=
| ToolItem (tool : Tool)
| ResourceItem (resource : Resource)
| TemplateItem (template : ResourceTemplate).

(** The number printed in front of each entry: the tools from 1, the
    resources from [len(tools) + 1], the templates from
    [len(tools) + len(resources) + 1]. *)
Definition numbered_menu (tools : list Tool) (resources : list Resource)
  (templates : list ResourceTemplate) : list (Z * capability) :=
  map (fun '(i, tool) => (i, ToolItem tool)) (enumerate tools 1)
  ++ map (fun '(i, resource) => (i, ResourceItem resource))
       (enumerate resources (Z.of_nat (length tools) + 1))
  ++ map (fun '(i, template) => (i, TemplateItem template))
       (enumerate templates
          (Z.of_nat (length tools) + Z.of_nat (length resources) + 1)).

(** The branch of the loop that belongs to an entry. *)
Definition branch_of {Srv : Type} `{Session Srv} `{JsonDecoder}
  (c : capability) : M Srv (option control) :=
  match c with
  | ToolItem tool => tool_branch tool
  | ResourceItem resource => resource_branch resource
  | TemplateItem template => template_branch template
  end.

(** A server whose tools reject every call with a [ValueError]. *)
Definition picky_server : FixedServer :=
  {| fs_tools := [ping]; fs_resources := []; fs_templates := [];
     fs_call := fun _ _ => Raise (ValueError "unsupported argument");
     fs_read := fun _ => Raise (OtherException "unknown resource") |}.

(** The text of [n] zeros. *)
Fixpoint zeros (n : nat) : string :=
  match n with
  | O => EmptyString
  | S k => String "0" (zeros k)
  end.

(** A template without a placeholder. *)
Definition plain : ResourceTemplate :=
  {| template_name := "plain"; uriTemplate := "movies://all";
     template_description := None |}.

(** ** The environment test of [neo4j-driver/test_environment.py]

    The three tests of [TestEnvironment] talk to each other through two
    attributes of the class, which outlive the test that sets them.  The
    file system, the process environment and the database driver are
    parameters; they do not change while the tests run. *)

Module TestEnvironment.

(** What [GraphDatabase.driver] followed by [verify_connectivity] comes
    to: the constructor raises, the verification raises, or neither. *)
Inductive connection : Type :=
| DriverRaises
| VerifyRaises
| Connected.

Record environment : Type := {
  path_exists : string -> bool;
  getenv : string -> option string;
  connect : option string -> option string -> option string -> connection
}.

(** The class attributes, lines 11-12. *)
Record flags : Type := {
  skip_env_variable_tests : bool;
  skip_neo4j_test : bool
}.

Definition initial : flags :=
  {| skip_env_variable_tests := true; skip_neo4j_test := true |}.

(** What the runner reports for a test. *)
Inductive outcome : Type :=
| Passed
| Failed
| Skipped
| Errored.

(** The calls a test makes to the outside. *)
Inductive call : Type :=
| PathExists (path : string)
| GetEnv (name : string)
| MakeDriver (uri username password : option string)
| VerifyConnectivity
| CloseDriver.

Definition test_body : Type :=
  environment -> flags -> outcome * flags * list call.

(** Lines 14-18. *)
Definition test_env_file_exists : test_body := fun env f =>
  let env_file_exists := path_exists env ".env" in
  let f' :=
    if env_file_exists
    then {| skip_env_variable_tests := false;
            skip_neo4j_test := skip_neo4j_test f |}
    else f in
  (if env_file_exists then Passed else Failed, f', [PathExists ".env"]).

(** Lines 20-23: [assertIsNotNone(os.getenv(variable_name), ...)]. *)
Definition env_variable_exists (env : environment) (variable_name : string)
  : bool :=
  match getenv env variable_name with Some _ => true | None => false end.

(** Lines 25-32; a failed assertion ends the test where it stands. *)
Definition test_neo4j_variables : test_body := fun env f =>
  if skip_env_variable_tests f then (Skipped, f, [])
  else if negb (env_variable_exists env "NEO4J_URI") then
    (Failed, f, [GetEnv "NEO4J_URI"])
  else if negb (env_variable_exists env "NEO4J_USERNAME") then
    (Failed, f, [GetEnv "NEO4J_URI"; GetEnv "NEO4J_USERNAME"])
  else if negb (env_variable_exists env "NEO4J_PASSWORD") then
    (Failed, f,
     [GetEnv "NEO4J_URI"; GetEnv "NEO4J_USERNAME"; GetEnv "NEO4J_PASSWORD"])
  else
    (Passed,
     {| skip_env_variable_tests := skip_env_variable_tests f;
        skip_neo4j_test := false |},
     [GetEnv "NEO4J_URI"; GetEnv "NEO4J_USERNAME"; GetEnv "NEO4J_PASSWORD"]).

(** Lines 34-56. *)
Definition test_neo4j_connection : test_body := fun env f =>
  if skip_neo4j_test f then (Skipped, f, [])
  else
    let uri := getenv env "NEO4J_URI" in
    let username := getenv env "NEO4J_USERNAME" in
    let password := getenv env "NEO4J_PASSWORD" in
    let asked :=
      [GetEnv "NEO4J_URI"; GetEnv "NEO4J_USERNAME"; GetEnv "NEO4J_PASSWORD";
       MakeDriver uri username password] in
    match connect env uri username password with
    | DriverRaises => (Errored, f, asked)
    | VerifyRaises => (Failed, f, asked ++ [VerifyConnectivity; CloseDriver])
    | Connected => (Passed, f, asked ++ [VerifyConnectivity; CloseDriver])
    end.

(** The tests run one after the other on the same class. *)
Fixpoint run (tests : list test_body) (env : environment) (f : flags)
  : list outcome * flags * list call :=
  match tests with
  | [] => ([], f, [])
  | test :: rest =>
      let '(o, f', c) := test env f in
      let '(os, f'', cs) := run rest env f' in
      (o :: os, f'', c ++ cs)
  end.

(** Lines 58-63. *)
Definition suite : list test_body :=
  [test_env_file_exists; test_neo4j_variables; test_neo4j_connection].

(** The environment file is there and the three variables are set. *)
Definition ready (env : environment) : Prop :=
  path_exists env ".env" = true
  /\ getenv env "NEO4J_URI" <> None
  /\ getenv env "NEO4J_USERNAME" <> None
  /\ getenv env "NEO4J_PASSWORD" <> None.

(** What the two attributes tell about the environment. *)
Definition sound (env : environment) (f : flags) : Prop :=
  (skip_env_variable_tests f = false -> path_exists env ".env" = true)
  /\ (skip_neo4j_test f = false -> ready env).

Definition is_test (t : test_body) : Prop :=
  t = test_env_file_exists \/ t = test_neo4j_variables
  \/ t = test_neo4j_connection.

Definition is_make_driver (c : call) : bool :=
  match c with MakeDriver _ _ _ => true | _ => false end.

(** An environment given by what exists and what is set. *)
Definition env_of (files : list string) (vars : Dict.t string)
  (database : connection) : environment :=
  {| path_exists := fun p => PyStr.str_in p files;
     getenv := fun n => Dict.get n vars;
     connect := fun _ _ _ => database |}.

(** The file is there, the variables are set, the database answers. *)
Definition complete : environment :=
  env_of [".env"]
    [("NEO4J_URI", "neo4j://localhost"); ("NEO4J_USERNAME", "neo4j");
     ("NEO4J_PASSWORD", "secret")]
    Connected.

End TestEnvironment.

(** * Properties *)

(** ** Text *)

Lemma append_assoc (a b c : string) :
  ((a ++ b) ++ c = a ++ (b ++ c))%string.
Proof.
  induction a as [|x a IH]; simpl; [reflexivity | now rewrite IH].
Qed.

Lemma append_empty_r (a : string) : (a ++ "")%string = a.
Proof.
  induction a as [|x a IH]; simpl; [reflexivity | now rewrite IH].
Qed.

Lemma length_append (a b : string) :
  String.length (a ++ b) = String.length a + String.length b.
Proof.
  induction a as [|x a IH]; simpl; [reflexivity | now rewrite IH].
Qed.

Lemma has_prefix_append (a b : string) : PyStr.has_prefix a (a ++ b) = true.
Proof.
  induction a as [|x a IH]; cbn [append PyStr.has_prefix]; [reflexivity|].
  now rewrite Ascii.eqb_refl.
Qed.

Lemma all_chars_append (p : ascii -> bool) (a b : string) :
  all_chars p (a ++ b) = all_chars p a && all_chars p b.
Proof.
  induction a as [|x a IH]; simpl; [reflexivity|].
  now rewrite IH, andb_assoc.
Qed.

Lemma is_word_not_open (c : ascii) :
  PyStr.is_word c = true -> Ascii.eqb c "{" = false.
Proof.
  destruct (Ascii.eqb_spec c "{"); [subst; discriminate | reflexivity].
Qed.

Lemma is_word_not_close (c : ascii) :
  PyStr.is_word c = true -> c <> "}"%char.
Proof. intros Hc ->. discriminate. Qed.

Lemma word_no_open_brace (s : string) :
  all_chars PyStr.is_word s = true -> no_open_brace s = true.
Proof.
  unfold no_open_brace.
  induction s as [|c s IH]; simpl; [reflexivity|].
  intros [Hc Hs]%andb_prop.
  now rewrite (is_word_not_open c Hc), IH.
Qed.

(** Two names followed by a closing brace: one is a prefix of the other
    only if they are the same name. *)
Lemma prefix_name_close (p q r : string) :
  all_chars PyStr.is_word p = true ->
  all_chars PyStr.is_word q = true ->
  PyStr.has_prefix (p ++ "}") (q ++ String "}" r) = true -> p = q.
Proof.
  revert q.
  induction p as [|x p IH]; intros [|y q];
    cbn [append PyStr.has_prefix all_chars]; intros Hp Hq Hpre.
  - reflexivity.
  - apply andb_prop in Hq as [Hy _], Hpre as [Hpre _].
    apply Ascii.eqb_eq in Hpre. subst y. discriminate.
  - apply andb_prop in Hp as [Hx _], Hpre as [Hpre _].
    apply Ascii.eqb_eq in Hpre. subst x. discriminate.
  - apply andb_prop in Hp as [_ Hp], Hq as [_ Hq], Hpre as [Hxy Hpre].
    apply Ascii.eqb_eq in Hxy. subst y.
    f_equal. now apply IH.
Qed.

(** *** [replace] on a template made of segments *)

Lemma replace_from_skip (old new x r : string) :
  PyStr.replace_from old new (String.length x) (x ++ r)
  = PyStr.replace_from old new 0 r.
Proof. induction x as [|c x IH]; simpl; [reflexivity | exact IH]. Qed.

Lemma replace_from_literal (o new lit r : string) :
  no_open_brace lit = true ->
  PyStr.replace_from (String "{" o) new 0 (lit ++ r)
  = (lit ++ PyStr.replace_from (String "{" o) new 0 r)%string.
Proof.
  unfold no_open_brace.
  induction lit as [|c lit IH]; intros Hlit; [reflexivity|].
  simpl in Hlit. apply andb_prop in Hlit as [Hc Hlit].
  cbn [append PyStr.replace_from PyStr.has_prefix].
  rewrite Ascii.eqb_sym, (proj1 (negb_true_iff _) Hc). cbn [andb].
  now rewrite IH.
Qed.

Lemma replace_from_hole (p new q r : string) :
  is_name p = true -> is_name q = true ->
  PyStr.replace_from ("{" ++ p ++ "}") new 0 (("{" ++ q ++ "}") ++ r)
  = ((if String.eqb q p then new else "{" ++ q ++ "}")
       ++ PyStr.replace_from ("{" ++ p ++ "}") new 0 r)%string.
Proof.
  unfold is_name. intros [_ Hp]%andb_prop [_ Hq]%andb_prop.
  destruct (String.eqb_spec q p) as [->|Hne].
  - change (("{" ++ p ++ "}") ++ r)%string
      with (String "{" ((p ++ "}") ++ r))%string.
    change ("{" ++ p ++ "}")%string with (String "{" (p ++ "}"))%string.
    cbn [PyStr.replace_from PyStr.has_prefix].
    rewrite Ascii.eqb_refl, has_prefix_append.
    cbn [andb String.length Nat.sub].
    now rewrite Nat.sub_0_r, replace_from_skip.
  - change (("{" ++ q ++ "}") ++ r)%string
      with (String "{" ((q ++ "}") ++ r))%string.
    change ("{" ++ p ++ "}")%string with (String "{" (p ++ "}"))%string.
    cbn [PyStr.replace_from PyStr.has_prefix].
    rewrite Ascii.eqb_refl. cbn [andb].
    destruct (PyStr.has_prefix (p ++ "}") ((q ++ "}") ++ r)) eqn:Hpre.
    + exfalso. apply Hne. symmetry.
      apply (prefix_name_close p q r Hp Hq).
      now rewrite append_assoc in Hpre.
    + rewrite replace_from_literal.
      * reflexivity.
      * unfold no_open_brace. rewrite all_chars_append.
        fold (no_open_brace q). now rewrite word_no_open_brace.
Qed.

Lemma fill_single (p v : string) (g : segment) :
  fill [(p, v)] g
  = match g with
    | Lit text => Lit text
    | Hole q => if String.eqb q p then Lit v else Hole q
    end.
Proof. destruct g as [text|q]; cbn; [reflexivity | now destruct (q =? p)%string]. Qed.

Lemma replace_render (p v : string) (segs : list segment) :
  is_name p = true ->
  forallb wf_segment segs = true ->
  PyStr.replace ("{" ++ p ++ "}") v (render segs)
  = render (map (fill [(p, v)]) segs).
Proof.
  intros Hp.
  change (PyStr.replace ("{" ++ p ++ "}") v (render segs))
    with (PyStr.replace_from ("{" ++ p ++ "}") v 0 (render segs)).
  induction segs as [|g segs IH]; intros Hwf; [reflexivity|].
  cbn [forallb] in Hwf. apply andb_prop in Hwf as [Hg Hwf].
  cbn [render map]. rewrite fill_single, <- (IH Hwf).
  destruct g as [text|q]; cbn [render_segment wf_segment] in *.
  - now apply replace_from_literal.
  - rewrite (replace_from_hole p v q _ Hp Hg).
    now destruct (q =? p)%string.
Qed.

Lemma fill_cons (p v : string) (values : Dict.t string) (g : segment) :
  fill values (fill [(p, v)] g) = fill ((p, v) :: values) g.
Proof.
  destruct g as [text|q]; [reflexivity|].
  cbn. now destruct (q =? p)%string.
Qed.

Lemma wf_fill (values : Dict.t string) (segs : list segment) :
  (forall k v, In (k, v) values -> no_open_brace v = true) ->
  forallb wf_segment segs = true ->
  forallb wf_segment (map (fill values) segs) = true.
Proof.
  intros Hval. induction segs as [|g segs IH]; [reflexivity|].
  cbn [forallb map]. intros [Hg Hwf]%andb_prop.
  rewrite (IH Hwf), andb_true_r.
  destruct g as [text|q]; [exact Hg|].
  cbn [fill]. destruct (Dict.get q values) as [v|] eqn:Hget; [|exact Hg].
  cbn [wf_segment]. revert Hget Hval. clear.
  induction values as [|[k w] values IH]; [discriminate|].
  cbn [Dict.get]. destruct (q =? k)%string.
  - intros [= ->] Hval. apply (Hval k). now left.
  - intros Hget Hval. apply IH; [exact Hget|].
    intros k' v' Hin. apply (Hval k'). now right.
Qed.

(** On a template made of literals and holes, the chain of [replace]
    calls fills every hole with its value. *)
Lemma substitute_render (values : Dict.t string) (segs : list segment) :
  (forall k v, In (k, v) values ->
     is_name k = true /\ no_open_brace v = true) ->
  forallb wf_segment segs = true ->
  substitute values (render segs) = render (map (fill values) segs).
Proof.
  revert segs.
  induction values as [|[p v] values IH]; intros segs Hval Hwf.
  - cbn [substitute]. f_equal. clear.
    induction segs as [|[text|q] segs IH]; cbn; congruence.
  - cbn [substitute].
    destruct (Hval p v (or_introl eq_refl)) as [Hp Hv].
    rewrite (replace_render p v segs Hp Hwf), IH.
    + f_equal. rewrite map_map. apply map_ext. intros g. apply fill_cons.
    + intros k w Hin. apply Hval. now right.
    + apply wf_fill; [|exact Hwf].
      intros k w [[= <- <-]|[]]. exact Hv.
Qed.

(** *** [findall] on a template made of segments *)

Lemma match_placeholder_other (c : ascii) (s : string) :
  Ascii.eqb c "{" = false -> PyStr.match_placeholder (String c s) = None.
Proof.
  destruct c as [[] [] [] [] [] [] [] []]; try reflexivity; discriminate.
Qed.

Lemma findall_from_skip (x r : string) :
  PyStr.findall_from (String.length x) (x ++ r) = PyStr.findall_from 0 r.
Proof. induction x as [|c x IH]; [reflexivity | exact IH]. Qed.

Lemma findall_from_literal (lit r : string) :
  no_open_brace lit = true ->
  PyStr.findall_from 0 (lit ++ r) = PyStr.findall_from 0 r.
Proof.
  unfold no_open_brace.
  induction lit as [|c lit IH]; [reflexivity|].
  cbn [all_chars]. intros [Hc Hlit]%andb_prop.
  apply negb_true_iff in Hc.
  cbn [append PyStr.findall_from].
  rewrite (match_placeholder_other c _ Hc). now apply IH.
Qed.

Lemma span_word_name (q r : string) :
  all_chars PyStr.is_word q = true ->
  PyStr.span_word (q ++ String "}" r) = (q, String "}" r).
Proof.
  induction q as [|c q IH]; [reflexivity|].
  cbn [all_chars append PyStr.span_word]. intros [Hc Hq]%andb_prop.
  now rewrite Hc, (IH Hq).
Qed.

Lemma findall_from_hole (q r : string) :
  is_name q = true ->
  PyStr.findall_from 0 (("{" ++ q ++ "}") ++ r)
  = q :: PyStr.findall_from 0 r.
Proof.
  unfold is_name. intros [Hne Hq]%andb_prop.
  change (("{" ++ q ++ "}") ++ r)%string
    with (String "{" ((q ++ "}") ++ r))%string.
  cbn [PyStr.findall_from PyStr.match_placeholder].
  rewrite append_assoc.
  change ("}" ++ r)%string with (String "}" r).
  rewrite (span_word_name q r Hq).
  destruct q as [|c q]; [discriminate|].
  f_equal.
  change (String c q ++ String "}" r)%string
    with (String c q ++ ("}" ++ r))%string.
  rewrite <- append_assoc.
  replace (S (String.length (String c q)))
    with (String.length (String c q ++ "}")).
  - apply findall_from_skip.
  - rewrite length_append. cbn. lia.
Qed.

(** On a template made of literals and holes, the placeholders found are
    the holes, one per occurrence, left to right. *)
Lemma findall_render (segs : list segment) :
  forallb wf_segment segs = true ->
  PyStr.findall_placeholders (render segs) = holes segs.
Proof.
  unfold PyStr.findall_placeholders.
  induction segs as [|g segs IH]; [reflexivity|].
  cbn [forallb render]. intros [Hg Hwf]%andb_prop.
  destruct g as [text|q]; cbn [render_segment wf_segment holes] in *.
  - rewrite (findall_from_literal text _ Hg). now apply IH.
  - rewrite (findall_from_hole q _ Hg). f_equal. now apply IH.
Qed.

(** *** [int] on decimal numerals *)

Lemma uint_value_of_uint_acc (d : Decimal.uint) (acc : positive) :
  uint_value d (Zpos acc) = Zpos (Pos.of_uint_acc d acc).
Proof.
  revert acc. induction d; intros acc; cbn [uint_value Pos.of_uint_acc];
    try reflexivity; rewrite <- IHd; f_equal; lia.
Qed.

Lemma uint_value_of_uint (d : Decimal.uint) :
  uint_value d 0 = Z.of_N (Pos.of_uint d).
Proof.
  induction d; cbn [uint_value Pos.of_uint]; try reflexivity;
    try (cbn [Z.mul Z.add]; rewrite uint_value_of_uint_acc; reflexivity).
  exact IHd.
Qed.

Lemma parse_digits_numeral (d : Decimal.uint) (acc : Z) (prev : bool) :
  (d <> Decimal.Nil \/ prev = true) ->
  PyStr.parse_digits acc prev (NilEmpty.string_of_uint d)
  = Some (uint_value d acc).
Proof.
  revert acc prev.
  induction d; intros acc prev Hd;
    cbn [NilEmpty.string_of_uint PyStr.parse_digits uint_value];
    try (change (PyStr.isdigit _) with true; cbv iota;
         rewrite IHd by (now right); apply f_equal, f_equal;
         set (v := PyStr.digit_val _); vm_compute in v; subst v; lia).
  destruct Hd as [Hd| ->]; [congruence | reflexivity].
Qed.

Lemma all_chars_digits (d : Decimal.uint) :
  all_chars PyStr.isdigit (NilEmpty.string_of_uint d) = true.
Proof. induction d; cbn [NilEmpty.string_of_uint all_chars]; auto. Qed.

Lemma lstrip_no_space (c : ascii) (s : string) :
  PyStr.isspace c = false -> PyStr.lstrip (String c s) = String c s.
Proof. intros Hc. cbn [PyStr.lstrip]. now rewrite Hc. Qed.

Lemma rstrip_no_space (s : string) :
  all_chars (fun c => negb (PyStr.isspace c)) s = true -> PyStr.rstrip s = s.
Proof.
  induction s as [|c s IH]; [reflexivity|].
  cbn [all_chars PyStr.rstrip]. intros [Hc Hs]%andb_prop.
  rewrite (IH Hs). apply negb_true_iff in Hc. rewrite Hc.
  now destruct s.
Qed.

Lemma strip_no_space (s : string) :
  all_chars (fun c => negb (PyStr.isspace c)) s = true -> PyStr.strip s = s.
Proof.
  intros Hs. unfold PyStr.strip.
  destruct s as [|c s]; [reflexivity|].
  cbn [all_chars] in Hs. pose proof Hs as [Hc _]%andb_prop.
  apply negb_true_iff in Hc.
  rewrite (lstrip_no_space c s Hc). now apply rstrip_no_space.
Qed.

Lemma rstrip_rstrip (s : string) :
  PyStr.rstrip (PyStr.rstrip s) = PyStr.rstrip s.
Proof.
  induction s as [|c s IH]; [reflexivity|].
  cbn [PyStr.rstrip]. destruct (PyStr.rstrip s) as [|c' r] eqn:Hr.
  - destruct (PyStr.isspace c) eqn:Hc; [reflexivity|].
    cbn [PyStr.rstrip]. now rewrite Hc.
  - cbn [PyStr.rstrip]. cbn [PyStr.rstrip] in IH.
    fold PyStr.rstrip in IH. change (PyStr.rstrip (String c' r))
      with (match PyStr.rstrip r with
            | EmptyString =>
                if PyStr.isspace c' then EmptyString
                else String c' EmptyString
            | r' => String c' r'
            end) in IH.
    now rewrite IH.
Qed.

Lemma rstrip_head (c : ascii) (s : string) :
  PyStr.isspace c = false ->
  exists r, PyStr.rstrip (String c s) = String c r.
Proof.
  intros Hc. cbn [PyStr.rstrip]. rewrite Hc.
  destruct (PyStr.rstrip s); eauto.
Qed.

Lemma lstrip_head (s : string) :
  PyStr.lstrip s = EmptyString
  \/ exists c r, PyStr.lstrip s = String c r /\ PyStr.isspace c = false.
Proof.
  induction s as [|c s IH]; [now left|].
  cbn [PyStr.lstrip]. destruct (PyStr.isspace c) eqn:Hc; [exact IH|].
  right. now exists c, s.
Qed.

(** [strip] changes nothing in a text that was stripped. *)
Lemma strip_strip (s : string) :
  PyStr.strip (PyStr.strip s) = PyStr.strip s.
Proof.
  unfold PyStr.strip.
  destruct (lstrip_head s) as [->|(c & r & -> & Hc)]; [reflexivity|].
  destruct (rstrip_head c r Hc) as (r' & Hr).
  rewrite Hr, (lstrip_no_space c r' Hc), <- Hr. apply rstrip_rstrip.
Qed.

Lemma all_chars_impl (p q : ascii -> bool) (s : string) :
  (forall c, p c = true -> q c = true) ->
  all_chars p s = true -> all_chars q s = true.
Proof.
  intros Hpq. induction s as [|c s IH]; [reflexivity|].
  cbn [all_chars]. intros [Hc Hs]%andb_prop.
  now rewrite (Hpq c Hc), IH.
Qed.

Lemma isdigit_not_space (c : ascii) :
  PyStr.isdigit c = true -> negb (PyStr.isspace c) = true.
Proof.
  destruct c as [[] [] [] [] [] [] [] []]; try reflexivity; discriminate.
Qed.

Lemma count_digits_numeral (d : Decimal.uint) :
  PyStr.count_digits (NilEmpty.string_of_uint d) = Decimal.nb_digits d.
Proof.
  induction d; cbn [NilEmpty.string_of_uint PyStr.count_digits
                    Decimal.nb_digits];
    try reflexivity; change (PyStr.isdigit _) with true; cbv iota;
    now rewrite IHd.
Qed.

Lemma parse_numeral_within (d : string) :
  PyStr.count_digits d <= PyStr.int_max_str_digits ->
  PyStr.parse_numeral d = PyStr.parse_digits 0 false d.
Proof.
  intros Hd. unfold PyStr.parse_numeral.
  now rewrite (proj2 (Nat.leb_le _ _) Hd).
Qed.

Lemma parse_numeral_beyond (d : string) :
  PyStr.int_max_str_digits < PyStr.count_digits d ->
  PyStr.parse_numeral d = None.
Proof.
  intros Hd. unfold PyStr.parse_numeral.
  now rewrite (proj2 (Nat.leb_gt _ _) Hd).
Qed.

Lemma int_of_numeral (d : Decimal.uint) :
  d <> Decimal.Nil ->
  Decimal.nb_digits d <= PyStr.int_max_str_digits ->
  PyStr.int (NilEmpty.string_of_uint d) = Some (uint_value d 0).
Proof.
  intros Hd Hn. unfold PyStr.int.
  rewrite strip_no_space
    by (apply (all_chars_impl PyStr.isdigit); [apply isdigit_not_space|];
        apply all_chars_digits).
  rewrite <- (parse_digits_numeral d 0 false) by (now left).
  rewrite <- parse_numeral_within by (now rewrite count_digits_numeral).
  destruct d; try congruence; reflexivity.
Qed.

Lemma int_of_negative_numeral (d : Decimal.uint) :
  d <> Decimal.Nil ->
  Decimal.nb_digits d <= PyStr.int_max_str_digits ->
  PyStr.int (String "-" (NilEmpty.string_of_uint d))
  = Some (- uint_value d 0)%Z.
Proof.
  intros Hd Hn. unfold PyStr.int.
  rewrite strip_no_space.
  - rewrite parse_numeral_within by (now rewrite count_digits_numeral).
    now rewrite (parse_digits_numeral d 0 false) by (now left).
  - cbn [all_chars]. apply andb_true_intro. split; [reflexivity|].
    apply (all_chars_impl PyStr.isdigit); [apply isdigit_not_space|].
    apply all_chars_digits.
Qed.

Lemma numeral_of_pos (p : positive) :
  NilZero.string_of_uint (Pos.to_uint p)
  = NilEmpty.string_of_uint (Pos.to_uint p).
Proof.
  pose proof (DecimalPos.Unsigned.to_uint_nonnil p) as Hnil.
  now destruct (Pos.to_uint p).
Qed.

(** The digits of [str(z)]. *)
Lemma count_digits_str_of_Z (z : Z) :
  PyStr.count_digits (str_of_Z z)
  = match z with
    | Z0 => 1
    | Zpos p | Zneg p => Decimal.nb_digits (Pos.to_uint p)
    end.
Proof.
  unfold str_of_Z.
  destruct z as [|p|p]; [reflexivity| |];
    cbn [Z.to_int NilZero.string_of_int]; rewrite numeral_of_pos.
  - apply count_digits_numeral.
  - cbn [PyStr.count_digits]. change (PyStr.isdigit "-") with false.
    cbv iota. apply count_digits_numeral.
Qed.

(** [int(str(z)) == z] for a numeral within the digit limit: [int] reads
    decimal numerals in base 10. *)
Lemma int_str_of_Z (z : Z) :
  PyStr.count_digits (str_of_Z z) <= PyStr.int_max_str_digits ->
  PyStr.int (str_of_Z z) = Some z.
Proof.
  rewrite count_digits_str_of_Z. unfold str_of_Z.
  pose proof DecimalPos.Unsigned.to_uint_nonnil as Hnil.
  pose proof DecimalPos.Unsigned.of_to as Hof.
  destruct z as [|p|p]; [reflexivity| |]; intros Hn;
    cbn [Z.to_int NilZero.string_of_int]; rewrite numeral_of_pos.
  - now rewrite int_of_numeral, uint_value_of_uint, Hof.
  - now rewrite int_of_negative_numeral, uint_value_of_uint, Hof.
Qed.

(** A text with more digits than the limit is refused by [int]. *)
Lemma int_beyond_limit (s : string) :
  PyStr.int_max_str_digits < PyStr.count_digits (PyStr.strip s) ->
  PyStr.int s = None.
Proof.
  unfold PyStr.int. destruct (PyStr.strip s) as [|c d].
  - intros Hd. now apply parse_numeral_beyond.
  - intros Hd.
    assert (Hplain : PyStr.parse_numeral (String c d) = None)
      by now apply parse_numeral_beyond.
    assert (Hsigned : PyStr.isdigit c = false ->
                      PyStr.parse_numeral d = None).
    { intros Hc. apply parse_numeral_beyond.
      cbn [PyStr.count_digits] in Hd. now rewrite Hc in Hd. }
    destruct c as [[] [] [] [] [] [] [] []]; try exact Hplain;
      now rewrite Hsigned.
Qed.

(** *** [lower] and the spellings of a word *)

Lemma lower_char_inv (a c : ascii) :
  PyStr.lower_char a = c ->
  a = c \/ (PyStr.islower c = true /\ a = upper_char c).
Proof.
  intros <-.
  destruct a as [[] [] [] [] [] [] [] []];
    first [left; reflexivity | right; split; reflexivity].
Qed.

Lemma lower_upper_char (c : ascii) :
  PyStr.islower c = true -> PyStr.lower_char (upper_char c) = c.
Proof.
  destruct c as [[] [] [] [] [] [] [] []]; intros Hc;
    vm_compute in Hc; try discriminate Hc; reflexivity.
Qed.

Lemma lower_char_fixed (c : ascii) :
  PyStr.isupper c = false -> PyStr.lower_char c = c.
Proof. intros Hc. unfold PyStr.lower_char. now rewrite Hc. Qed.

(** The texts that [lower] sends to a word without capitals are the
    spellings of that word. *)
Lemma lower_spellings (w : string) :
  all_chars (fun c => negb (PyStr.isupper c)) w = true ->
  forall u, PyStr.lower u = w <-> In u (spellings w).
Proof.
  induction w as [|c w IH]; intros Hw u.
  - cbn [spellings In]. split.
    + destruct u; [now left | discriminate].
    + now intros [<-|[]].
  - cbn [all_chars] in Hw. apply andb_prop in Hw as [Hc Hw].
    apply negb_true_iff in Hc. specialize (IH Hw).
    cbn [spellings]. rewrite in_flat_map. split.
    + destruct u as [|a u]; cbn [PyStr.lower]; [discriminate|].
      intros [= Ha Hu]. exists u. split; [now apply IH|].
      destruct (lower_char_inv a c Ha) as [->|(Hlow & ->)].
      * destruct (PyStr.islower c); now left.
      * rewrite Hlow. right. now left.
    + intros (r & Hr & Hu). apply IH in Hr.
      destruct (PyStr.islower c) eqn:Hlow.
      * destruct Hu as [<-|[<-|[]]]; cbn [PyStr.lower]; rewrite Hr.
        -- now rewrite lower_char_fixed.
        -- now rewrite lower_upper_char.
      * destruct Hu as [<-|[]]. cbn [PyStr.lower].
        now rewrite Hr, lower_char_fixed.
Qed.

(** *** [float] on decimal numerals of integers *)

Lemma digits_run_digit (c : ascii) (s' : string) (acc : Z) (n : nat) :
  PyStr.isdigit c = true ->
  match s' with
  | String u _ => Ascii.eqb u "_" = false
  | EmptyString => True
  end ->
  PyFloat.digits_run acc n (String c s')
  = PyFloat.digits_run (10 * acc + PyStr.digit_val c) (S n) s'.
Proof.
  intros Hc Hs. cbn [PyFloat.digits_run]. rewrite Hc.
  destruct s' as [|u t]; [reflexivity|]. now rewrite Hs.
Qed.

Lemma numeral_head (d : Decimal.uint) :
  match NilEmpty.string_of_uint d with
  | String u _ => Ascii.eqb u "_" = false
  | EmptyString => True
  end.
Proof. destruct d; cbn [NilEmpty.string_of_uint]; trivial. Qed.

Lemma digits_run_numeral (d : Decimal.uint) (acc : Z) (n : nat) :
  PyFloat.digits_run acc n (NilEmpty.string_of_uint d)
  = (uint_value d acc, n + Decimal.nb_digits d, EmptyString).
Proof.
  revert acc n.
  induction d; intros acc n;
    cbn [NilEmpty.string_of_uint uint_value Decimal.nb_digits];
    try (rewrite digits_run_digit by (reflexivity || apply numeral_head);
         rewrite IHd, Nat.add_succ_r; cbn [Nat.add];
         set (v := PyStr.digit_val _); vm_compute in v; subst v;
         rewrite ?Z.add_0_r; reflexivity).
  cbn [PyFloat.digits_run]. now rewrite Nat.add_0_r.
Qed.

Lemma parse_decimal_numeral (d : Decimal.uint) :
  d <> Decimal.Nil ->
  PyFloat.parse_decimal (NilEmpty.string_of_uint d)
  = Some (uint_value d 0, 0%Z).
Proof.
  intros Hd. unfold PyFloat.parse_decimal.
  rewrite digits_run_numeral. cbn [Nat.add].
  destruct d; try congruence; reflexivity.
Qed.

Lemma parse_abs_digit (neg : bool) (c : ascii) (s : string) :
  PyStr.isdigit c = true ->
  PyFloat.parse_abs neg (String c s)
  = match PyFloat.parse_decimal (String c s) with
    | Some (m, e) => Some (PyFloat.of_decimal neg m e)
    | None => None
    end.
Proof.
  intros Hc. unfold PyFloat.parse_abs. cbn [PyStr.lower].
  destruct c as [[] [] [] [] [] [] [] []]; vm_compute in Hc;
    try discriminate Hc; reflexivity.
Qed.

Lemma float_digit (c : ascii) (s : string) :
  PyStr.isdigit c = true ->
  PyStr.strip (String c s) = String c s ->
  PyFloat.float (String c s) = PyFloat.parse_abs false (String c s).
Proof.
  intros Hc Hs. unfold PyFloat.float. rewrite Hs.
  destruct c as [[] [] [] [] [] [] [] []]; vm_compute in Hc;
    try discriminate Hc; reflexivity.
Qed.

Lemma of_decimal_integer (neg : bool) (p : positive) :
  PyFloat.of_decimal neg (Zpos p) 0
  = binary_normalize PyFloat.prec PyFloat.emax
      (if neg then Zneg p else Zpos p) 0 false.
Proof.
  unfold PyFloat.of_decimal. change (10 ^ 0)%Z with 1%Z.
  rewrite Z.mul_1_r. now destruct neg.
Qed.

Lemma numeral_no_space (d : Decimal.uint) :
  all_chars (fun c => negb (PyStr.isspace c)) (NilEmpty.string_of_uint d)
  = true.
Proof.
  apply (all_chars_impl PyStr.isdigit); [apply isdigit_not_space|].
  apply all_chars_digits.
Qed.

Lemma float_of_numeral (neg : bool) (p : positive) :
  PyFloat.parse_abs neg (NilEmpty.string_of_uint (Pos.to_uint p))
  = Some (binary_normalize PyFloat.prec PyFloat.emax
            (if neg then Zneg p else Zpos p) 0 false).
Proof.
  pose proof (DecimalPos.Unsigned.to_uint_nonnil p) as Hnil.
  pose proof (DecimalPos.Unsigned.of_to p) as Hof.
  pose proof (parse_decimal_numeral _ Hnil) as Hdec.
  rewrite uint_value_of_uint, Hof in Hdec. cbn [Z.of_N] in Hdec.
  destruct (Pos.to_uint p) eqn:Hd; try congruence;
    cbn [NilEmpty.string_of_uint] in *;
    rewrite parse_abs_digit by reflexivity; rewrite Hdec;
    now rewrite of_decimal_integer.
Qed.

(** [float(str(z))] is the binary64 number nearest to [z]. *)
Lemma float_str_of_Z (z : Z) :
  PyFloat.float (str_of_Z z)
  = Some (binary_normalize PyFloat.prec PyFloat.emax z 0 false).
Proof.
  unfold str_of_Z.
  destruct z as [|p|p]; [reflexivity| |];
    cbn [Z.to_int NilZero.string_of_int]; rewrite numeral_of_pos.
  - rewrite <- (float_of_numeral false p).
    pose proof (DecimalPos.Unsigned.to_uint_nonnil p) as Hnil.
    pose proof (strip_no_space _ (numeral_no_space (Pos.to_uint p))) as Hs.
    destruct (Pos.to_uint p); try congruence;
      cbn [NilEmpty.string_of_uint] in *; now apply float_digit.
  - rewrite <- (float_of_numeral true p). unfold PyFloat.float.
    rewrite strip_no_space; [reflexivity|].
    cbn [all_chars]. apply andb_true_intro. split; [reflexivity|].
    apply numeral_no_space.
Qed.

(** ** The argument builder *)

Lemma str_in_In (x : string) (xs : list string) :
  PyStr.str_in x xs = true <-> In x xs.
Proof.
  unfold PyStr.str_in. rewrite existsb_exists. split.
  - intros (y & Hy & Heq). apply String.eqb_eq in Heq. now subst.
  - intros Hx. exists x. split; [exact Hx | apply String.eqb_refl].
Qed.

Lemma is_empty_false (s : string) : s <> "" -> PyStr.is_empty s = false.
Proof. destruct s; [congruence | reflexivity]. Qed.

Lemma is_empty_true (s : string) : PyStr.is_empty s = true -> s = "".
Proof. destruct s; [reflexivity | discriminate]. Qed.

Lemma get_set_same {V : Type} (k : string) (v : V) (d : Dict.t V) :
  Dict.get k (Dict.set k v d) = Some v.
Proof.
  induction d as [|[k' v'] d IH]; cbn [Dict.set Dict.get].
  - now rewrite String.eqb_refl.
  - destruct (String.eqb_spec k k') as [->|Hne]; cbn [Dict.get].
    + now rewrite String.eqb_refl.
    + now destruct (String.eqb_spec k k').
Qed.

Lemma get_set_other {V : Type} (k k' : string) (v : V) (d : Dict.t V) :
  k <> k' -> Dict.get k (Dict.set k' v d) = Dict.get k d.
Proof.
  intros Hne.
  induction d as [|[k0 v0] d IH]; cbn [Dict.set Dict.get].
  - now destruct (String.eqb_spec k k').
  - destruct (String.eqb_spec k' k0) as [->|Hne0]; cbn [Dict.get].
    + now destruct (String.eqb_spec k k0).
    + now rewrite IH.
Qed.

Lemma set_fresh {V : Type} (k : string) (v : V) (d : Dict.t V) :
  ~ In k (Dict.keys d) -> Dict.set k v d = d ++ [(k, v)].
Proof.
  induction d as [|[k' v'] d IH]; [reflexivity|].
  cbn [Dict.keys map fst In Dict.set app]. intros Hk.
  destruct (String.eqb_spec k k') as [->|_]; [tauto|].
  f_equal. apply IH. unfold Dict.keys. tauto.
Qed.

Section Monad.

Context {Srv : Type}.

Lemma after_nil {A : Type} (x : list event * result A * world Srv) :
  after [] x = x.
Proof. now destruct x as [[t r] w]. Qed.

Lemma after_after {A : Type} (t t' : list event)
  (x : list event * result A * world Srv) :
  after t (after t' x) = after (t ++ t') x.
Proof. destruct x as [[t0 r] w]. cbn. now rewrite app_assoc. Qed.

Lemma after_inv {A : Type} (t t' : list event) (r : result A)
  (w : world Srv) (x : list event * result A * world Srv) :
  after t x = (t', r, w) -> exists t0, x = (t0, r, w) /\ t' = t ++ t0.
Proof.
  destruct x as [[t0 r0] w0]. cbn. intros [= <- <- <-]. now exists t0.
Qed.

Lemma bind_ok {A B : Type} (m : M Srv A) (k : A -> M Srv B)
  (w w1 : world Srv) (t : list event) (a : A) :
  m w = (t, Ok a, w1) -> bind m k w = after t (k a w1).
Proof. unfold bind, after. now intros ->. Qed.

Lemma bind_raise {A B : Type} (m : M Srv A) (k : A -> M Srv B)
  (w w1 : world Srv) (t : list event) (e : exn) :
  m w = (t, Raise e, w1) -> bind m k w = (t, Raise e, w1).
Proof. unfold bind. now intros ->. Qed.

Lemma bind_print {B : Type} (m : message) (k : unit -> M Srv B)
  (w : world Srv) :
  bind (print m) k w = after [Print m] (k tt w).
Proof. reflexivity. Qed.

Lemma bind_ret {A B : Type} (a : A) (k : A -> M Srv B) (w : world Srv) :
  bind (ret a) k w = k a w.
Proof.
  unfold bind, ret. destruct (k a w) as [[t r] w']. reflexivity.
Qed.


Lemma bind_inv {A B : Type} (m : M Srv A) (k : A -> M Srv B)
  (w w' : world Srv) (t : list event) (r : result B) :
  bind m k w = (t, r, w') ->
  (exists e, m w = (t, Raise e, w') /\ r = Raise e)
  \/ (exists t1 a w1 t2,
        m w = (t1, Ok a, w1) /\ k a w1 = (t2, r, w') /\ t = t1 ++ t2).
Proof.
  unfold bind. destruct (m w) as [[t1 [a|e]] w1].
  - destruct (k a w1) as [[t2 r2] w2] eqn:Hk. intros [= <- <- <-].
    right. now exists t1, a, w1, t2.
  - intros [= <- <- <-]. left. now exists e.
Qed.

End Monad.

Section Facts.

Context {Srv : Type} `{Session Srv} `{JsonDecoder}.

(** What one round of the parameter loop does with a line, by cases. *)
Lemma enter_value_line (param_name param_type : string) (is_required : bool)
  (arguments : Dict.t value) (l : string) (rest : list keyboard)
  (srv : Srv) :
  enter_value param_name param_type is_required arguments (Line l :: rest)
    srv
  = match PyStr.strip l with
    | EmptyString =>
        if is_required then
          after [Input PromptEnterValue; Print MsgRequired]
            (enter_value param_name param_type is_required arguments rest
               srv)
        else ([Input PromptEnterValue], Ok arguments, Build_world rest srv)
    | user_input =>
        match convert param_type user_input with
        | Ok v =>
            ([Input PromptEnterValue],
             Ok (Dict.set param_name v arguments), Build_world rest srv)
        | Raise (ValueError _) =>
            after [Input PromptEnterValue; Print (MsgInvalidInput param_type)]
              (enter_value param_name param_type is_required arguments rest
                 srv)
        | Raise e =>
            ([Input PromptEnterValue], Raise e, Build_world rest srv)
        end
    end.
Proof.
  cbn [enter_value]. unfold after.
  destruct (PyStr.strip l) as [|c u]; cbn [PyStr.is_empty andb negb].
  - destruct is_required; cbn [negb andb]; [|reflexivity].
    now destruct (enter_value _ _ _ _ rest srv) as [[t r] w].
  - destruct (convert param_type (String c u)) as [v|[]]; reflexivity.
Qed.

(** The conversion by cases of the declared type. *)
Lemma convert_integer (user_input : string) :
  convert "integer" user_input
  = match PyStr.int user_input with
    | Some z => Ok (VInt z)
    | None => Raise (ValueError "invalid literal for int() with base 10")
    end.
Proof. reflexivity. Qed.

Lemma convert_number (user_input : string) :
  convert "number" user_input
  = match PyFloat.float user_input with
    | Some f => Ok (VFloat f)
    | None => Raise (ValueError "could not convert string to float")
    end.
Proof. reflexivity. Qed.

Lemma convert_boolean (user_input : string) :
  convert "boolean" user_input
  = Ok (VBool (PyStr.str_in (PyStr.lower user_input)
                 ["true"; "yes"; "1"; "y"])).
Proof. reflexivity. Qed.

Lemma convert_json (param_type user_input : string) :
  param_type = "object" \/ param_type = "array" ->
  convert param_type user_input
  = match json_loads user_input with
    | Decoded j => Ok (VJson j)
    | JSONDecodeError msg => Raise (ValueError msg)
    | DecoderFailure msg => Raise (OtherException msg)
    end.
Proof. now intros [-> | ->]. Qed.

Lemma convert_text (param_type user_input : string) :
  ~ In param_type ["integer"; "number"; "boolean"; "object"; "array"] ->
  convert param_type user_input = Ok (VStr user_input).
Proof.
  intros Ht. unfold convert.
  destruct (String.eqb_spec param_type "integer");
    [subst; exfalso; apply Ht; cbn; tauto|].
  destruct (String.eqb_spec param_type "number");
    [subst; exfalso; apply Ht; cbn; tauto|].
  destruct (String.eqb_spec param_type "boolean");
    [subst; exfalso; apply Ht; cbn; tauto|].
  destruct (String.eqb_spec param_type "object");
    [subst; exfalso; apply Ht; cbn; tauto|].
  destruct (String.eqb_spec param_type "array");
    [subst; exfalso; apply Ht; cbn; tauto|].
  reflexivity.
Qed.

(** What a conversion can raise: a [ValueError], or what the decoder
    failed with. *)
Lemma convert_raises (param_type user_input : string) (e : exn) :
  convert param_type user_input = Raise e ->
  (exists msg, e = ValueError msg)
  \/ (exists msg, e = OtherException msg
        /\ json_loads user_input = DecoderFailure msg
        /\ (param_type = "object" \/ param_type = "array")).
Proof.
  unfold convert.
  destruct (String.eqb param_type "integer").
  { destruct (PyStr.int user_input); [discriminate|].
    intros [= <-]. left. now eexists. }
  destruct (String.eqb param_type "number").
  { destruct (PyFloat.float user_input); [discriminate|].
    intros [= <-]. left. now eexists. }
  destruct (String.eqb param_type "boolean"); [discriminate|].
  destruct (String.eqb param_type "object" || String.eqb param_type "array")
    eqn:Hj; [|discriminate].
  destruct (json_loads user_input) as [j|msg|msg]; [discriminate| |].
  - intros [= <-]. left. now eexists.
  - intros [= <-]. right. exists msg. repeat split.
    apply orb_prop in Hj as [Hj|Hj]; apply String.eqb_eq in Hj; auto.
Qed.

(** The accepted spellings of the boolean words. *)
Lemma boolean_words (user_input : string) :
  PyStr.str_in (PyStr.lower user_input) ["true"; "yes"; "1"; "y"] = true
  <-> In user_input (flat_map spellings ["true"; "yes"; "1"; "y"]).
Proof.
  rewrite str_in_In, in_flat_map. split.
  - intros Hin. exists (PyStr.lower user_input). split; [exact Hin|].
    cbn [In] in Hin.
    destruct Hin as [Hw|[Hw|[Hw|[Hw|[]]]]]; rewrite <- Hw;
      apply lower_spellings; [reflexivity | now symmetry ..].
  - intros (w & Hw & Hu). cbn [In] in Hw.
    destruct Hw as [<-|[<-|[<-|[<-|[]]]]];
      apply lower_spellings in Hu; try reflexivity; rewrite Hu; cbn; tauto.
Qed.

(** C9. A schema without a ["properties"] key, the empty schema among
    them, gives the empty mapping: nothing is printed, no line is read,
    nothing is raised. *)
Theorem build_arguments_without_properties
  (required_key : option (list string)) (w : world Srv) :
  build_arguments_from_schema
    {| properties := None; required := required_key |} w
  = ([], Ok Dict.empty, w).
Proof. reflexivity. Qed.

(** C3. A non-empty input is stored after conversion by the declared
    type.  [integer] goes through [int], which reads base 10: the numeral
    of [z] gives [z] as long as it has no more digits than [int] accepts,
    and a text with more digits is refused.  [number] goes through
    [float]: the numeral of [z] gives the binary64 number nearest to [z],
    and the texts [3.14], [0.5], [1e3] and [-2.5e-1] give the numbers
    shown.  [boolean] is true exactly when the lowercased input is one
    of [true], [yes], [1], [y], that is when the input is one of these
    words in some mixture of small and capital letters, and false
    otherwise.  [object] and [array] give what [json.loads] decodes.
    Any other type, or none, gives the text itself. *)
Theorem coercion_by_declared_type
  (param_name : string) (param_info : ParamInfo) (is_required : bool)
  (arguments : Dict.t value) (l : string) (rest : list keyboard)
  (srv : Srv) :
  let user_input := PyStr.strip l in
  let param_type := type_of param_info in
  user_input <> "" ->
  (forall v, convert param_type user_input = Ok v ->
     enter_value param_name param_type is_required arguments
       (Line l :: rest) srv
     = ([Input PromptEnterValue], Ok (Dict.set param_name v arguments),
        Build_world rest srv))
  /\ (p_type param_info = Some "integer" ->
      forall z, PyStr.int user_input = Some z ->
                convert param_type user_input = Ok (VInt z))
  /\ (p_type param_info = Some "number" ->
      forall f, PyFloat.float user_input = Some f ->
                convert param_type user_input = Ok (VFloat f))
  /\ (p_type param_info = Some "boolean" ->
      exists b, convert param_type user_input = Ok (VBool b)
        /\ (b = true <->
            In (PyStr.lower user_input) ["true"; "yes"; "1"; "y"])
        /\ (b = true <->
            In user_input (flat_map spellings ["true"; "yes"; "1"; "y"])))
  /\ (p_type param_info = Some "object" \/ p_type param_info = Some "array" ->
      forall j, json_loads user_input = Decoded j ->
                convert param_type user_input = Ok (VJson j))
  /\ (p_type param_info = None
      \/ (exists t, p_type param_info = Some t
            /\ ~ In t ["integer"; "number"; "boolean"; "object"; "array"]) ->
      convert param_type user_input = Ok (VStr user_input))
  /\ (forall z,
        PyStr.count_digits (str_of_Z z) <= PyStr.int_max_str_digits ->
        convert "integer" (str_of_Z z) = Ok (VInt z))
  /\ (forall s,
        PyStr.int_max_str_digits < PyStr.count_digits (PyStr.strip s) ->
        exists msg, convert "integer" s = Raise (ValueError msg))
  /\ (forall z,
        convert "number" (str_of_Z z)
        = Ok (VFloat (binary_normalize PyFloat.prec PyFloat.emax z 0 false)))
  /\ convert "integer" "42" = Ok (VInt 42)
  /\ convert "integer" "-7" = Ok (VInt (-7))
  /\ convert "number" "3.14"
     = Ok (VFloat (S754_finite false 7070651414971679 (-51)))
  /\ convert "number" "0.5"
     = Ok (VFloat (S754_finite false 4503599627370496 (-53)))
  /\ convert "number" "1e3"
     = Ok (VFloat (S754_finite false 8796093022208000 (-43)))
  /\ convert "number" "-2.5e-1"
     = Ok (VFloat (S754_finite true 4503599627370496 (-54)))
  /\ convert "boolean" "yes" = Ok (VBool true)
  /\ convert "boolean" "YES" = Ok (VBool true)
  /\ convert "boolean" "True" = Ok (VBool true)
  /\ convert "boolean" "no" = Ok (VBool false)
  /\ convert "boolean" "0" = Ok (VBool false).
Proof.
  intros user_input param_type Hne.
  split; [|split; [|split; [|split; [|split; [|split; [|split;
    [|split; [|split]]]]]]]].
  - intros v Hv. rewrite enter_value_line. fold user_input.
    destruct user_input; [congruence|]. fold param_type. now rewrite Hv.
  - unfold param_type, type_of. intros -> z Hz.
    now rewrite convert_integer, Hz.
  - unfold param_type, type_of. intros -> f Hf.
    now rewrite convert_number, Hf.
  - unfold param_type, type_of. intros ->.
    eexists. split; [apply convert_boolean|]. split.
    + apply str_in_In.
    + apply boolean_words.
  - unfold param_type, type_of. intros Ht j Hj.
    rewrite convert_json by (destruct Ht as [-> | ->]; auto).
    now rewrite Hj.
  - unfold param_type, type_of. intros [-> | (t & -> & Ht)].
    + apply convert_text. cbn. intuition discriminate.
    + now apply convert_text.
  - intros z Hz. now rewrite convert_integer, int_str_of_Z.
  - intros s Hs. rewrite convert_integer, int_beyond_limit by exact Hs.
    now eexists.
  - intros z. now rewrite convert_number, float_str_of_Z.
  - repeat split; vm_compute; reflexivity.
Qed.

(** *** What the parameter loop can end with *)

Lemma enter_value_raises (param_name param_type : string)
  (is_required : bool) (arguments : Dict.t value) (script : list keyboard)
  (srv : Srv) (t : list event) (e : exn) (w : world Srv) :
  enter_value param_name param_type is_required arguments script srv
  = (t, Raise e, w) ->
  e = EOFError \/ e = KeyboardInterrupt \/ decoder_failed script e.
Proof.
  revert t.
  induction script as [|[l|] script IH]; intros t.
  - cbn. intros [= _ <- _]. now left.
  - assert (Hlater : forall t0,
              enter_value param_name param_type is_required arguments
                script srv = (t0, Raise e, w) ->
              e = EOFError \/ e = KeyboardInterrupt
              \/ decoder_failed (Line l :: script) e).
    { intros t0 Ht0.
      destruct (IH _ Ht0) as [He|[He|(l' & msg & Hin & Hl' & He)]]; auto.
      right. right. exists l', msg. repeat split; auto. now right. }
    rewrite enter_value_line.
    destruct (PyStr.strip l) as [|c u] eqn:Hl.
    + destruct is_required; [|discriminate].
      intros (t0 & Ht0 & _)%after_inv. exact (Hlater _ Ht0).
    + destruct (convert param_type (String c u)) as [v|e'] eqn:Hconv;
        [discriminate|].
      destruct (convert_raises _ _ _ Hconv)
        as [(msg & ->)|(msg & -> & Hmsg & _)].
      * intros (t0 & Ht0 & _)%after_inv. exact (Hlater _ Ht0).
      * intros [= _ <- _]. right. right. exists l, msg.
        rewrite Hl. repeat split; auto. now left.
  - cbn. intros [= _ <- _]. right. now left.
Qed.

(** A loop that returns consumed a prefix of the script, did not touch the
    server, and ended on a line that was either empty (optional parameter,
    nothing stored) or non-empty and convertible (value stored). *)
Lemma enter_value_returns (param_name param_type : string)
  (is_required : bool) (arguments : Dict.t value) (script : list keyboard)
  (srv : Srv) (t : list event) (arguments' : Dict.t value) (w : world Srv) :
  enter_value param_name param_type is_required arguments script srv
  = (t, Ok arguments', w) ->
  server w = srv
  /\ exists used l, script = used ++ Line l :: stdin w
     /\ ((is_required = false /\ PyStr.strip l = "" /\ arguments' = arguments)
         \/ (exists v, PyStr.strip l <> ""
               /\ convert param_type (PyStr.strip l) = Ok v
               /\ arguments' = Dict.set param_name v arguments)).
Proof.
  revert t.
  induction script as [|[l|] script IH]; intros t; [discriminate| |discriminate].
  rewrite enter_value_line.
  destruct (PyStr.strip l) as [|c u] eqn:Hl.
  - destruct is_required.
    + intros (t0 & Ht0 & _)%after_inv.
      destruct (IH _ Ht0) as (Hsrv & used & l' & -> & Hcase).
      split; [exact Hsrv|]. now exists (Line l :: used), l'.
    + intros [= <- <- <-]. split; [reflexivity|].
      exists [], l. split; [reflexivity|]. left. now rewrite Hl.
  - destruct (convert param_type (String c u)) as [v|[]] eqn:Hv;
      try discriminate.
    + intros [= <- <- <-]. split; [reflexivity|].
      exists [], l. split; [reflexivity|]. right. exists v.
      rewrite Hl. repeat split; [discriminate | exact Hv].
    + intros (t0 & Ht0 & _)%after_inv.
      destruct (IH _ Ht0) as (Hsrv & used & l' & -> & Hcase).
      split; [exact Hsrv|]. now exists (Line l :: used), l'.
Qed.

Lemma for_properties_cons (required : list string) (param_name : string)
  (param_info : ParamInfo) (items : list (string * ParamInfo))
  (arguments : Dict.t value) (w : world Srv) :
  for_properties required ((param_name, param_info) :: items) arguments w
  = after [Print (MsgParameter param_name
                    (PyStr.str_in param_name required)
                    (description_of param_info) (type_of param_info))]
      (bind (fun w => enter_value param_name (type_of param_info)
                        (PyStr.str_in param_name required) arguments
                        (stdin w) (server w))
         (for_properties required items) w).
Proof. reflexivity. Qed.

Lemma for_properties_raises (required : list string)
  (items : list (string * ParamInfo)) (arguments : Dict.t value)
  (w w' : world Srv) (t : list event) (e : exn) :
  for_properties required items arguments w = (t, Raise e, w') ->
  e = EOFError \/ e = KeyboardInterrupt \/ decoder_failed (stdin w) e.
Proof.
  revert arguments w t.
  induction items as [|[param_name param_info] items IH];
    intros arguments w t; [discriminate|].
  rewrite for_properties_cons.
  intros (t0 & Hb & _)%after_inv.
  apply bind_inv in Hb as [(e' & Hb & [= <-])|(t1 & a & w1 & t2 & He & Hb & _)].
  - exact (enter_value_raises _ _ _ _ _ _ _ _ _ Hb).
  - apply enter_value_returns in He as (_ & used & l & Hused & _).
    destruct (IH _ _ _ Hb) as [He|[He|(l' & msg & Hin & Hl' & He)]]; auto.
    right. right. exists l', msg. repeat split; auto.
    rewrite Hused. apply in_or_app. right. now right.
Qed.

(** The exceptions that leave the builder. *)
Lemma build_arguments_raises (input_schema : InputSchema)
  (w w' : world Srv) (t : list event) (e : exn) :
  build_arguments_from_schema input_schema w = (t, Raise e, w') ->
  e = EOFError \/ e = KeyboardInterrupt \/ decoder_failed (stdin w) e.
Proof.
  unfold build_arguments_from_schema.
  destruct (properties input_schema) as [props|]; [|discriminate].
  rewrite bind_print. intros (t0 & Hf & _)%after_inv.
  exact (for_properties_raises _ _ _ _ _ _ _ Hf).
Qed.

(** *** What the builder returns *)

(** The [for] loop reads a prefix of the script, leaves the server alone,
    and only assigns to the keys it iterates over. *)
Lemma for_properties_frame (required : list string)
  (items : list (string * ParamInfo)) (arguments arguments' : Dict.t value)
  (w w' : world Srv) (t : list event) :
  for_properties required items arguments w = (t, Ok arguments', w') ->
  server w' = server w
  /\ (exists used, stdin w = used ++ stdin w')
  /\ (forall k, ~ In k (Dict.keys items) ->
        Dict.get k arguments' = Dict.get k arguments).
Proof.
  revert arguments w t.
  induction items as [|[param_name param_info] items IH];
    intros arguments w t.
  - intros [= <- <- <-]. repeat split. now exists [].
  - rewrite for_properties_cons. intros (t0 & Hb & _)%after_inv.
    apply bind_inv in Hb as [(e & _ & [=])|(t1 & a & w1 & t2 & He & Hf & _)].
    apply enter_value_returns in He as (Hsrv & used & l & Hused & Hcase).
    destruct (IH _ _ _ Hf) as (Hsrv' & (used' & Hused') & Hget).
    split; [congruence|]. split.
    + exists (used ++ Line l :: used').
      rewrite Hused, Hused', <- app_assoc. reflexivity.
    + intros k Hk. cbn [Dict.keys map fst In] in Hk.
      rewrite Hget by (unfold Dict.keys; tauto).
      destruct Hcase as [(_ & _ & ->)|(v & _ & _ & ->)]; [reflexivity|].
      apply get_set_other. intros ->. tauto.
Qed.

Lemma for_properties_required (required : list string)
  (items : list (string * ParamInfo)) (arguments arguments' : Dict.t value)
  (w w' : world Srv) (t : list event) :
  NoDup (Dict.keys items) ->
  for_properties required items arguments w = (t, Ok arguments', w') ->
  forall param_name param_info,
    In (param_name, param_info) items ->
    PyStr.str_in param_name required = true ->
    exists l v,
      In (Line l) (stdin w)
      /\ PyStr.strip l <> ""
      /\ convert (type_of param_info) (PyStr.strip l) = Ok v
      /\ Dict.get param_name arguments' = Some v.
Proof.
  revert arguments w t.
  induction items as [|[name info] items IH];
    intros arguments w t Hnd Hrun param_name param_info Hin Hreq;
    [contradiction|].
  cbn [Dict.keys map fst] in Hnd. apply NoDup_cons_iff in Hnd as [Hfresh Hnd].
  rewrite for_properties_cons in Hrun.
  apply after_inv in Hrun as (t0 & Hb & _).
  apply bind_inv in Hb as [(e & _ & [=])|(t1 & a & w1 & t2 & He & Hf & _)].
  apply enter_value_returns in He as (Hsrv & used & l & Hused & Hcase).
  destruct Hin as [[= -> ->]|Hin].
  - destruct Hcase as [(Hopt & _)|(v & Hne & Hv & ->)]; [congruence|].
    exists l, v. repeat split; try assumption.
    + rewrite Hused. apply in_or_app. right. now left.
    + destruct (for_properties_frame _ _ _ _ _ _ _ Hf) as (_ & _ & Hget).
      rewrite (Hget param_name Hfresh). apply get_set_same.
  - destruct (IH _ _ _ Hnd Hf _ _ Hin Hreq) as (l' & v' & Hl' & Hrest).
    exists l', v'. split; [|exact Hrest].
    rewrite Hused. apply in_or_app. right. now right.
Qed.

(** The loop over the properties does not return before a line that is
    not blank was typed for each required one. *)
Lemma for_properties_needs_line (required : list string)
  (items : list (string * ParamInfo)) (arguments arguments' : Dict.t value)
  (w w' : world Srv) (t : list event) (param_name : string) :
  for_properties required items arguments w = (t, Ok arguments', w') ->
  In param_name (Dict.keys items) ->
  PyStr.str_in param_name required = true ->
  exists l, In (Line l) (stdin w) /\ PyStr.strip l <> "".
Proof.
  revert arguments w t.
  induction items as [|[name info] items IH];
    intros arguments w t Hrun Hin Hreq; [contradiction|].
  rewrite for_properties_cons in Hrun.
  apply after_inv in Hrun as (t0 & Hb & _).
  apply bind_inv in Hb as [(e & _ & [=])|(t1 & a & w1 & t2 & He & Hf & _)].
  apply enter_value_returns in He as (Hsrv & used & l & Hused & Hcase).
  destruct Hin as [Heq|Hin].
  - cbn [fst] in Heq. subst name.
    destruct Hcase as [(Hopt & _)|(v & Hne & _)]; [congruence|].
    exists l. split; [|exact Hne].
    rewrite Hused. apply in_or_app. right. now left.
  - destruct (IH _ _ _ Hf Hin Hreq) as (l' & Hl' & Hne).
    exists l'. split; [|exact Hne].
    rewrite Hused. apply in_or_app. right. now right.
Qed.

Lemma for_properties_app (required : list string)
  (items items' : list (string * ParamInfo)) (arguments : Dict.t value)
  (w : world Srv) :
  for_properties required (items ++ items') arguments w
  = bind (for_properties required items arguments)
      (for_properties required items') w.
Proof.
  revert arguments w.
  induction items as [|[name info] items IH]; intros arguments w.
  - cbn [app for_properties]. now rewrite bind_ret.
  - cbn [app]. rewrite for_properties_cons.
    unfold bind at 2. rewrite for_properties_cons.
    unfold bind at 1 2, after.
    destruct (enter_value name (type_of info) (PyStr.str_in name required)
                arguments (stdin w) (server w)) as [[t1 [a|e]] w1];
      [|reflexivity].
    rewrite IH. unfold bind.
    destruct (for_properties required items a w1) as [[t2 [a2|e2]] w2];
      [|reflexivity].
    destruct (for_properties required items' a2 w2) as [[t3 r3] w3].
    cbn [app]. now rewrite app_assoc.
Qed.

(** The run of the builder up to the prompt of one parameter, when the
    parameters before it were answered. *)
Lemma build_arguments_upto (input_schema : InputSchema)
  (before after_it : Dict.t ParamInfo) (param_name : string)
  (param_info : ParamInfo) (w w1 : world Srv) (t1 : list event)
  (arguments1 : Dict.t value) :
  properties input_schema
  = Some (before ++ (param_name, param_info) :: after_it) ->
  for_properties (required_of input_schema) before Dict.empty w
  = (t1, Ok arguments1, w1) ->
  build_arguments_from_schema input_schema w
  = after (Print MsgProvideParameters
             :: t1
             ++ [Print (MsgParameter param_name
                          (PyStr.str_in param_name (required_of input_schema))
                          (description_of param_info) (type_of param_info))])
      (bind (fun w => enter_value param_name (type_of param_info)
                        (PyStr.str_in param_name (required_of input_schema))
                        arguments1 (stdin w) (server w))
         (for_properties (required_of input_schema) after_it) w1).
Proof.
  intros Hprops Hbefore.
  unfold build_arguments_from_schema. rewrite Hprops, bind_print.
  rewrite for_properties_app, (bind_ok _ _ _ _ _ _ Hbefore).
  rewrite for_properties_cons, !after_after. reflexivity.
Qed.

(** C4, as the code has it. The builder asks for the declared properties
    and consults ["required"] only to know which of them are required.
    Whenever it returns, every declared property whose name is in the
    schema's ["required"] list is in the result, with a value converted
    from a line of the input that was not blank; a blank line at the
    prompt of such a property brings the message and the same prompt
    back, and on an input of blank lines the builder never returns.  A
    declared property that is not in the list and whose prompt is answered
    with a blank line is absent from the result. *)
Theorem required_present_optional_omitted :
  (forall (input_schema : InputSchema) (props : Dict.t ParamInfo)
     (req : list string) (w w' : world Srv) (t : list event)
     (arguments : Dict.t value),
     properties input_schema = Some props ->
     required input_schema = Some req ->
     NoDup (Dict.keys props) ->
     build_arguments_from_schema input_schema w = (t, Ok arguments, w') ->
     forall param_name param_info,
       In (param_name, param_info) props ->
       In param_name req ->
       exists l v,
         In (Line l) (stdin w)
         /\ PyStr.strip l <> ""
         /\ convert (type_of param_info) (PyStr.strip l) = Ok v
         /\ Dict.get param_name arguments = Some v)
  /\ (forall (input_schema : InputSchema)
        (before after_it : Dict.t ParamInfo) (req : list string)
        (param_name : string) (param_info : ParamInfo)
        (w w1 : world Srv) (t1 : list event) (arguments1 : Dict.t value)
        (l : string) (rest : list keyboard),
        properties input_schema
        = Some (before ++ (param_name, param_info) :: after_it) ->
        required input_schema = Some req ->
        In param_name req ->
        for_properties req before Dict.empty w = (t1, Ok arguments1, w1) ->
        stdin w1 = Line l :: rest ->
        PyStr.strip l = "" ->
        build_arguments_from_schema input_schema w
        = after (Print MsgProvideParameters
                   :: t1
                   ++ [Print (MsgParameter param_name true
                                (description_of param_info)
                                (type_of param_info));
                       Input PromptEnterValue; Print MsgRequired])
            (bind (fun w => enter_value param_name (type_of param_info)
                              true arguments1 (stdin w) (server w))
               (for_properties req after_it)
               (Build_world rest (server w1))))
  /\ (forall (input_schema : InputSchema) (props : Dict.t ParamInfo)
        (req : list string) (param_name : string) (script : list keyboard)
        (srv : Srv),
        properties input_schema = Some props ->
        required input_schema = Some req ->
        In param_name (Dict.keys props) ->
        In param_name req ->
        (forall l, In (Line l) script -> PyStr.strip l = "") ->
        forall t arguments w',
          build_arguments_from_schema input_schema (Build_world script srv)
          <> (t, Ok arguments, w'))
  /\ (forall (input_schema : InputSchema)
        (before after_it : Dict.t ParamInfo)
        (param_name : string) (param_info : ParamInfo)
        (w w1 w' : world Srv) (t1 t3 : list event)
        (arguments1 arguments : Dict.t value)
        (l : string) (rest : list keyboard),
        let required_list :=
          match required input_schema with Some req => req | None => [] end in
        properties input_schema
        = Some (before ++ (param_name, param_info) :: after_it) ->
        NoDup (Dict.keys (before ++ (param_name, param_info) :: after_it)) ->
        ~ In param_name required_list ->
        for_properties required_list before Dict.empty w
        = (t1, Ok arguments1, w1) ->
        stdin w1 = Line l :: rest ->
        PyStr.strip l = "" ->
        for_properties required_list after_it arguments1
          (Build_world rest (server w1))
        = (t3, Ok arguments, w') ->
        build_arguments_from_schema input_schema w
        = (Print MsgProvideParameters
             :: t1
             ++ Print (MsgParameter param_name false
                         (description_of param_info) (type_of param_info))
             :: Input PromptEnterValue :: t3,
           Ok arguments, w')
        /\ Dict.get param_name arguments = None).
Proof.
  split; [|split; [|split]].
  - intros input_schema props req w w' t arguments Hprops Hreq Hnd Hrun
      param_name param_info Hin Hname.
    unfold build_arguments_from_schema in Hrun. rewrite Hprops in Hrun.
    rewrite bind_print in Hrun. apply after_inv in Hrun as (t0 & Hf & _).
    apply (for_properties_required _ _ _ _ _ _ _ Hnd Hf _ _ Hin).
    unfold required_of. rewrite Hreq. now apply str_in_In.
  - intros input_schema before after_it req param_name param_info w w1 t1
      arguments1 l rest Hprops Hreq Hname Hbefore Hstdin Hl.
    assert (Hof : required_of input_schema = req)
      by (unfold required_of; now rewrite Hreq).
    rewrite <- Hof in Hbefore.
    rewrite (build_arguments_upto _ _ _ _ _ _ _ _ _ Hprops Hbefore), Hof.
    rewrite (proj2 (str_in_In param_name req) Hname).
    unfold bind at 1. rewrite Hstdin, enter_value_line, Hl.
    unfold bind, after. cbn [stdin server].
    destruct (enter_value param_name (type_of param_info) true arguments1
                rest (server w1)) as [[t2 [a|e]] w2].
    + destruct (for_properties req after_it a w2) as [[t3 r3] w3].
      f_equal. f_equal. cbn [app]. f_equal.
      now rewrite <- !app_assoc.
    + f_equal. f_equal. cbn [app]. f_equal. now rewrite <- !app_assoc.
  - intros input_schema props req param_name script srv Hprops Hreq Hin Hname
      Hblank t arguments w' Hrun.
    unfold build_arguments_from_schema in Hrun. rewrite Hprops in Hrun.
    rewrite bind_print in Hrun. apply after_inv in Hrun as (t0 & Hf & _).
    destruct (for_properties_needs_line _ _ _ _ _ _ _ param_name Hf Hin)
      as (l & Hl & Hne).
    + unfold required_of. rewrite Hreq. now apply str_in_In.
    + apply Hne, Hblank, Hl.
  - intros input_schema before after_it param_name param_info w w1 w' t1 t3
      arguments1 arguments l rest required_list Hprops Hnd Hopt Hbefore
      Hstdin Hl Hafter.
    change required_list with (required_of input_schema) in *.
    assert (Hfalse : PyStr.str_in param_name (required_of input_schema)
                     = false).
    { destruct (PyStr.str_in param_name (required_of input_schema)) eqn:Hin;
        [|reflexivity].
      now apply str_in_In in Hin. }
    unfold Dict.keys in Hnd. rewrite map_app in Hnd. cbn [map fst] in Hnd.
    apply NoDup_remove_2 in Hnd.
    destruct (for_properties_frame _ _ _ _ _ _ _ Hbefore) as (_ & _ & Hget1).
    destruct (for_properties_frame _ _ _ _ _ _ _ Hafter) as (_ & _ & Hget3).
    split.
    + unfold build_arguments_from_schema. rewrite Hprops, bind_print.
      rewrite for_properties_app, (bind_ok _ _ _ _ _ _ Hbefore).
      rewrite for_properties_cons, Hfalse.
      rewrite (bind_ok _ _ w1 (Build_world rest (server w1))
                 [Input PromptEnterValue] arguments1).
      * rewrite Hafter. reflexivity.
      * cbv beta. rewrite Hstdin, enter_value_line. now rewrite Hl.
    + rewrite Hget3, Hget1; [reflexivity| |];
        intros Hin; apply Hnd, in_or_app; [left | right]; exact Hin.
Qed.

(** ** The menu loop *)

(** C10. When the listing at the start of a round has no tool, no
    resource and no template, the round prints the message and leaves the
    loop: no menu, no prompt, no line read, no further request. *)
Theorem empty_listing_ends_session (w : world Srv) (s1 s2 s3 : Srv)
  (fuel : nat) :
  list_tools (server w) = (Ok [], s1) ->
  list_resources s1 = (Ok [], s2) ->
  list_resource_templates s2 = (Ok [], s3) ->
  iteration w
  = ([Send ListTools; Send ListResources; Send ListResourceTemplates;
      Print MsgNoCapabilities],
     Ok Break, Build_world (stdin w) s3)
  /\ session_loop (S fuel) w
     = ([Send ListTools; Send ListResources; Send ListResourceTemplates;
         Print MsgNoCapabilities],
        Ok true, Build_world (stdin w) s3).
Proof.
  intros Ht Hr Hm.
  assert (Hit : iteration w
                = ([Send ListTools; Send ListResources;
                    Send ListResourceTemplates; Print MsgNoCapabilities],
                   Ok Break, Build_world (stdin w) s3)).
  { unfold iteration, bind, send. rewrite Ht. cbn [server stdin].
    rewrite Hr. cbn [server stdin]. rewrite Hm. reflexivity. }
  split; [exact Hit|].
  cbn [session_loop]. now rewrite (bind_ok _ _ _ _ _ _ Hit).
Qed.

Lemma input_line {A : Type} (p : prompt) (k : string -> M Srv A)
  (l : string) (rest : list keyboard) (srv : Srv) :
  bind (input p) k (Build_world (Line l :: rest) srv)
  = after [Input p] (k l (Build_world rest srv)).
Proof. reflexivity. Qed.

Lemma numeric_choice (choice : string) (n : Z) :
  PyStr.int choice = Some n -> (n <> 0)%Z ->
  (String.eqb choice "0" || String.eqb choice "")%bool = false.
Proof.
  intros Hint Hn.
  destruct (String.eqb_spec choice "0") as [->|_];
    [cbv in Hint; congruence|].
  destruct (String.eqb_spec choice "") as [->|_];
    [cbv in Hint; congruence | reflexivity].
Qed.

Lemma try_body_in_range (tools : list Tool) (resources : list Resource)
  (templates : list ResourceTemplate) (line : string)
  (rest : list keyboard) (srv : Srv) (n : Z) :
  PyStr.int (PyStr.strip line) = Some n ->
  (1 <= n <= Z.of_nat (length tools) + Z.of_nat (length resources)
            + Z.of_nat (length templates))%Z ->
  try_body tools resources templates (Build_world (Line line :: rest) srv)
  = after [Input PromptSelect]
      (bind (dispatch tools resources templates (n - 1)) after_branch
         (Build_world rest srv)).
Proof.
  intros Hint Hn. unfold try_body. rewrite input_line.
  rewrite (numeric_choice _ n Hint) by lia. rewrite Hint.
  destruct (Z.ltb_spec (n - 1) 0); [lia|].
  rewrite Z.geb_leb.
  destruct (Z.leb_spec
              (Z.of_nat (length tools) + Z.of_nat (length resources)
               + Z.of_nat (length templates)) (n - 1)); [lia|].
  reflexivity.
Qed.

Lemma try_body_tool (tools : list Tool) (resources : list Resource)
  (templates : list ResourceTemplate) (line : string)
  (rest : list keyboard) (srv : Srv) (n : Z) (selected_tool : Tool) :
  PyStr.int (PyStr.strip line) = Some n ->
  (1 <= n <= Z.of_nat (length tools))%Z ->
  nth_error tools (Z.to_nat (n - 1)) = Some selected_tool ->
  try_body tools resources templates (Build_world (Line line :: rest) srv)
  = after [Input PromptSelect]
      (bind (tool_branch selected_tool) after_branch (Build_world rest srv)).
Proof.
  intros Hint Hn Hx.
  rewrite (try_body_in_range _ _ _ _ _ _ n Hint) by lia.
  f_equal. unfold dispatch.
  destruct (Z.ltb_spec (n - 1) (Z.of_nat (length tools))); [|lia].
  unfold bind at 1, index. rewrite Hx. now rewrite bind_ret.
Qed.

Lemma try_body_resource (tools : list Tool) (resources : list Resource)
  (templates : list ResourceTemplate) (line : string)
  (rest : list keyboard) (srv : Srv) (n : Z)
  (selected_resource : Resource) :
  PyStr.int (PyStr.strip line) = Some n ->
  (Z.of_nat (length tools) < n
   <= Z.of_nat (length tools) + Z.of_nat (length resources))%Z ->
  nth_error resources (Z.to_nat (n - Z.of_nat (length tools) - 1))
  = Some selected_resource ->
  try_body tools resources templates (Build_world (Line line :: rest) srv)
  = after [Input PromptSelect]
      (bind (resource_branch selected_resource) after_branch
         (Build_world rest srv)).
Proof.
  intros Hint Hn Hx.
  rewrite (try_body_in_range _ _ _ _ _ _ n Hint) by lia.
  f_equal. unfold dispatch.
  destruct (Z.ltb_spec (n - 1) (Z.of_nat (length tools))); [lia|].
  destruct (Z.ltb_spec (n - 1)
              (Z.of_nat (length tools) + Z.of_nat (length resources)));
    [|lia].
  unfold bind at 1, index.
  replace (n - 1 - Z.of_nat (length tools))%Z
    with (n - Z.of_nat (length tools) - 1)%Z by lia.
  rewrite Hx. now rewrite bind_ret.
Qed.

Lemma try_body_template (tools : list Tool) (resources : list Resource)
  (templates : list ResourceTemplate) (line : string)
  (rest : list keyboard) (srv : Srv) (n : Z)
  (selected_template : ResourceTemplate) :
  PyStr.int (PyStr.strip line) = Some n ->
  (Z.of_nat (length tools) + Z.of_nat (length resources) < n
   <= Z.of_nat (length tools) + Z.of_nat (length resources)
      + Z.of_nat (length templates))%Z ->
  nth_error templates
    (Z.to_nat (n - Z.of_nat (length tools) - Z.of_nat (length resources) - 1))
  = Some selected_template ->
  try_body tools resources templates (Build_world (Line line :: rest) srv)
  = after [Input PromptSelect]
      (bind (template_branch selected_template) after_branch
         (Build_world rest srv)).
Proof.
  intros Hint Hn Hx.
  rewrite (try_body_in_range _ _ _ _ _ _ n Hint) by lia.
  f_equal. unfold dispatch.
  destruct (Z.ltb_spec (n - 1) (Z.of_nat (length tools))); [lia|].
  destruct (Z.ltb_spec (n - 1)
              (Z.of_nat (length tools) + Z.of_nat (length resources)));
    [lia|].
  unfold bind at 1, index.
  replace (n - 1 - Z.of_nat (length tools) - Z.of_nat (length resources))%Z
    with (n - Z.of_nat (length tools) - Z.of_nat (length resources) - 1)%Z
    by lia.
  rewrite Hx. now rewrite bind_ret.
Qed.


(** *** What the three branches send *)

Lemma print_each_trace (ms : list message) (w : world Srv) :
  print_each ms w = (map Print ms, Ok tt, w).
Proof.
  induction ms as [|m ms IH]; [reflexivity|].
  cbn [print_each map]. rewrite bind_print, IH. reflexivity.
Qed.

Lemma display_tool_result_trace (r : CallToolResult) (w : world Srv) :
  display_tool_result r w
  = (Print MsgResult
       :: map Print
            match content r with
            | [] => [MsgNoContent]
            | items => map show_tool_item items
            end
       ++ (if isError r then [Print MsgToolError] else [])
       ++ [Print MsgRule],
     Ok tt, w).
Proof.
  unfold display_tool_result. rewrite bind_print.
  assert (Hitems :
            (match content r with
             | [] => print MsgNoContent
             | items => print_each (map show_tool_item items)
             end) w
            = (map Print
                 match content r with
                 | [] => [MsgNoContent]
                 | items => map show_tool_item items
                 end, Ok tt, w)).
  { destruct (content r); [reflexivity | apply print_each_trace]. }
  rewrite (bind_ok _ _ _ _ _ _ Hitems).
  destruct (isError r); cbn; now rewrite ?app_nil_r.
Qed.

Lemma display_resource_result_trace (r : ReadResourceResult)
  (w : world Srv) :
  display_resource_result r w
  = (Print MsgResourceContents
       :: map Print
            match contents r with
            | [] => [MsgNoContent]
            | items => map show_resource_item items
            end
       ++ [Print MsgRule],
     Ok tt, w).
Proof.
  unfold display_resource_result. rewrite bind_print.
  assert (Hitems :
            (match contents r with
             | [] => print MsgNoContent
             | items => print_each (map show_resource_item items)
             end) w
            = (map Print
                 match contents r with
                 | [] => [MsgNoContent]
                 | items => map show_resource_item items
                 end, Ok tt, w)).
  { destruct (contents r); [reflexivity | apply print_each_trace]. }
  rewrite (bind_ok _ _ _ _ _ _ Hitems). reflexivity.
Qed.

Lemma len_set {V : Type} (k : string) (v : V) (d : Dict.t V) :
  Dict.len (Dict.set k v d) <= S (Dict.len d).
Proof.
  unfold Dict.len.
  induction d as [|[k' v'] d IH]; cbn [Dict.set length]; [lia|].
  destruct (String.eqb k k'); cbn [length]; lia.
Qed.

Lemma len_assign (params lines : list string) (param_values : Dict.t string) :
  Dict.len (assign params lines param_values)
  <= Dict.len param_values + length params.
Proof.
  revert lines param_values.
  induction params as [|p params IH]; intros [|l lines] param_values;
    cbn [assign length]; try lia.
  specialize (IH lines (Dict.set p (PyStr.strip l) param_values)).
  pose proof (len_set p (PyStr.strip l) param_values). lia.
Qed.

Lemma assign_distinct (params lines : list string)
  (param_values : Dict.t string) :
  NoDup params ->
  (forall k, In k params -> ~ In k (Dict.keys param_values)) ->
  length lines = length params ->
  assign params lines param_values
  = param_values ++ combine params (map PyStr.strip lines).
Proof.
  revert lines param_values.
  induction params as [|p params IH]; intros [|l lines] param_values Hnd Hfresh;
    cbn [length]; try discriminate.
  - intros _. cbn. now rewrite app_nil_r.
  - intros [= Hlen]. apply NoDup_cons_iff in Hnd as [Hp Hnd].
    cbn [assign map combine].
    rewrite set_fresh by (apply Hfresh; now left).
    rewrite IH; try assumption.
    + now rewrite <- app_assoc.
    + intros k Hk. unfold Dict.keys. rewrite map_app, in_app_iff.
      cbn [map fst In]. intros [Hin|[<-|[]]].
      * apply (Hfresh k); [now right | exact Hin].
      * exact (Hp Hk).
Qed.

(** The prompts that are answered with non-empty lines. *)
Lemma prompt_params_answered (asked remaining lines : list string)
  (param_values : Dict.t string) (rest : list keyboard) (srv : Srv) :
  length lines = length asked ->
  Forall (fun l => PyStr.strip l <> "") lines ->
  prompt_params (asked ++ remaining) param_values
    (Build_world (map Line lines ++ rest) srv)
  = after (map ask asked)
      (prompt_params remaining (assign asked lines param_values)
         (Build_world rest srv)).
Proof.
  revert lines param_values.
  induction asked as [|p asked IH]; intros [|l lines] param_values;
    cbn [length]; try discriminate.
  - intros _ _. cbn [app map assign]. now rewrite after_nil.
  - intros [= Hlen] Hne. apply Forall_cons_iff in Hne as [Hl Hne].
    cbn [app map prompt_params assign]. rewrite input_line.
    rewrite (is_empty_false _ Hl), (IH _ _ Hlen Hne), after_after.
    reflexivity.
Qed.

Lemma prompt_params_all (params lines : list string)
  (rest : list keyboard) (srv : Srv) :
  length lines = length params ->
  Forall (fun l => PyStr.strip l <> "") lines ->
  prompt_params params Dict.empty (Build_world (map Line lines ++ rest) srv)
  = (map ask params, Ok (assign params lines Dict.empty),
     Build_world rest srv).
Proof.
  intros Hlen Hne.
  rewrite <- (app_nil_r params) at 1.
  rewrite (prompt_params_answered _ _ _ _ _ _ Hlen Hne).
  cbn [prompt_params ret after]. now rewrite app_nil_r.
Qed.







(** C5. A conversion that raises [ValueError] is answered inside the
    parameter loop: the message, and the prompt of the same parameter
    again, with the arguments collected so far.  But when [json.loads]
    fails on the input with another exception, as it does with
    [RecursionError] on a text that is nested too deeply, the [except]
    clause of line 66 does not apply: there is no message and no new
    prompt, the exception leaves the loop and the builder, and the round
    that was building the arguments of a tool reports it and calls
    nothing. *)
Theorem decoder_failure_leaves_builder (param_name : string)
  (param_info : ParamInfo) (items : Dict.t ParamInfo)
  (required_key : option (list string)) (l : string)
  (rest : list keyboard) (srv : Srv) (msg : string) :
  let input_schema :=
    {| properties := Some ((param_name, param_info) :: items);
       required := required_key |} in
  let param_type := type_of param_info in
  let is_required := PyStr.str_in param_name (required_of input_schema) in
  param_type = "object" \/ param_type = "array" ->
  PyStr.strip l <> "" ->
  json_loads (PyStr.strip l) = DecoderFailure msg ->
  (forall (name type : string) (required_flag : bool)
     (arguments : Dict.t value) (line : string) (msg' : string),
     PyStr.strip line <> "" ->
     convert type (PyStr.strip line) = Raise (ValueError msg') ->
     enter_value name type required_flag arguments (Line line :: rest) srv
     = after [Input PromptEnterValue; Print (MsgInvalidInput type)]
         (enter_value name type required_flag arguments rest srv))
  /\ convert param_type (PyStr.strip l) = Raise (OtherException msg)
  /\ (forall arguments,
        enter_value param_name param_type is_required arguments
          (Line l :: rest) srv
        = ([Input PromptEnterValue], Raise (OtherException msg),
           Build_world rest srv))
  /\ build_arguments_from_schema input_schema
       (Build_world (Line l :: rest) srv)
     = ([Print MsgProvideParameters;
         Print (MsgParameter param_name is_required
                  (description_of param_info) param_type);
         Input PromptEnterValue],
        Raise (OtherException msg), Build_world rest srv)
  /\ (forall (tools : list Tool) (resources : list Resource)
        (templates : list ResourceTemplate) (line : string) (n : Z)
        (selected_tool : Tool),
        PyStr.int (PyStr.strip line) = Some n ->
        (1 <= n <= Z.of_nat (length tools))%Z ->
        nth_error tools (Z.to_nat (n - 1)) = Some selected_tool ->
        inputSchema selected_tool = input_schema ->
        try_except (try_body tools resources templates) handlers
          (Build_world (Line line :: Line l :: rest) srv)
        = ([Input PromptSelect;
            Print (MsgExecutingTool (tool_name selected_tool));
            Print MsgProvideParameters;
            Print (MsgParameter param_name is_required
                     (description_of param_info) param_type);
            Input PromptEnterValue;
            Print (MsgErrorExecuting (OtherException msg))],
           Ok Continue, Build_world rest srv)).
Proof.
  intros input_schema param_type is_required Htype Hne Hfail.
  assert (Hconv : convert param_type (PyStr.strip l)
                  = Raise (OtherException msg))
    by now rewrite (convert_json _ _ Htype), Hfail.
  assert (Henter : forall arguments,
             enter_value param_name param_type is_required arguments
               (Line l :: rest) srv
             = ([Input PromptEnterValue], Raise (OtherException msg),
                Build_world rest srv)).
  { intros arguments. rewrite enter_value_line.
    destruct (PyStr.strip l); [congruence|]. now rewrite Hconv. }
  assert (Hbuild : build_arguments_from_schema input_schema
                     (Build_world (Line l :: rest) srv)
                   = ([Print MsgProvideParameters;
                       Print (MsgParameter param_name is_required
                                (description_of param_info) param_type);
                       Input PromptEnterValue],
                      Raise (OtherException msg), Build_world rest srv)).
  { unfold build_arguments_from_schema. cbn [properties input_schema].
    rewrite bind_print, for_properties_cons.
    fold input_schema param_type is_required.
    rewrite (bind_raise _ _ _ (Build_world rest srv) [Input PromptEnterValue]
               (OtherException msg)) by apply Henter.
    reflexivity. }
  split; [|split; [exact Hconv|split; [exact Henter|split; [exact Hbuild|]]]].
  - intros name type required_flag arguments line msg' Hline Hvalue.
    rewrite enter_value_line.
    destruct (PyStr.strip line); [congruence|]. now rewrite Hvalue.
  - intros tools resources templates line n selected_tool Hint Hn Hx Hschema.
    unfold try_except.
    rewrite (try_body_tool _ _ _ _ _ _ n _ Hint Hn Hx).
    assert (Hbranch :
              tool_branch selected_tool (Build_world (Line l :: rest) srv)
              = ([Print (MsgExecutingTool (tool_name selected_tool));
                  Print MsgProvideParameters;
                  Print (MsgParameter param_name is_required
                           (description_of param_info) param_type);
                  Input PromptEnterValue],
                 Raise (OtherException msg), Build_world rest srv)).
    { unfold tool_branch. rewrite bind_print, Hschema.
      now rewrite (bind_raise _ _ _ _ _ _ Hbuild). }
    rewrite (bind_raise _ _ _ _ _ _ Hbranch). reflexivity.
Qed.

(** *** The template branch *)

Lemma try_except_ok {A : Type} (m : M Srv A) (h : exn -> option (M Srv A))
  (w w' : world Srv) (t : list event) (a : A) :
  m w = (t, Ok a, w') -> try_except m h w = (t, Ok a, w').
Proof. unfold try_except. now intros ->. Qed.

Lemma template_branch_abort (selected_template : ResourceTemplate)
  (asked : list string) (param : string) (remaining : list string)
  (lines : list string) (l : string) (rest : list keyboard) (srv : Srv) :
  PyStr.findall_placeholders (uriTemplate selected_template)
  = asked ++ param :: remaining ->
  length lines = length asked ->
  Forall (fun l => PyStr.strip l <> "") lines ->
  PyStr.strip l = "" ->
  template_branch selected_template
    (Build_world (map Line lines ++ Line l :: rest) srv)
  = (Print (MsgReadingTemplate (template_name selected_template)
              (uriTemplate selected_template))
       :: Print MsgProvideParameters
       :: map ask asked
       ++ [ask param; Print (MsgParamRequired param);
           Print MsgMissingParameters],
     Ok (Some Continue), Build_world rest srv).
Proof.
  intros Hparams Hlen Hne Hl.
  unfold template_branch. rewrite Hparams, !bind_print.
  assert (Hp : prompt_params (asked ++ param :: remaining) Dict.empty
                 (Build_world (map Line lines ++ Line l :: rest) srv)
               = (map ask asked ++ [ask param; Print (MsgParamRequired param)],
                  Ok (assign asked lines Dict.empty), Build_world rest srv)).
  { rewrite (prompt_params_answered _ _ _ _ _ _ Hlen Hne).
    cbn [prompt_params]. rewrite input_line, Hl. reflexivity. }
  rewrite (bind_ok _ _ _ _ _ _ Hp).
  assert (Hlt : (Dict.len (assign asked lines Dict.empty)
                 =? length (asked ++ param :: remaining)) = false).
  { apply Nat.eqb_neq. pose proof (len_assign asked lines Dict.empty).
    rewrite length_app. cbn [length Dict.len Dict.empty] in *. lia. }
  rewrite Hlt. cbn. now rewrite <- app_assoc.
Qed.

(** C7. When the answer to one of the placeholder prompts is empty (the
    earlier ones being non-empty), the round that selected the template
    names the parameter, reports the missing parameters and ends with
    [continue]: no address is constructed, nothing is sent to the
    server, and the next round lists again. *)
Theorem empty_placeholder_aborts (tools : list Tool)
  (resources : list Resource) (templates : list ResourceTemplate)
  (line : string) (n : Z) (selected_template : ResourceTemplate)
  (asked : list string) (param : string) (remaining : list string)
  (lines : list string) (l : string) (rest : list keyboard) (srv : Srv) :
  PyStr.int (PyStr.strip line) = Some n ->
  (Z.of_nat (length tools) + Z.of_nat (length resources) < n
   <= Z.of_nat (length tools) + Z.of_nat (length resources)
      + Z.of_nat (length templates))%Z ->
  nth_error templates
    (Z.to_nat (n - Z.of_nat (length tools) - Z.of_nat (length resources) - 1))
  = Some selected_template ->
  PyStr.findall_placeholders (uriTemplate selected_template)
  = asked ++ param :: remaining ->
  length lines = length asked ->
  Forall (fun l => PyStr.strip l <> "") lines ->
  PyStr.strip l = "" ->
  try_except (try_body tools resources templates) handlers
    (Build_world (Line line :: map Line lines ++ Line l :: rest) srv)
  = (Input PromptSelect
       :: Print (MsgReadingTemplate (template_name selected_template)
                   (uriTemplate selected_template))
       :: Print MsgProvideParameters
       :: map ask asked
       ++ [ask param; Print (MsgParamRequired param);
           Print MsgMissingParameters],
     Ok Continue, Build_world rest srv).
Proof.
  intros Hint Hn Hx Hparams Hlen Hne Hl.
  apply try_except_ok.
  rewrite (try_body_template _ _ _ _ _ _ n _ Hint Hn Hx).
  rewrite (bind_ok _ _ _ _ _ _
             (template_branch_abort _ _ _ _ _ _ _ _ Hparams Hlen Hne Hl)).
  cbn. now rewrite app_nil_r.
Qed.

(** *** The tool branch *)

(** C8, as the code has it. When the result of the selected tool has its
    error flag set, the round prints the content items, then the error
    indicator, raises nothing, and goes on to the question that follows
    every invocation: the answer [q] leaves the loop, any other answer
    ends the round with the next listing to come. *)
Theorem tool_error_is_displayed (tools : list Tool)
  (resources : list Resource) (templates : list ResourceTemplate)
  (line : string) (n : Z) (selected_tool : Tool)
  (rest : list keyboard) (srv : Srv)
  (t_args : list event) (arguments : Dict.t value) (w2 : world Srv)
  (r : CallToolResult) (s3 : Srv) (answer : string)
  (rest' : list keyboard) :
  PyStr.int (PyStr.strip line) = Some n ->
  (1 <= n <= Z.of_nat (length tools))%Z ->
  nth_error tools (Z.to_nat (n - 1)) = Some selected_tool ->
  build_arguments_from_schema (inputSchema selected_tool)
    (Build_world rest srv)
  = (t_args, Ok arguments, w2) ->
  call_tool (tool_name selected_tool) arguments (server w2) = (Ok r, s3) ->
  isError r = true ->
  stdin w2 = Line answer :: rest' ->
  let quit := String.eqb (PyStr.lower (PyStr.strip answer)) "q" in
  try_except (try_body tools resources templates) handlers
    (Build_world (Line line :: rest) srv)
  = (Input PromptSelect
       :: Print (MsgExecutingTool (tool_name selected_tool))
       :: t_args
       ++ Print (MsgCalling (tool_name selected_tool) arguments)
       :: Send (CallTool (tool_name selected_tool) arguments)
       :: Print MsgResult
       :: map Print
            match content r with
            | [] => [MsgNoContent]
            | items => map show_tool_item items
            end
       ++ Print MsgToolError :: Print MsgRule :: Input PromptContinue
       :: (if quit then [Print MsgGoodbye] else []),
     Ok (if quit then Break else Continue), Build_world rest' s3).
Proof.
  intros Hint Hn Hx Hbuild Hcall Herr Hstdin quit.
  apply try_except_ok.
  rewrite (try_body_tool _ _ _ _ _ _ n _ Hint Hn Hx).
  assert (Hbranch :
            tool_branch selected_tool (Build_world rest srv)
            = (Print (MsgExecutingTool (tool_name selected_tool))
                 :: t_args
                 ++ Print (MsgCalling (tool_name selected_tool) arguments)
                 :: Send (CallTool (tool_name selected_tool) arguments)
                 :: Print MsgResult
                 :: map Print
                      match content r with
                      | [] => [MsgNoContent]
                      | items => map show_tool_item items
                      end
                 ++ [Print MsgToolError; Print MsgRule],
               Ok None, Build_world (Line answer :: rest') s3)).
  { unfold tool_branch. rewrite bind_print.
    rewrite (bind_ok _ _ _ _ _ _ Hbuild), bind_print.
    unfold bind at 1, send. rewrite Hcall. rewrite Hstdin.
    unfold bind at 1. rewrite display_tool_result_trace, Herr.
    cbn. now rewrite app_nil_r. }
  rewrite (bind_ok _ _ _ _ _ _ Hbranch).
  unfold after_branch, ask_continue. rewrite input_line. fold quit.
  destruct quit; cbn;
    repeat (first [rewrite <- app_assoc | progress cbn [app]]);
    reflexivity.
Qed.

End Facts.

(** ** Substitution *)

Lemma holes_fill_complete (values : Dict.t string) (segs : list segment) :
  (forall name, In name (holes segs) -> Dict.mem name values = true) ->
  holes (map (fill values) segs) = [].
Proof.
  induction segs as [|[text|name] segs IH]; intros Hall; [reflexivity| |].
  - cbn [map fill holes]. apply IH. exact Hall.
  - cbn [map fill]. cbn [holes] in Hall.
    assert (Hmem : Dict.mem name values = true) by (apply Hall; now left).
    destruct (Dict.get name values) as [v|] eqn:Hget.
    + cbn [holes]. apply IH. intros k Hk. apply Hall. now right.
    + exfalso. revert Hmem Hget. clear. unfold Dict.mem, Dict.keys.
      intros Hmem. apply str_in_In in Hmem.
      induction values as [|[k v] values IH]; [destruct Hmem|].
      cbn [Dict.get]. cbn [map fst In] in Hmem.
      destruct (String.eqb_spec name k) as [->|Hne]; [discriminate|].
      destruct Hmem as [<-|Hmem]; [congruence | now apply IH].
Qed.

(** C6, as the code has it. On a template in which every opening brace
    begins a placeholder, and with values that contain no opening brace,
    the chain of literal replacements puts each value, unchanged, in the
    place of every occurrence of its placeholder; a complete mapping
    leaves no placeholder; and [movies/{tmdbId}/cast] with [603] for
    [tmdbId] gives [movies/603/cast]. *)
Theorem substitution_fills_holes (values : Dict.t string)
  (segs : list segment) :
  (forall k v, In (k, v) values ->
     is_name k = true /\ no_open_brace v = true) ->
  forallb wf_segment segs = true ->
  substitute values (render segs) = render (map (fill values) segs)
  /\ ((forall name, In name (holes segs) -> Dict.mem name values = true) ->
      holes (map (fill values) segs) = [])
  /\ substitute [("tmdbId", "603")] "movies/{tmdbId}/cast"
     = "movies/603/cast".
Proof.
  intros Hval Hwf. split; [|split].
  - now apply substitute_render.
  - apply holes_fill_complete.
  - reflexivity.
Qed.

(** * Concrete sessions *)

(** C1. The template [people/{id}/knows/{id}] names [id] twice.  The
    findall of line 241 returns the name twice, so the user is asked for
    [id] twice; both answers go to the one key [id] of [param_values], and
    line 254 compares the one entry of the mapping with the two elements
    of the list: although every answer is non-empty, the round reports
    missing parameters, constructs no address and requests nothing. *)
Lemma duplicate_placeholder_is_asked_twice_and_fails :
  PyStr.findall_placeholders (uriTemplate knows) = ["id"; "id"]
  /\ prompt_params ["id"; "id"] Dict.empty (demo ["7"; "7"])
     = ([ask "id"; ask "id"], Ok [("id", "7")], demo [])
  /\ template_branch knows (demo ["7"; "7"])
     = ([Print (MsgReadingTemplate "knows" "people/{id}/knows/{id}");
         Print MsgProvideParameters; ask "id"; ask "id";
         Print MsgMissingParameters],
        Ok (Some Continue), demo [])
  /\ try_except (try_body [] [] [knows]) handlers (demo ["1"; "7"; "7"])
     = ([Input PromptSelect;
         Print (MsgReadingTemplate "knows" "people/{id}/knows/{id}");
         Print MsgProvideParameters; ask "id"; ask "id";
         Print MsgMissingParameters],
        Ok Continue, demo []).
Proof. repeat split; reflexivity. Qed.

(** C4, counterexample. The schema lists [limit] and [ghost] under
    ["required"] and declares only [limit] under ["properties"]: the
    builder asks for [limit] alone and returns a mapping in which the
    required [ghost] is absent. *)
Lemma required_name_without_property_is_absent :
  required ghost_schema = Some ["limit"; "ghost"]
  /\ build_arguments_from_schema ghost_schema (demo ["5"])
     = ([Print MsgProvideParameters;
         Print (MsgParameter "limit" true "How many" "integer");
         Input PromptEnterValue],
        Ok [("limit", VInt 5)], demo [])
  /\ Dict.get "ghost" [("limit", VInt 5)] = None.
Proof. repeat split; reflexivity. Qed.

(** C6, counterexample. With [{b}] as the value of [a] and [x] as the
    value of [b], the occurrence of [{a}] in [{a}/{b}] does not end up
    replaced by its value: the text put in for [a] is replaced again, and
    the address requested is [x/x], not [{b}/x].  Likewise in
    [{{a}}{b}], where a brace stands before the placeholder [a], the
    value [b] of [a] completes a new [{b}], and [x] is put there too. *)
Lemma injected_placeholder_is_replaced_again :
  render [Hole "a"; Lit "/"; Hole "b"] = uriTemplate pair
  /\ render (map (fill [("a", "{b}"); ("b", "x")])
               [Hole "a"; Lit "/"; Hole "b"]) = "{b}/x"
  /\ substitute [("a", "{b}"); ("b", "x")] (uriTemplate pair) = "x/x"
  /\ template_branch pair (demo ["{b}"; "x"])
     = ([Print (MsgReadingTemplate "pair" "{a}/{b}");
         Print MsgProvideParameters; ask "a"; ask "b";
         Print (MsgConstructedURI "x/x"); Send (ReadResource "x/x");
         Print MsgResourceContents; Print (MsgText "x/x"); Print MsgRule],
        Ok None, demo [])
  /\ PyStr.findall_placeholders "{{a}}{b}" = ["a"; "b"]
  /\ render (map (fill [("a", "b"); ("b", "x")])
               [Lit "{"; Hole "a"; Lit "}"; Hole "b"]) = "{b}x"
  /\ substitute [("a", "b"); ("b", "x")] "{{a}}{b}" = "xx".
Proof. repeat split; reflexivity. Qed.

(** C8, counterexample. The first tool of the demonstration server
    answers with its error flag set; the user then types [q]: the round
    ends with [break] and the loop is over, there is no next listing. *)
Lemma quit_after_tool_error_ends_loop :
  fs_call demo_server "ping" []
  = Ok {| content := [TextContent "boom"]; isError := true |}
  /\ try_except (try_body [ping; search] [catalogue] [cast]) handlers
       (demo ["1"; "q"])
     = ([Input PromptSelect; Print (MsgExecutingTool "ping");
         Print (MsgCalling "ping" []); Send (CallTool "ping" []);
         Print MsgResult; Print (MsgText "boom"); Print MsgToolError;
         Print MsgRule; Input PromptContinue; Print MsgGoodbye],
        Ok Break, demo [])
  /\ snd (fst (session_loop 2 (demo ["1"; "q"]))) = Ok true.
Proof. repeat split; reflexivity. Qed.

(** ** The facts at work on the demonstration server *)

(** [" 42 "] at the prompt of the integer parameter [limit] stores 42;
    [" Yes "] at the prompt of the boolean parameter [exact] stores true,
    [Yes] being a spelling of [yes]; and the numeral of 1000 is read by
    [float] as the number 1000. *)
Lemma coercion_by_declared_type_witness :
  PyStr.strip " 42 " <> ""
  /\ enter_value "limit" "integer" true [] [Line " 42 "] demo_server
     = ([Input PromptEnterValue], Ok [("limit", VInt 42)],
        Build_world [] demo_server)
  /\ (exists b,
        convert "boolean" (PyStr.strip " Yes ") = Ok (VBool b)
        /\ (b = true <->
            In (PyStr.lower (PyStr.strip " Yes ")) ["true"; "yes"; "1"; "y"])
        /\ (b = true <->
            In (PyStr.strip " Yes ")
              (flat_map spellings ["true"; "yes"; "1"; "y"])))
  /\ enter_value "exact" "boolean" false [] [Line " Yes "] demo_server
     = ([Input PromptEnterValue], Ok [("exact", VBool true)],
        Build_world [] demo_server)
  /\ convert "number" (str_of_Z 1000)
     = Ok (VFloat (binary_normalize PyFloat.prec PyFloat.emax 1000 0 false))
  /\ binary_normalize PyFloat.prec PyFloat.emax 1000 0 false
     = S754_finite false 8796093022208000 (-43).
Proof.
  assert (Hne : PyStr.strip " 42 " <> "") by (vm_compute; discriminate).
  assert (Hyes : PyStr.strip " Yes " <> "") by (vm_compute; discriminate).
  pose proof (coercion_by_declared_type "limit" integer_info true []
                " 42 " [] demo_server Hne) as Hint.
  pose proof (coercion_by_declared_type "exact" boolean_info false []
                " Yes " [] demo_server Hyes) as Hbool.
  cbv zeta in Hint, Hbool.
  destruct Hint as (Hstore & _ & _ & _ & _ & _ & _ & _ & Hfloat & _).
  destruct Hbool as (Hstore' & _ & _ & Hwords & _).
  split; [exact Hne|]. split; [|split; [|split; [|split]]].
  - apply (Hstore (VInt 42)). reflexivity.
  - exact (Hwords eq_refl).
  - apply (Hstore' (VBool true)). reflexivity.
  - exact (Hfloat 1000%Z).
  - reflexivity.
Defined.

(** [limit] is declared and listed under ["required"]: it is asked again
    after an empty line and answered by ["5"]; [exact] is declared only
    and answered by an empty line.  The builder returns [limit] alone. *)
Lemma required_present_optional_omitted_witness :
  build_arguments_from_schema search_schema (demo [""; "5"; ""])
  = ([Print MsgProvideParameters;
      Print (MsgParameter "limit" true "How many" "integer");
      Input PromptEnterValue; Print MsgRequired; Input PromptEnterValue;
      Print (MsgParameter "exact" false "" "boolean");
      Input PromptEnterValue],
     Ok [("limit", VInt 5)], demo [])
  /\ (exists l v,
        In (Line l) (stdin (demo [""; "5"; ""]))
        /\ PyStr.strip l <> ""
        /\ convert (type_of integer_info) (PyStr.strip l) = Ok v
        /\ Dict.get "limit" [("limit", VInt 5)] = Some v)
  /\ build_arguments_from_schema search_schema (demo [""; "5"; ""])
     = after [Print MsgProvideParameters;
              Print (MsgParameter "limit" true "How many" "integer");
              Input PromptEnterValue; Print MsgRequired]
         (bind (fun w => enter_value "limit" "integer" true []
                           (stdin w) (server w))
            (for_properties ["limit"] [("exact", boolean_info)])
            (demo ["5"; ""]))
  /\ (forall t arguments w',
        build_arguments_from_schema search_schema (demo [""; " "; ""])
        <> (t, Ok arguments, w'))
  /\ Dict.get "exact" [("limit", VInt 5)] = None.
Proof.
  destruct (required_present_optional_omitted (Srv := FixedServer))
    as (Hreq & Hagain & Hnever & Hopt).
  destruct (Hopt search_schema [("limit", integer_info)] [] "exact"
              boolean_info (demo [""; "5"; ""]) (demo [""]) (demo [])
              [Print (MsgParameter "limit" true "How many" "integer");
               Input PromptEnterValue; Print MsgRequired;
               Input PromptEnterValue]
              [] [("limit", VInt 5)] [("limit", VInt 5)] "" [])
    as (Hrun & Habsent).
  { reflexivity. }
  { repeat constructor; cbn; intuition discriminate. }
  { cbn. intuition discriminate. }
  { reflexivity. }
  { reflexivity. }
  { reflexivity. }
  { reflexivity. }
  split; [exact Hrun|]. split; [|split; [|split]].
  - eapply (Hreq search_schema
              [("limit", integer_info); ("exact", boolean_info)] ["limit"]
              (demo [""; "5"; ""]) (demo [])).
    + reflexivity.
    + reflexivity.
    + repeat constructor; cbn; intuition discriminate.
    + exact Hrun.
    + now left.
    + now left.
  - apply (Hagain search_schema [] [("exact", boolean_info)] ["limit"]
             "limit" integer_info (demo [""; "5"; ""]) (demo [""; "5"; ""])
             [] [] "" (map Line ["5"; ""])).
    + reflexivity.
    + reflexivity.
    + now left.
    + reflexivity.
    + reflexivity.
    + reflexivity.
  - apply (Hnever search_schema
             [("limit", integer_info); ("exact", boolean_info)] ["limit"]
             "limit").
    + reflexivity.
    + reflexivity.
    + now left.
    + now left.
    + intros l [[= <-]|[[= <-]|[[= <-]|[]]]]; reflexivity.
  - exact Habsent.
Defined.

(** A text of 995 opening brackets at the prompt of the array parameter
    [tags]: the decoder fails on it, the builder is left without a
    message, and the round that chose the tool reports the error; the
    text of one opening bracket is malformed only, and the prompt comes
    back, as it does after [x] at the prompt of an integer. *)
Lemma decoder_failure_leaves_builder_witness :
  json_loads (PyStr.strip (brackets 995))
  = DecoderFailure "maximum recursion depth exceeded"
  /\ json_loads (PyStr.strip "[") = JSONDecodeError "Expecting value"
  /\ enter_value "tags" "array" false [] [Line "["; Line "[]"] demo_server
     = after [Input PromptEnterValue; Print (MsgInvalidInput "array")]
         (enter_value "tags" "array" false [] [Line "[]"] demo_server)
  /\ enter_value "limit" "integer" true [] [Line "x"; Line "[]"] demo_server
     = after [Input PromptEnterValue; Print (MsgInvalidInput "integer")]
         (enter_value "limit" "integer" true [] [Line "[]"] demo_server)
  /\ build_arguments_from_schema tags_schema
       (Build_world [Line (brackets 995); Line "[]"] demo_server)
     = ([Print MsgProvideParameters;
         Print (MsgParameter "tags" false "" "array");
         Input PromptEnterValue],
        Raise (OtherException "maximum recursion depth exceeded"),
        Build_world [Line "[]"] demo_server)
  /\ try_except (try_body [tag] [] []) handlers
       (Build_world [Line "1"; Line (brackets 995); Line "[]"] demo_server)
     = ([Input PromptSelect; Print (MsgExecutingTool "tag");
         Print MsgProvideParameters;
         Print (MsgParameter "tags" false "" "array");
         Input PromptEnterValue;
         Print (MsgErrorExecuting
                  (OtherException "maximum recursion depth exceeded"))],
        Ok Continue, Build_world [Line "[]"] demo_server).
Proof.
  assert (Hfail : json_loads (PyStr.strip (brackets 995))
                  = DecoderFailure "maximum recursion depth exceeded")
    by (vm_compute; reflexivity).
  assert (Hne : PyStr.strip (brackets 995) <> "")
    by (vm_compute; discriminate).
  pose proof (decoder_failure_leaves_builder "tags" array_info [] None
                (brackets 995) [Line "[]"] demo_server
                "maximum recursion depth exceeded"
                (or_intror eq_refl) Hne Hfail) as Hthm.
  cbv zeta in Hthm.
  destruct Hthm as (Hagain & _ & _ & Hbuild & Hround).
  split; [exact Hfail|]. split; [reflexivity|]. split; [|split; [|split]].
  - apply (Hagain "tags" "array" false [] "[" "Expecting value").
    + vm_compute. discriminate.
    + reflexivity.
  - apply (Hagain "limit" "integer" true [] "x"
             "invalid literal for int() with base 10").
    + vm_compute. discriminate.
    + reflexivity.
  - exact Hbuild.
  - apply (Hround [tag] [] [] "1" 1%Z tag).
    + reflexivity.
    + cbn. lia.
    + reflexivity.
    + reflexivity.
Defined.

(** The server that offers nothing ends the session at once. *)
Lemma empty_listing_ends_session_witness :
  session_loop 1 (Build_world [Line "1"] empty_server)
  = ([Send ListTools; Send ListResources; Send ListResourceTemplates;
      Print MsgNoCapabilities],
     Ok true, Build_world [Line "1"] empty_server).
Proof.
  apply (empty_listing_ends_session (Build_world [Line "1"] empty_server)
           empty_server empty_server empty_server 0); reflexivity.
Defined.


(** The template is chosen and its only placeholder is left empty. *)
Lemma empty_placeholder_aborts_witness :
  try_except (try_body [ping; search] [catalogue] [cast]) handlers
    (demo ["4"; "  "; "q"])
  = ([Input PromptSelect;
      Print (MsgReadingTemplate "cast" "movies/{tmdbId}/cast");
      Print MsgProvideParameters; ask "tmdbId";
      Print (MsgParamRequired "tmdbId"); Print MsgMissingParameters],
     Ok Continue, demo ["q"]).
Proof.
  apply (empty_placeholder_aborts [ping; search] [catalogue] [cast] "4" 4
           cast [] "tmdbId" [] [] "  " [Line "q"] demo_server).
  - reflexivity.
  - cbn; lia.
  - reflexivity.
  - reflexivity.
  - reflexivity.
  - constructor.
  - reflexivity.
Defined.

(** The first tool reports an error and the user presses Enter. *)
Lemma tool_error_is_displayed_witness :
  try_except (try_body [ping; search] [catalogue] [cast]) handlers
    (demo ["1"; ""])
  = ([Input PromptSelect; Print (MsgExecutingTool "ping");
      Print (MsgCalling "ping" []); Send (CallTool "ping" []);
      Print MsgResult; Print (MsgText "boom"); Print MsgToolError;
      Print MsgRule; Input PromptContinue],
     Ok Continue, demo []).
Proof.
  apply (tool_error_is_displayed [ping; search] [catalogue] [cast] "1" 1
           ping [Line ""] demo_server [] [] (demo [""])
           {| content := [TextContent "boom"]; isError := true |}
           demo_server "" []).
  - reflexivity.
  - cbn; lia.
  - reflexivity.
  - reflexivity.
  - reflexivity.
  - reflexivity.
  - reflexivity.
Defined.

(** The example of the specification. *)
Lemma substitution_fills_holes_witness :
  substitute [("tmdbId", "603")]
    (render [Lit "movies/"; Hole "tmdbId"; Lit "/cast"])
  = "movies/603/cast"
  /\ holes (map (fill [("tmdbId", "603")])
              [Lit "movies/"; Hole "tmdbId"; Lit "/cast"]) = [].
Proof.
  destruct (substitution_fills_holes [("tmdbId", "603")]
              [Lit "movies/"; Hole "tmdbId"; Lit "/cast"])
    as (Hsub & Hcomplete & _).
  - intros k v [[= <- <-]|[]]. split; reflexivity.
  - reflexivity.
  - split; [exact Hsub|].
    apply Hcomplete. intros name [<-|[]]. reflexivity.
Defined.

(** * Further properties of the client *)

Lemma mem_In {V : Type} (k : string) (d : Dict.t V) :
  Dict.mem k d = true <-> In k (Dict.keys d).
Proof. apply str_in_In. Qed.

Lemma keys_app {V : Type} (d d' : Dict.t V) :
  Dict.keys (d ++ d') = Dict.keys d ++ Dict.keys d'.
Proof. apply map_app. Qed.

Section Builder.

Context {Srv : Type} `{Session Srv} `{JsonDecoder}.

(** Whatever its result, the parameter loop reads a prefix of the
    script, sends nothing, and leaves the server as it was. *)
Lemma enter_value_quiet (param_name param_type : string)
  (is_required : bool) (arguments : Dict.t value) (script : list keyboard)
  (srv : Srv) (t : list event) (r : result (Dict.t value)) (w : world Srv) :
  enter_value param_name param_type is_required arguments script srv
  = (t, r, w) ->
  server w = srv
  /\ (exists used, script = used ++ stdin w)
  /\ Forall (fun e => is_request e = false) t.
Proof.
  revert t.
  induction script as [|[l|] script IH]; intros t.
  - cbn. intros [= <- <- <-]. repeat split; [now exists []|].
    repeat constructor.
  - rewrite enter_value_line.
    assert (Hstep : forall t0 x,
              after (Input PromptEnterValue :: Print x :: []) 
                (enter_value param_name param_type is_required arguments
                   script srv) = (t0, r, w) ->
              server w = srv
              /\ (exists used, Line l :: script = used ++ stdin w)
              /\ Forall (fun e => is_request e = false) t0).
    { intros t0 x (t1 & Ht1 & ->)%after_inv.
      destruct (IH _ Ht1) as (Hsrv & (used & ->) & Hq).
      repeat split; [exact Hsrv | now exists (Line l :: used)|].
      repeat constructor. exact Hq. }
    destruct (PyStr.strip l) as [|c u].
    + destruct is_required; [apply Hstep|].
      intros [= <- <- <-]. repeat split; [now exists [Line l]|].
      repeat constructor.
    + destruct (convert param_type (String c u)) as [v|[]];
        try apply Hstep;
        intros [= <- <- <-]; (repeat split; [now exists [Line l]|]);
        repeat constructor.
  - cbn. intros [= <- <- <-]. repeat split; [now exists [CtrlC]|].
    repeat constructor.
Qed.

Lemma for_properties_quiet (required : list string)
  (items : list (string * ParamInfo)) (arguments : Dict.t value)
  (w w' : world Srv) (t : list event) (r : result (Dict.t value)) :
  for_properties required items arguments w = (t, r, w') ->
  server w' = server w
  /\ (exists used, stdin w = used ++ stdin w')
  /\ Forall (fun e => is_request e = false) t.
Proof.
  revert arguments w t.
  induction items as [|[param_name param_info] items IH];
    intros arguments w t.
  - intros [= <- <- <-]. repeat split; [now exists []|constructor].
  - rewrite for_properties_cons. intros (t0 & Hb & ->)%after_inv.
    apply bind_inv in Hb
      as [(e & He & ->)|(t1 & a & w1 & t2 & He & Hf & ->)].
    + apply enter_value_quiet in He as (Hsrv & Hused & Hq).
      repeat split; try assumption. now constructor.
    + apply enter_value_quiet in He as (Hsrv & (used & Hused) & Hq).
      destruct (IH _ _ _ Hf) as (Hsrv' & (used' & Hused') & Hq').
      repeat split.
      * congruence.
      * exists (used ++ used'). rewrite Hused, Hused'. apply app_assoc.
      * constructor; [reflexivity|]. apply Forall_app. now split.
Qed.

(** X1. Building the arguments never talks to the server: whatever the
    schema and the input, and whether the builder returns or is left by
    an exception, the events are prints and prompts only, the server
    state is untouched, and what is left of the input is a suffix of
    what was there. *)
Theorem builder_never_contacts_server (input_schema : InputSchema)
  (w w' : world Srv) (t : list event) (r : result (Dict.t value)) :
  build_arguments_from_schema input_schema w = (t, r, w') ->
  server w' = server w
  /\ (exists used, stdin w = used ++ stdin w')
  /\ Forall (fun e => is_request e = false) t.
Proof.
  unfold build_arguments_from_schema.
  destruct (properties input_schema) as [props|].
  - rewrite bind_print. intros (t0 & Hf & ->)%after_inv.
    destruct (for_properties_quiet _ _ _ _ _ _ _ Hf) as (Hsrv & Hused & Hq).
    repeat split; try assumption. now constructor.
  - intros [= <- <- <-]. repeat split; [now exists []|constructor].
Qed.

(** The keys after the [for] loop: those there before, then the names
    that were given a value, in the order of the loop. *)
Lemma for_properties_keys (required : list string)
  (items : list (string * ParamInfo)) (arguments arguments' : Dict.t value)
  (w w' : world Srv) (t : list event) :
  NoDup (Dict.keys items) ->
  (forall k, In k (Dict.keys items) -> ~ In k (Dict.keys arguments)) ->
  for_properties required items arguments w = (t, Ok arguments', w') ->
  Dict.keys arguments'
  = Dict.keys arguments
    ++ filter (fun k => Dict.mem k arguments') (Dict.keys items).
Proof.
  revert arguments w t.
  induction items as [|[name info] items IH];
    intros arguments w t Hnd Hfresh.
  - intros [= <- <- <-]. cbn. now rewrite app_nil_r.
  - cbn [Dict.keys map fst] in Hnd, Hfresh.
    apply NoDup_cons_iff in Hnd as [Hname Hnd].
    rewrite for_properties_cons. intros (t0 & Hb & _)%after_inv.
    apply bind_inv in Hb as [(e & _ & [=])|(t1 & a & w1 & t2 & He & Hf & _)].
    apply enter_value_returns in He as (_ & used & l & _ & Hcase).
    cbn [Dict.keys map fst filter].
    destruct Hcase as [(? & ? & ->)|(v & ? & ? & ->)].
    + pose proof (IH _ _ _ Hnd (fun k Hk => Hfresh k (or_intror Hk)) Hf)
        as Hkeys.
      assert (Hmem : Dict.mem name arguments' = false).
      { apply not_true_is_false. intros Hin%mem_In.
        rewrite Hkeys in Hin.
        apply in_app_or in Hin as [Hin|[Hin _]%filter_In].
        - exact (Hfresh name (or_introl eq_refl) Hin).
        - now apply Hname. }
      now rewrite Hmem.
    + rewrite set_fresh in Hf by (apply Hfresh; now left).
      assert (Hfresh' : forall k, In k (Dict.keys items) ->
                          ~ In k (Dict.keys (arguments ++ [(name, v)]))).
      { intros k Hk. rewrite keys_app, in_app_iff. cbn.
        intros [Hin|[<-|[]]]; [|exact (Hname Hk)].
        exact (Hfresh k (or_intror Hk) Hin). }
      pose proof (IH _ _ _ Hnd Hfresh' Hf) as Hkeys.
      assert (Hmem : Dict.mem name arguments' = true).
      { apply mem_In. rewrite Hkeys.
        apply in_or_app. left. rewrite keys_app. apply in_or_app.
        right. now left. }
      rewrite Hmem, Hkeys at 1. rewrite keys_app, <- app_assoc.
      reflexivity.
Qed.

(** X2. The keys of the mapping the builder returns are the declared
    parameter names that were given a value, in the order of the
    declaration: no name that is not a property of the schema is ever a
    key, whether or not the schema lists it as required. *)
Theorem result_keys_follow_declaration (input_schema : InputSchema)
  (props : Dict.t ParamInfo) (w w' : world Srv) (t : list event)
  (arguments : Dict.t value) :
  properties input_schema = Some props ->
  NoDup (Dict.keys props) ->
  build_arguments_from_schema input_schema w = (t, Ok arguments, w') ->
  Dict.keys arguments
  = filter (fun k => Dict.mem k arguments) (Dict.keys props)
  /\ (forall name, ~ In name (Dict.keys props) ->
        Dict.get name arguments = None).
Proof.
  intros Hprops Hnd. unfold build_arguments_from_schema. rewrite Hprops.
  rewrite bind_print. intros (t0 & Hf & _)%after_inv. split.
  - apply (for_properties_keys (required_of input_schema) props Dict.empty
             arguments w w' t0 Hnd); [intros k _ [] | exact Hf].
  - intros name Hname.
    destruct (for_properties_frame _ _ _ _ _ _ _ Hf) as (_ & _ & Hget).
    now rewrite (Hget name Hname).
Qed.

Lemma for_properties_accepted (required : list string)
  (answers : list answer) (arguments : Dict.t value)
  (rest : list keyboard) (srv : Srv) :
  NoDup (map a_name answers) ->
  (forall a, In a answers -> ~ In (a_name a) (Dict.keys arguments)) ->
  Forall (accepted required) answers ->
  for_properties required (map declared answers) arguments
    (Build_world (map Line (map a_line answers) ++ rest) srv)
  = (flat_map (asked_events required) answers,
     Ok (arguments ++ stored answers), Build_world rest srv).
Proof.
  revert arguments.
  induction answers as [|a answers IH]; intros arguments Hnd Hfresh Hacc.
  - cbn. now rewrite app_nil_r.
  - cbn [map] in Hnd. apply NoDup_cons_iff in Hnd as [Hname Hnd].
    apply Forall_cons_iff in Hacc as [Ha Hacc].
    cbn [map app flat_map stored]. unfold declared at 1.
    rewrite for_properties_cons. cbn [a_name a_info].
    unfold accepted in Ha.
    destruct (a_value a) as [v|] eqn:Hv.
    + destruct Ha as [Hne Hconv].
      rewrite (bind_ok _ _ _ (Build_world
                                (map Line (map a_line answers) ++ rest) srv)
                 [Input PromptEnterValue]
                 (Dict.set (a_name a) v arguments)).
      * rewrite set_fresh by (apply Hfresh; now left).
        rewrite IH; try assumption.
        -- cbn. now rewrite <- app_assoc.
        -- intros b Hb. rewrite keys_app, in_app_iff. cbn.
           intros [Hin|[Heq|[]]].
           ++ exact (Hfresh b (or_intror Hb) Hin).
           ++ apply Hname. rewrite Heq. now apply in_map.
      * cbn [stdin server]. rewrite enter_value_line.
        destruct (PyStr.strip (a_line a)); [congruence|].
        now rewrite Hconv.
    + destruct Ha as [Hempty Hopt].
      rewrite (bind_ok _ _ _ (Build_world
                                (map Line (map a_line answers) ++ rest) srv)
                 [Input PromptEnterValue] arguments).
      * rewrite IH; try assumption.
        -- reflexivity.
        -- intros b Hb. apply Hfresh. now right.
      * cbn [stdin server]. rewrite enter_value_line, Hempty, Hopt.
        reflexivity.
Qed.

(** X3. When every prompt is answered at once by a line that the loop
    accepts (non-empty and convertible, or empty for an optional
    parameter), the builder reads exactly one line per declared
    parameter, prints the parameter and prompts once for each, and
    returns the converted values of the answered parameters under their
    names, in the order of the declaration. *)
Theorem one_accepted_line_per_parameter (input_schema : InputSchema)
  (answers : list answer) (rest : list keyboard) (srv : Srv) :
  properties input_schema = Some (map declared answers) ->
  NoDup (map a_name answers) ->
  Forall (accepted (required_of input_schema)) answers ->
  build_arguments_from_schema input_schema
    (Build_world (map Line (map a_line answers) ++ rest) srv)
  = (Print MsgProvideParameters
       :: flat_map (asked_events (required_of input_schema)) answers,
     Ok (stored answers), Build_world rest srv).
Proof.
  intros Hprops Hnd Hacc. unfold build_arguments_from_schema.
  rewrite Hprops, bind_print.
  rewrite (for_properties_accepted _ _ Dict.empty rest srv Hnd);
    [reflexivity | intros a _ [] | exact Hacc].
Qed.

End Builder.

(** ** Exceptions in the loop *)

Section Exceptions.

Context {Srv : Type} `{Session Srv} `{JsonDecoder}.

Lemma raises_only_bind {A B : Type} (P : exn -> Prop) (m : M Srv A)
  (k : A -> M Srv B) :
  raises_only P m -> (forall a, raises_only P (k a)) ->
  raises_only P (bind m k).
Proof.
  intros Hm Hk w t e w' Hb.
  apply bind_inv in Hb as [(e' & Hb & [= <-])|(t1 & a & w1 & t2 & _ & Hb & _)].
  - exact (Hm _ _ _ _ Hb).
  - exact (Hk a _ _ _ _ Hb).
Qed.

Lemma raises_only_ret {A : Type} (P : exn -> Prop) (a : A) :
  raises_only P (ret (S := Srv) a).
Proof. intros w t e w'. discriminate. Qed.

Lemma raises_only_print (P : exn -> Prop) (m : message) :
  raises_only P (print (S := Srv) m).
Proof. intros w t e w'. discriminate. Qed.

Lemma raises_only_input (P : exn -> Prop) (p : prompt) :
  P EOFError -> P KeyboardInterrupt -> raises_only P (input (S := Srv) p).
Proof.
  intros Heof Hint w t e w'. unfold input.
  destruct (stdin w) as [|[l|] rest]; intros [= _ <- _]; assumption.
Qed.

Lemma raises_only_send {A : Type} (P : exn -> Prop) (r : request)
  (f : Srv -> result A * Srv) :
  (forall s e s', f s = (Raise e, s') -> P e) -> raises_only P (send r f).
Proof.
  intros Hf w t e w'. unfold send.
  destruct (f (server w)) as [a s'] eqn:Ha. intros [= _ -> _].
  exact (Hf _ _ _ Ha).
Qed.

Lemma raises_only_print_each (P : exn -> Prop) (ms : list message) :
  raises_only P (print_each (Srv := Srv) ms).
Proof. intros w t e w'. rewrite print_each_trace. discriminate. Qed.

Lemma raises_only_build (input_schema : InputSchema) :
  raises_only (fun e => is_caught e = true)
    (build_arguments_from_schema (Srv := Srv) input_schema).
Proof.
  intros w t e w'. unfold build_arguments_from_schema.
  destruct (properties input_schema) as [props|]; [|discriminate].
  rewrite bind_print. intros (t0 & Hf & _)%after_inv.
  destruct (for_properties_raises _ _ _ _ _ _ _ Hf)
    as [-> | [-> | (l & msg & _ & _ & ->)]]; reflexivity.
Qed.

Lemma raises_only_prompt_params (params : list string)
  (param_values : Dict.t string) :
  raises_only (fun e => is_caught e = true)
    (prompt_params (Srv := Srv) params param_values).
Proof.
  revert param_values.
  induction params as [|param params IH]; intros param_values.
  - apply raises_only_ret.
  - cbn [prompt_params]. apply raises_only_bind.
    + now apply raises_only_input.
    + intros line. destruct (PyStr.is_empty (PyStr.strip line)).
      * apply raises_only_bind; [apply raises_only_print|].
        intros _. apply raises_only_ret.
      * apply IH.
Qed.

Lemma raises_only_display_resource (P : exn -> Prop)
  (r : ReadResourceResult) :
  raises_only P (display_resource_result (Srv := Srv) r).
Proof.
  unfold display_resource_result.
  apply raises_only_bind; [apply raises_only_print|]. intros _.
  apply raises_only_bind; [|intros _; apply raises_only_print].
  destruct (contents r); [apply raises_only_print|].
  apply raises_only_print_each.
Qed.

Lemma raises_only_display_tool (P : exn -> Prop) (r : CallToolResult) :
  raises_only P (display_tool_result (Srv := Srv) r).
Proof.
  unfold display_tool_result.
  apply raises_only_bind; [apply raises_only_print|]. intros _.
  apply raises_only_bind.
  - destruct (content r); [apply raises_only_print|].
    apply raises_only_print_each.
  - intros _. apply raises_only_bind; [|intros _; apply raises_only_print].
    destruct (isError r); [apply raises_only_print | apply raises_only_ret].
Qed.

Lemma raises_only_index {A : Type} (xs : list A) (i : Z) :
  raises_only (fun e => is_caught e = true) (index (Srv := Srv) xs i).
Proof.
  intros w t e w'. unfold index.
  destruct (nth_error xs (Z.to_nat i)); [discriminate|].
  now intros [= _ <- _].
Qed.

Section Tame.

(** The transport raises nothing but what the loop has a clause for. *)
Hypothesis call_tool_caught :
  forall name arguments s e s',
    call_tool name arguments s = (Raise e, s') -> is_caught e = true.
Hypothesis read_resource_caught :
  forall u s e s', read_resource u s = (Raise e, s') -> is_caught e = true.

Lemma raises_only_try_body (tools : list Tool) (resources : list Resource)
  (templates : list ResourceTemplate) :
  raises_only (fun e => is_caught e = true)
    (try_body tools resources templates).
Proof.
  assert (Hask : raises_only (fun e => is_caught e = true)
                   (ask_continue (Srv := Srv))).
  { unfold ask_continue. apply raises_only_bind.
    - now apply raises_only_input.
    - intros line. destruct (String.eqb _ "q"); [|apply raises_only_ret].
      apply raises_only_bind; [apply raises_only_print|].
      intros _. apply raises_only_ret. }
  assert (Hread : forall u,
            raises_only (fun e => is_caught e = true)
              (r <- send (ReadResource u) (read_resource u) ;;
               display_resource_result r ;; ret (@None control))).
  { intros u. apply raises_only_bind.
    - apply raises_only_send. apply read_resource_caught.
    - intros r. apply raises_only_bind;
        [apply raises_only_display_resource|].
      intros _. apply raises_only_ret. }
  unfold try_body. apply raises_only_bind; [now apply raises_only_input|].
  intros line.
  destruct (String.eqb _ "0" || String.eqb _ "")%bool.
  { apply raises_only_bind; [apply raises_only_print|].
    intros _. apply raises_only_ret. }
  destruct (PyStr.int (PyStr.strip line)) as [n|];
    [|intros w t e w'; now intros [= _ <- _]].
  destruct (_ || _)%bool.
  { apply raises_only_bind; [apply raises_only_print|].
    intros _. apply raises_only_ret. }
  apply raises_only_bind.
  - unfold dispatch.
    destruct (_ <? _)%Z; [|destruct (_ <? _)%Z].
    + apply raises_only_bind; [apply raises_only_index|].
      intros selected_tool. unfold tool_branch.
      apply raises_only_bind; [apply raises_only_print|]. intros _.
      apply raises_only_bind; [apply raises_only_build|]. intros arguments.
      apply raises_only_bind; [apply raises_only_print|]. intros _.
      apply raises_only_bind.
      * apply raises_only_send. apply call_tool_caught.
      * intros r. apply raises_only_bind;
          [apply raises_only_display_tool|].
        intros _. apply raises_only_ret.
    + apply raises_only_bind; [apply raises_only_index|].
      intros selected_resource. unfold resource_branch.
      apply raises_only_bind; [apply raises_only_print|]. intros _.
      apply Hread.
    + apply raises_only_bind; [apply raises_only_index|].
      intros selected_template. unfold template_branch.
      apply raises_only_bind; [apply raises_only_print|]. intros _.
      apply raises_only_bind; [apply raises_only_print|]. intros _.
      apply raises_only_bind; [apply raises_only_prompt_params|].
      intros param_values. destruct (negb _).
      * apply raises_only_bind; [apply raises_only_print|].
        intros _. apply raises_only_ret.
      * apply raises_only_bind; [apply raises_only_print|]. intros _.
        apply Hread.
  - intros [c|]; [apply raises_only_ret | exact Hask].
Qed.

(** Inside the [try], everything that is raised is caught. *)
Lemma guarded_round_returns (tools : list Tool) (resources : list Resource)
  (templates : list ResourceTemplate) (w : world Srv) :
  exists t c w',
    try_except (try_body tools resources templates) handlers w
    = (t, Ok c, w').
Proof.
  unfold try_except.
  destruct (try_body tools resources templates w) as [[t [c|e]] w1] eqn:Hb.
  - now exists t, c, w1.
  - pose proof (raises_only_try_body _ _ _ _ _ _ _ Hb) as Hc.
    destruct e; try discriminate; cbn; eauto.
Qed.

(** X4. With a transport whose tool calls and reads raise nothing but
    interrupts and ordinary exceptions, the only exceptions that leave
    the session loop are those raised by one of the three listing
    requests at the start of a round: everything raised after the menu
    is shown is caught by the loop. *)
Theorem loop_raises_only_from_listing (fuel : nat) (w w' : world Srv)
  (t : list event) (e : exn) :
  session_loop fuel w = (t, Raise e, w') ->
  exists s s',
    list_tools s = (Raise e, s')
    \/ list_resources s = (Raise e, s')
    \/ list_resource_templates s = (Raise e, s').
Proof.
  revert w t.
  induction fuel as [|fuel IH]; intros w t; [discriminate|].
  cbn [session_loop]. intros Hloop.
  apply bind_inv in Hloop
    as [(e' & Hit & [= <-])|(t1 & c & w1 & t2 & _ & Hrest & _)].
  - unfold iteration in Hit.
    apply bind_inv in Hit
      as [(e' & Hl & [= <-])|(t1 & tools & w1 & t2 & _ & Hit & _)].
    { unfold send in Hl.
      destruct (list_tools (server w)) as [a s'] eqn:Ha.
      injection Hl as _ -> _. exists (server w), s'. now left. }
    apply bind_inv in Hit
      as [(e' & Hl & [= <-])|(t3 & resources & w2 & t4 & _ & Hit & _)].
    { unfold send in Hl.
      destruct (list_resources (server w1)) as [a s'] eqn:Ha.
      injection Hl as _ -> _. exists (server w1), s'. right. now left. }
    apply bind_inv in Hit
      as [(e' & Hl & [= <-])|(t5 & templates & w3 & t6 & _ & Hit & _)].
    { unfold send in Hl.
      destruct (list_resource_templates (server w2)) as [a s'] eqn:Ha.
      injection Hl as _ -> _. exists (server w2), s'. right. now right. }
    exfalso.
    assert (Hguard : forall w0 t0,
              (print (MsgMenu tools resources templates) ;;
               try_except (try_body tools resources templates) handlers) w0
              <> (t0, Raise e, w')).
    { intros w0 t0. rewrite bind_print.
      destruct (guarded_round_returns tools resources templates w0)
        as (tg & c & wg & ->). discriminate. }
    destruct tools, resources, templates;
      solve [discriminate Hit | exact (Hguard _ _ Hit)].
  - destruct c; [exact (IH _ _ Hrest) | discriminate].
Qed.

End Tame.

End Exceptions.

(** ** Rounds of the loop *)

Section Rounds.

Context {Srv : Type} `{Session Srv} `{JsonDecoder}.

Lemma iteration_listed (tools : list Tool) (resources : list Resource)
  (templates : list ResourceTemplate) (script : list keyboard)
  (s s1 s2 s3 : Srv) :
  list_tools s = (Ok tools, s1) ->
  list_resources s1 = (Ok resources, s2) ->
  list_resource_templates s2 = (Ok templates, s3) ->
  (tools, resources, templates) <> ([], [], []) ->
  iteration (Build_world script s)
  = after [Send ListTools; Send ListResources; Send ListResourceTemplates;
           Print (MsgMenu tools resources templates)]
      (try_except (try_body tools resources templates) handlers
         (Build_world script s3)).
Proof.
  intros Ht Hr Hm Hne. unfold iteration.
  unfold bind at 1, send. cbn [server stdin]. rewrite Ht.
  unfold bind at 1. cbn [server stdin]. rewrite Hr.
  unfold bind at 1. cbn [server stdin]. rewrite Hm.
  assert (Hmenu :
            (match tools, resources, templates with
             | [], [], [] => print MsgNoCapabilities ;; ret Break
             | _, _, _ =>
                 print (MsgMenu tools resources templates) ;;
                 try_except (try_body tools resources templates) handlers
             end) (Build_world script s3)
            = after [Print (MsgMenu tools resources templates)]
                (try_except (try_body tools resources templates) handlers
                   (Build_world script s3))).
  { destruct tools, resources, templates; try reflexivity. congruence. }
  rewrite Hmenu.
  destruct (try_except _ _ _) as [[t r] w']. reflexivity.
Qed.

(** X5. At the end of the input the loop does not end: with a server
    whose listing is stable and not empty, the [EOFError] raised by the
    selection prompt is caught by the general [except] clause, the round
    ends with [continue], and the next round is the same, for as many
    rounds as one cares to run. *)
Theorem end_of_input_never_ends_loop (tools : list Tool)
  (resources : list Resource) (templates : list ResourceTemplate)
  (s : Srv) (fuel : nat) :
  list_tools s = (Ok tools, s) ->
  list_resources s = (Ok resources, s) ->
  list_resource_templates s = (Ok templates, s) ->
  (tools, resources, templates) <> ([], [], []) ->
  session_loop fuel (Build_world [] s)
  = (concat (repeat (eof_round tools resources templates) fuel),
     Ok false, Build_world [] s).
Proof.
  intros Ht Hr Hm Hne.
  assert (Hround : iteration (Build_world [] s)
                   = (eof_round tools resources templates, Ok Continue,
                      Build_world [] s)).
  { rewrite (iteration_listed _ _ _ _ _ _ _ _ Ht Hr Hm Hne). reflexivity. }
  induction fuel as [|fuel IH]; [reflexivity|].
  cbn [session_loop repeat concat].
  rewrite (bind_ok _ _ _ _ _ _ Hround), IH. reflexivity.
Qed.

(** X6. What becomes of an exception raised by the call of the selected
    tool: a [ValueError] is answered with the invalid-number message, an
    interrupt with the farewell and the end of the loop, any other
    ordinary exception with the error message; in these cases the round
    is over without the question that follows an invocation, so no
    further line is read.  Only a base exception of another kind leaves
    the round. *)
Theorem tool_call_exception_is_classified (tools : list Tool)
  (resources : list Resource) (templates : list ResourceTemplate)
  (line : string) (n : Z) (selected_tool : Tool)
  (rest : list keyboard) (srv : Srv)
  (t_args : list event) (arguments : Dict.t value) (w2 : world Srv)
  (e : exn) (s3 : Srv) :
  PyStr.int (PyStr.strip line) = Some n ->
  (1 <= n <= Z.of_nat (length tools))%Z ->
  nth_error tools (Z.to_nat (n - 1)) = Some selected_tool ->
  build_arguments_from_schema (inputSchema selected_tool)
    (Build_world rest srv)
  = (t_args, Ok arguments, w2) ->
  call_tool (tool_name selected_tool) arguments (server w2)
  = (Raise e, s3) ->
  let t :=
    Input PromptSelect
      :: Print (MsgExecutingTool (tool_name selected_tool))
      :: t_args
      ++ [Print (MsgCalling (tool_name selected_tool) arguments);
          Send (CallTool (tool_name selected_tool) arguments)] in
  try_except (try_body tools resources templates) handlers
    (Build_world (Line line :: rest) srv)
  = match e with
    | ValueError _ =>
        (t ++ [Print MsgInvalidNumber], Ok Continue,
         Build_world (stdin w2) s3)
    | KeyboardInterrupt =>
        (t ++ [Print MsgGoodbye], Ok Break, Build_world (stdin w2) s3)
    | OtherBaseException _ => (t, Raise e, Build_world (stdin w2) s3)
    | _ =>
        (t ++ [Print (MsgErrorExecuting e)], Ok Continue,
         Build_world (stdin w2) s3)
    end.
Proof.
  intros Hint Hn Hx Hbuild Hcall t.
  assert (Hbody : try_body tools resources templates
                    (Build_world (Line line :: rest) srv)
                  = (t, Raise e, Build_world (stdin w2) s3)).
  { rewrite (try_body_tool _ _ _ _ _ _ n _ Hint Hn Hx).
    assert (Hbranch : tool_branch selected_tool (Build_world rest srv)
                      = (Print (MsgExecutingTool (tool_name selected_tool))
                           :: t_args
                           ++ [Print (MsgCalling (tool_name selected_tool)
                                        arguments);
                               Send (CallTool (tool_name selected_tool)
                                       arguments)],
                         Raise e, Build_world (stdin w2) s3)).
    { unfold tool_branch. rewrite bind_print.
      rewrite (bind_ok _ _ _ _ _ _ Hbuild), bind_print.
      unfold bind at 1, send. rewrite Hcall. reflexivity. }
    now rewrite (bind_raise _ _ _ _ _ _ Hbranch). }
  unfold try_except. rewrite Hbody.
  destruct e; cbn; now rewrite ?app_nil_r.
Qed.

(** X7. The round that reads a direct resource: the ordinal picks the
    resource after the tools, its address is requested as it is listed,
    without any prompt; every item of the answer is shown, a text as
    its text and a binary item as the count of its bytes, never as the
    bytes; then comes the question that follows an invocation, where
    [q] in any case, surrounded by any spaces, leaves the loop. *)
Theorem direct_resource_round (tools : list Tool)
  (resources : list Resource) (templates : list ResourceTemplate)
  (line : string) (n : Z) (selected_resource : Resource)
  (srv s' : Srv) (r : ReadResourceResult) (answer : string)
  (rest : list keyboard) :
  PyStr.int (PyStr.strip line) = Some n ->
  (Z.of_nat (length tools) < n
   <= Z.of_nat (length tools) + Z.of_nat (length resources))%Z ->
  nth_error resources (Z.to_nat (n - Z.of_nat (length tools) - 1))
  = Some selected_resource ->
  read_resource (uri selected_resource) srv = (Ok r, s') ->
  let quit := String.eqb (PyStr.lower (PyStr.strip answer)) "q" in
  try_except (try_body tools resources templates) handlers
    (Build_world (Line line :: Line answer :: rest) srv)
  = (Input PromptSelect
       :: Print (MsgReadingResource (resource_name selected_resource)
                   (uri selected_resource))
       :: Send (ReadResource (uri selected_resource))
       :: Print MsgResourceContents
       :: map Print
            match contents r with
            | [] => [MsgNoContent]
            | items => map show_resource_item items
            end
       ++ Print MsgRule :: Input PromptContinue
       :: (if quit then [Print MsgGoodbye] else []),
     Ok (if quit then Break else Continue), Build_world rest s')
  /\ (forall blob, show_resource_item (BlobContent blob)
                   = MsgBinary (String.length blob)).
Proof.
  intros Hint Hn Hx Hread quit. split; [|reflexivity].
  apply try_except_ok.
  rewrite (try_body_resource _ _ _ _ _ _ n _ Hint Hn Hx).
  assert (Hbranch :
            resource_branch selected_resource
              (Build_world (Line answer :: rest) srv)
            = (Print (MsgReadingResource (resource_name selected_resource)
                        (uri selected_resource))
                 :: Send (ReadResource (uri selected_resource))
                 :: Print MsgResourceContents
                 :: map Print
                      match contents r with
                      | [] => [MsgNoContent]
                      | items => map show_resource_item items
                      end
                 ++ [Print MsgRule],
               Ok None, Build_world (Line answer :: rest) s')).
  { unfold resource_branch. rewrite bind_print.
    unfold bind at 1, send. cbn [server stdin]. rewrite Hread.
    unfold bind at 1. rewrite display_resource_result_trace.
    cbn. now rewrite app_nil_r. }
  rewrite (bind_ok _ _ _ _ _ _ Hbranch).
  unfold after_branch, ask_continue. rewrite input_line. fold quit.
  destruct quit; cbn;
    repeat (first [rewrite <- app_assoc | progress cbn [app]]);
    reflexivity.
Qed.

(** X8. Only the text [0] leaves the loop by the menu: a choice that
    reads as the number zero but is written otherwise ([00], [+0], [-0],
    [0_0]) is refused as an invalid selection and the round ends with
    nothing sent. *)
Theorem other_spellings_of_zero_are_refused (tools : list Tool)
  (resources : list Resource) (templates : list ResourceTemplate)
  (line : string) (rest : list keyboard) (srv : Srv) :
  PyStr.int (PyStr.strip line) = Some 0%Z ->
  PyStr.strip line <> "0" ->
  try_except (try_body tools resources templates) handlers
    (Build_world (Line line :: rest) srv)
  = ([Input PromptSelect; Print MsgInvalidSelection], Ok Continue,
     Build_world rest srv).
Proof.
  intros Hint Hne. unfold try_except, try_body. rewrite input_line.
  destruct (String.eqb_spec (PyStr.strip line) "0") as [Hz|_];
    [contradiction|].
  destruct (String.eqb_spec (PyStr.strip line) "") as [He|_];
    [rewrite He in Hint; discriminate|].
  rewrite Hint. reflexivity.
Qed.

End Rounds.

(** ** Templates *)

Lemma span_word_spec (s : string) :
  s = (fst (PyStr.span_word s) ++ snd (PyStr.span_word s))%string
  /\ all_chars PyStr.is_word (fst (PyStr.span_word s)) = true.
Proof.
  induction s as [|c s [IHs IHw]]; [now split|].
  cbn [PyStr.span_word].
  destruct (PyStr.is_word c) eqn:Hc; [|now split].
  destruct (PyStr.span_word s) as [w r]. cbn [fst snd] in *.
  split; [cbn [append]; now f_equal|].
  cbn [all_chars]. now rewrite Hc.
Qed.

Lemma match_placeholder_close (s' : string) :
  PyStr.match_placeholder (String "{" s')
  = match PyStr.span_word s' with
    | (String c w, String d _) =>
        if Ascii.eqb d "}" then Some (String c w) else None
    | _ => None
    end.
Proof.
  cbn [PyStr.match_placeholder].
  destruct (PyStr.span_word s') as [[|c w] [|d r]]; try reflexivity.
  destruct d as [[] [] [] [] [] [] [] []]; reflexivity.
Qed.

Lemma match_placeholder_spec (s name : string) :
  PyStr.match_placeholder s = Some name ->
  is_name name = true
  /\ exists r, s = (("{" ++ name ++ "}") ++ r)%string.
Proof.
  destruct s as [|c s']; [discriminate|].
  destruct (Ascii.eqb_spec c "{") as [->|Hc].
  - rewrite match_placeholder_close.
    destruct (span_word_spec s') as [Hs Hw].
    destruct (PyStr.span_word s') as [[|c w] [|d r]]; try discriminate.
    destruct (Ascii.eqb_spec d "}") as [->|_]; [|discriminate].
    intros [= <-]. cbn [fst snd] in *. split.
    + unfold is_name. now rewrite Hw.
    + exists r. rewrite Hs. cbn [append]. f_equal. f_equal.
      now rewrite append_assoc.
  - apply Ascii.eqb_neq in Hc.
    now rewrite (match_placeholder_other c s' Hc).
Qed.

Lemma findall_from_names (s : string) (skip : nat) :
  Forall (fun name =>
            is_name name = true
            /\ exists pre post,
                 s = (pre ++ ("{" ++ name ++ "}") ++ post)%string)
    (PyStr.findall_from skip s).
Proof.
  revert skip.
  induction s as [|c s IH]; intros skip; [constructor|].
  assert (Hlift : forall k,
            Forall (fun name =>
                      is_name name = true
                      /\ exists pre post,
                           String c s
                           = (pre ++ ("{" ++ name ++ "}") ++ post)%string)
              (PyStr.findall_from k s)).
  { intros k. eapply Forall_impl; [|apply (IH k)].
    intros name (Hname & pre & post & Hs). split; [exact Hname|].
    exists (String c pre), post. cbn [append]. now f_equal. }
  cbn [PyStr.findall_from].
  destruct skip as [|k]; [|apply Hlift].
  destruct (PyStr.match_placeholder (String c s)) as [name|] eqn:Hm;
    [|apply Hlift].
  constructor; [|apply Hlift].
  apply match_placeholder_spec in Hm as (Hname & r & Hs).
  split; [exact Hname|]. now exists EmptyString, r.
Qed.

(** X9. Whatever the template, every name that is asked for is a
    non-empty run of word characters (so no name is empty, or holds a
    space or a brace), and stands in the template between an opening
    and a closing brace. *)
Theorem placeholders_are_names_in_braces (template : string) :
  Forall (fun name =>
            is_name name = true
            /\ exists pre post,
                 template = (pre ++ ("{" ++ name ++ "}") ++ post)%string)
    (PyStr.findall_placeholders template).
Proof. apply findall_from_names. Qed.

Lemma keys_set {V : Type} (k : string) (v : V) (d : Dict.t V) :
  Dict.keys (Dict.set k v d)
  = if Dict.mem k d then Dict.keys d else Dict.keys d ++ [k].
Proof.
  unfold Dict.mem, PyStr.str_in, Dict.keys.
  induction d as [|[k' v'] d IH]; [reflexivity|].
  cbn [Dict.set map fst existsb].
  destruct (String.eqb k k') eqn:Hk; cbn [orb map fst].
  - apply String.eqb_eq in Hk. now subst.
  - rewrite IH. now destruct (existsb (String.eqb k) (map fst d)).
Qed.

Lemma nodup_keys_set {V : Type} (k : string) (v : V) (d : Dict.t V) :
  NoDup (Dict.keys d) -> NoDup (Dict.keys (Dict.set k v d)).
Proof.
  intros Hnd. rewrite keys_set.
  destruct (Dict.mem k d) eqn:Hmem; [exact Hnd|].
  apply NoDup_app; [exact Hnd | repeat constructor; intros [] |].
  intros x Hx [<-|[]]. apply mem_In in Hx. congruence.
Qed.

Section Templates.

Context {Srv : Type} `{Session Srv}.

(** The prompts for the placeholders send nothing, and the mapping they
    build has each name once, all of them among the names asked. *)
Lemma prompt_params_quiet (params : list string)
  (param_values : Dict.t string) (w w' : world Srv) (t : list event)
  (r : result (Dict.t string)) :
  prompt_params params param_values w = (t, r, w') ->
  server w' = server w
  /\ Forall (fun e => is_request e = false) t
  /\ (forall param_values',
        r = Ok param_values' ->
        NoDup (Dict.keys param_values) ->
        NoDup (Dict.keys param_values')
        /\ incl (Dict.keys param_values')
             (Dict.keys param_values ++ params)).
Proof.
  revert param_values w t.
  induction params as [|param params IH]; intros param_values w t.
  - intros [= <- <- <-]. split; [reflexivity|]. split; [constructor|].
    intros pv' [= <-] Hnd. split; [exact Hnd|].
    apply incl_appl, incl_refl.
  - cbn [prompt_params]. unfold input, bind at 1.
    destruct (stdin w) as [|[l|] rest] eqn:Hstdin.
    + intros [= <- <- <-]. split; [reflexivity|].
      split; [repeat constructor | discriminate].
    + cbn [server].
      destruct (PyStr.is_empty (PyStr.strip l)).
      * cbn. intros [= <- <- <-]. split; [reflexivity|].
        split; [repeat constructor|].
        intros pv' [= <-] Hnd. split; [exact Hnd|].
        apply incl_appl, incl_refl.
      * destruct (prompt_params params _ _) as [[t1 r1] w1] eqn:Hp.
        intros [= <- <- <-].
        destruct (IH _ _ _ Hp) as (Hsrv & Hq & Hkeys).
        split; [exact Hsrv|]. split; [now constructor|].
        intros pv' Hr Hnd.
        destruct (Hkeys _ Hr (nodup_keys_set _ _ _ Hnd)) as [Hnd' Hincl].
        split; [exact Hnd'|].
        intros x Hx. apply Hincl in Hx.
        rewrite keys_set in Hx.
        apply in_app_or in Hx as [Hx|Hx].
        -- destruct (Dict.mem param param_values).
           ++ apply in_or_app. now left.
           ++ apply in_app_or in Hx as [Hx|[<-|[]]];
                apply in_or_app; [now left | right; now left].
        -- apply in_or_app. right. now right.
    + intros [= <- <- <-]. split; [reflexivity|].
      split; [repeat constructor | discriminate].
Qed.

(** X10. A template that names a placeholder twice can never be read:
    whatever is typed, the branch sends no request and never gets to a
    result to show, because the mapping of answers has fewer entries
    than there are occurrences. *)
Theorem repeated_placeholder_is_never_read
  (selected_template : ResourceTemplate) (w w' : world Srv)
  (t : list event) (r : result (option control)) :
  ~ NoDup (PyStr.findall_placeholders (uriTemplate selected_template)) ->
  template_branch selected_template w = (t, r, w') ->
  Forall (fun e => is_request e = false) t
  /\ server w' = server w
  /\ r <> Ok None.
Proof.
  intros Hdup. unfold template_branch. rewrite !bind_print.
  intros (t0 & (t1 & Hb & ->)%after_inv & ->)%after_inv.
  apply bind_inv in Hb
    as [(e & Hp & ->)|(t2 & pv & w1 & t3 & Hp & Hk & ->)].
  - apply prompt_params_quiet in Hp as (Hsrv & Hq & _).
    repeat split; [now repeat constructor | exact Hsrv | discriminate].
  - apply prompt_params_quiet in Hp as (Hsrv & Hq & Hkeys).
    destruct (Hkeys pv eq_refl (NoDup_nil _)) as [Hnd Hincl].
    cbn [Dict.keys Dict.empty map app] in Hincl.
    assert (Hlen : (Dict.len pv
                    =? length (PyStr.findall_placeholders
                                 (uriTemplate selected_template)))
                   = false).
    { apply Nat.eqb_neq. intros Heq. apply Hdup.
      apply (@NoDup_incl_NoDup _ (Dict.keys pv) _ Hnd); [|exact Hincl].
      unfold Dict.len, Dict.keys in *. rewrite length_map. lia. }
    rewrite Hlen in Hk. cbn in Hk. injection Hk as <- <- <-.
    repeat split; [|exact Hsrv | discriminate].
    repeat constructor. apply Forall_app. split; [exact Hq|].
    repeat constructor.
Qed.

(** X11. A template in which the pattern finds no placeholder (one
    without any opening brace, for instance) is read as it stands: no
    prompt, no line read, and the address requested is the template. *)
Theorem template_without_placeholder_is_read_as_is
  (selected_template : ResourceTemplate) (w : world Srv) :
  (PyStr.findall_placeholders (uriTemplate selected_template) = [] ->
   template_branch selected_template w
   = after
       [Print (MsgReadingTemplate (template_name selected_template)
                 (uriTemplate selected_template));
        Print MsgProvideParameters;
        Print (MsgConstructedURI (uriTemplate selected_template))]
       (bind (send (ReadResource (uriTemplate selected_template))
                (read_resource (uriTemplate selected_template)))
          (fun r => display_resource_result r ;; ret None) w))
  /\ (no_open_brace (uriTemplate selected_template) = true ->
      PyStr.findall_placeholders (uriTemplate selected_template) = []).
Proof.
  split.
  - intros Hnone. unfold template_branch. rewrite Hnone, !bind_print.
    cbn [prompt_params]. rewrite bind_ret.
    cbn [Dict.len Dict.empty length Nat.eqb negb substitute].
    rewrite bind_print, !after_after. reflexivity.
  - intros Hno. unfold PyStr.findall_placeholders.
    rewrite <- (append_empty_r (uriTemplate selected_template)).
    now rewrite findall_from_literal.
Qed.

End Templates.

Lemma holes_are_names (segs : list segment) :
  forallb wf_segment segs = true ->
  Forall (fun name => is_name name = true) (holes segs).
Proof.
  induction segs as [|[text|name] segs IH]; cbn [forallb holes];
    [constructor| |]; intros [Hg Hwf]%andb_prop; auto.
Qed.

Lemma keys_combine {V : Type} (names : list string) (vs : list V) :
  length vs = length names -> Dict.keys (combine names vs) = names.
Proof.
  revert vs. induction names as [|n names IH]; intros [|v vs];
    cbn; try discriminate; [reflexivity|].
  intros [= Hlen]. f_equal. now apply IH.
Qed.

Lemma render_literals_no_brace (segs : list segment) :
  forallb wf_segment segs = true ->
  holes segs = [] ->
  no_open_brace (render segs) = true.
Proof.
  unfold no_open_brace.
  induction segs as [|[text|name] segs IH]; cbn [forallb holes render];
    [reflexivity| |discriminate].
  intros [Hg Hwf]%andb_prop Hholes. cbn [render_segment].
  rewrite all_chars_append. apply andb_true_intro. split; [exact Hg|].
  now apply IH.
Qed.

Section Resolution.

Context {Srv : Type} `{Session Srv}.

(** X12. From the prompts to the request, on a template in which every
    opening brace begins a placeholder and no placeholder is named
    twice: when each prompt is answered by a line that is not blank and
    has no opening brace, the address requested is the template with
    every placeholder replaced by its answer, stripped of surrounding
    spaces, and it has no opening brace left. *)
Theorem well_formed_template_is_resolved
  (selected_template : ResourceTemplate) (segs : list segment)
  (lines : list string) (rest : list keyboard) (srv : Srv) :
  uriTemplate selected_template = render segs ->
  forallb wf_segment segs = true ->
  NoDup (holes segs) ->
  length lines = length (holes segs) ->
  Forall (fun l => PyStr.strip l <> ""
                   /\ no_open_brace (PyStr.strip l) = true) lines ->
  let values := combine (holes segs) (map PyStr.strip lines) in
  let u := render (map (fill values) segs) in
  template_branch selected_template
    (Build_world (map Line lines ++ rest) srv)
  = after
      (Print (MsgReadingTemplate (template_name selected_template)
                (uriTemplate selected_template))
         :: Print MsgProvideParameters
         :: map ask (holes segs) ++ [Print (MsgConstructedURI u)])
      (bind (send (ReadResource u) (read_resource u))
         (fun r => display_resource_result r ;; ret None)
         (Build_world rest srv))
  /\ no_open_brace u = true.
Proof.
  intros Htmpl Hwf Hnd Hlen Hlines values u.
  assert (Hne : Forall (fun l => PyStr.strip l <> "") lines).
  { eapply Forall_impl; [|exact Hlines]. now intros l [Hl _]. }
  assert (Hvalues : forall k v, In (k, v) values ->
                      is_name k = true /\ no_open_brace v = true).
  { intros k v Hin. split.
    - apply in_combine_l in Hin.
      pose proof (holes_are_names segs Hwf) as Hnames.
      rewrite Forall_forall in Hnames. now apply Hnames.
    - apply in_combine_r in Hin. apply in_map_iff in Hin as (l & <- & Hl).
      rewrite Forall_forall in Hlines. now apply Hlines. }
  assert (Hsub : substitute values (uriTemplate selected_template) = u).
  { rewrite Htmpl. now apply substitute_render. }
  split.
  - unfold template_branch.
    replace (PyStr.findall_placeholders (uriTemplate selected_template))
      with (holes segs)
      by (rewrite Htmpl; symmetry; now apply findall_render).
    rewrite !bind_print.
    rewrite (bind_ok _ _ _ _ _ _
               (prompt_params_all (holes segs) lines rest srv Hlen Hne)).
    rewrite (assign_distinct _ _ _ Hnd) by (auto; intros k _ []).
    cbn [Dict.empty app]. fold values. unfold Dict.len.
    unfold values at 1.
    rewrite length_combine, length_map, Hlen, Nat.min_id, Nat.eqb_refl.
    cbn [negb]. rewrite Hsub, bind_print, !after_after.
    reflexivity.
  - apply render_literals_no_brace.
    + apply wf_fill; [|exact Hwf]. intros k v Hin.
      exact (proj2 (Hvalues k v Hin)).
    + apply holes_fill_complete. intros name Hname.
      apply mem_In. unfold values.
      rewrite keys_combine by (now rewrite length_map). exact Hname.
Qed.

End Resolution.

(** ** The menu and the branches *)

Lemma enumerate_nth {A : Type} (xs : list A) (start i : Z) (x : A) :
  In (i, x) (enumerate xs start) ->
  (start <= i < start + Z.of_nat (length xs))%Z
  /\ nth_error xs (Z.to_nat (i - start)) = Some x.
Proof.
  revert start.
  induction xs as [|y xs IH]; intros start; [intros []|].
  cbn [enumerate In length]. intros [[= <- <-]|Hin].
  - split; [lia|]. now rewrite Z.sub_diag.
  - destruct (IH _ Hin) as [Hrange Hnth]. split; [lia|].
    replace (Z.to_nat (i - start)) with (S (Z.to_nat (i - (start + 1))))
      by lia.
    exact Hnth.
Qed.

Section Menu.

Context {Srv : Type} `{Session Srv} `{JsonDecoder}.

(** X13. The number shown in front of an entry of the menu is the number
    that selects it: for every entry, typing its number (in any spelling
    that [int] reads as that number) runs the branch of that very tool,
    resource or template. *)
Theorem menu_number_selects_its_entry (tools : list Tool)
  (resources : list Resource) (templates : list ResourceTemplate)
  (i : Z) (c : capability) (line : string) (rest : list keyboard)
  (srv : Srv) :
  In (i, c) (numbered_menu tools resources templates) ->
  PyStr.int (PyStr.strip line) = Some i ->
  try_body tools resources templates (Build_world (Line line :: rest) srv)
  = after [Input PromptSelect]
      (bind (branch_of c) after_branch (Build_world rest srv)).
Proof.
  intros Hin Hint. unfold numbered_menu in Hin.
  apply in_app_or in Hin as [Hin|Hin]; [|apply in_app_or in Hin as [Hin|Hin]];
    apply in_map_iff in Hin as ([k x] & [= -> <-] & Hin);
    apply enumerate_nth in Hin as [Hrange Hnth]; cbn [branch_of].
  - apply (try_body_tool _ _ _ _ _ _ i); [exact Hint | lia | exact Hnth].
  - apply (try_body_resource _ _ _ _ _ _ i); [exact Hint | lia|].
    now replace (i - Z.of_nat (length tools) - 1)%Z
      with (i - (Z.of_nat (length tools) + 1))%Z by lia.
  - apply (try_body_template _ _ _ _ _ _ i); [exact Hint | lia|].
    now replace
      (i - Z.of_nat (length tools) - Z.of_nat (length resources) - 1)%Z
      with (i - (Z.of_nat (length tools) + Z.of_nat (length resources)
                 + 1))%Z by lia.
Qed.

(** X14. When the building of the arguments of the selected tool is
    left by an exception (the end of the input, an interrupt at a
    prompt, or a failure of [json.loads] other than a [ValueError] on
    one of the lines), the tool is not called: the round sends nothing,
    and ends with the farewell and the end of the loop after an
    interrupt, with the error message and [continue] otherwise. *)
Theorem arguments_left_unfinished (tools : list Tool)
  (resources : list Resource) (templates : list ResourceTemplate)
  (line : string) (n : Z) (selected_tool : Tool)
  (rest : list keyboard) (srv : Srv)
  (t_args : list event) (e : exn) (w2 : world Srv) :
  PyStr.int (PyStr.strip line) = Some n ->
  (1 <= n <= Z.of_nat (length tools))%Z ->
  nth_error tools (Z.to_nat (n - 1)) = Some selected_tool ->
  build_arguments_from_schema (inputSchema selected_tool)
    (Build_world rest srv)
  = (t_args, Raise e, w2) ->
  (e = EOFError \/ e = KeyboardInterrupt \/ decoder_failed rest e)
  /\ try_except (try_body tools resources templates) handlers
       (Build_world (Line line :: rest) srv)
     = (Input PromptSelect
          :: Print (MsgExecutingTool (tool_name selected_tool))
          :: t_args
          ++ [if is_Exception e then Print (MsgErrorExecuting e)
              else Print MsgGoodbye],
        Ok (if is_Exception e then Continue else Break), w2)
  /\ Forall (fun ev => is_request ev = false) t_args
  /\ server w2 = srv.
Proof.
  intros Hint Hn Hx Hbuild.
  pose proof (build_arguments_raises _ _ _ _ _ Hbuild) as He.
  cbn [stdin] in He.
  split; [exact He|]. split.
  - assert (Hbody : try_body tools resources templates
                      (Build_world (Line line :: rest) srv)
                    = (Input PromptSelect
                         :: Print (MsgExecutingTool (tool_name selected_tool))
                         :: t_args, Raise e, w2)).
    { rewrite (try_body_tool _ _ _ _ _ _ n _ Hint Hn Hx).
      assert (Hbranch : tool_branch selected_tool (Build_world rest srv)
                        = (Print (MsgExecutingTool
                                    (tool_name selected_tool)) :: t_args,
                           Raise e, w2)).
      { unfold tool_branch. rewrite bind_print.
        now rewrite (bind_raise _ _ _ _ _ _ Hbuild). }
      now rewrite (bind_raise _ _ _ _ _ _ Hbranch). }
    unfold try_except. rewrite Hbody.
    destruct He as [-> | [-> | (l & msg & _ & _ & ->)]]; reflexivity.
  - revert Hbuild. unfold build_arguments_from_schema.
    destruct (properties (inputSchema selected_tool)); [|discriminate].
    rewrite bind_print. intros (t0 & Hf & ->)%after_inv.
    destruct (for_properties_quiet _ _ _ _ _ _ _ Hf) as (Hsrv & _ & Hq).
    split; [now constructor | exact Hsrv].
Qed.

(** X17. A choice written with more digits than [int] accepts is not
    a number for the menu, whatever its value: the round answers with
    the message for an input that is not a number and sends nothing. *)
Theorem overlong_choice_is_not_a_number (tools : list Tool)
  (resources : list Resource) (templates : list ResourceTemplate)
  (line : string) (rest : list keyboard) (srv : Srv) :
  PyStr.int_max_str_digits < PyStr.count_digits (PyStr.strip line) ->
  PyStr.int (PyStr.strip line) = None
  /\ try_except (try_body tools resources templates) handlers
       (Build_world (Line line :: rest) srv)
     = ([Input PromptSelect; Print MsgInvalidNumber], Ok Continue,
        Build_world rest srv).
Proof.
  intros Hlong.
  assert (Hint : PyStr.int (PyStr.strip line) = None)
    by (apply int_beyond_limit; now rewrite strip_strip).
  split; [exact Hint|].
  unfold try_except, try_body. rewrite input_line, Hint.
  destruct (String.eqb_spec (PyStr.strip line) "0") as [Hz|_].
  { rewrite Hz in Hint. discriminate. }
  destruct (String.eqb_spec (PyStr.strip line) "") as [He|_].
  { rewrite He in Hlong. cbn [PyStr.count_digits] in Hlong. lia. }
  reflexivity.
Qed.

End Menu.

(** * The environment test *)

Module TestEnvironmentFacts.

Import TestEnvironment.

Lemma test_keeps_sound (t : test_body) (env : environment) (f : flags) :
  is_test t -> sound env f ->
  sound env (snd (fst (t env f)))
  /\ (existsb is_make_driver (snd (t env f)) = true -> ready env).
Proof.
  intros [-> | [-> | ->]] [Hfile Hready].
  - unfold test_env_file_exists. cbn [fst snd].
    split; [|cbn; discriminate].
    destruct (path_exists env ".env") eqn:Hp; split; cbn; intros Hs;
      first [assumption | now apply Hready | rewrite Hp; now apply Hfile].
  - unfold test_neo4j_variables, env_variable_exists.
    assert (Hsame : sound env f) by now split.
    destruct (skip_env_variable_tests f) eqn:Hs1;
      [split; [exact Hsame | cbn; discriminate]|].
    destruct (getenv env "NEO4J_URI") eqn:Hu; cbn [negb];
      [|split; [exact Hsame | cbn; discriminate]].
    destruct (getenv env "NEO4J_USERNAME") eqn:Hn; cbn [negb];
      [|split; [exact Hsame | cbn; discriminate]].
    destruct (getenv env "NEO4J_PASSWORD") eqn:Hw; cbn [negb];
      [|split; [exact Hsame | cbn; discriminate]].
    split; [|cbn; discriminate]. split; cbn; [now apply Hfile|].
    intros _. unfold ready. rewrite Hu, Hn, Hw.
    repeat split; auto; discriminate.
  - unfold test_neo4j_connection.
    assert (Hsame : sound env f) by now split.
    destruct (skip_neo4j_test f) eqn:Hs2;
      [split; [exact Hsame | cbn; discriminate]|].
    destruct (connect env _ _ _); cbn [fst snd];
      (split; [exact Hsame | intros _; now apply Hready]).
Qed.

Lemma run_keeps_sound (tests : list test_body) (env : environment)
  (f : flags) :
  Forall is_test tests -> sound env f ->
  existsb is_make_driver (snd (run tests env f)) = true -> ready env.
Proof.
  revert f. induction tests as [|t tests IH]; intros f Htests Hsound;
    [discriminate|].
  apply Forall_cons_iff in Htests as [Ht Htests].
  destruct (test_keeps_sound t env f Ht Hsound) as [Hsound' Hdriver].
  cbn [run]. destruct (t env f) as [[o f'] c] eqn:Hrun.
  cbn [fst snd] in *.
  specialize (IH f' Htests Hsound').
  destruct (run tests env f') as [[os f''] cs]. cbn [snd] in *.
  rewrite existsb_app. intros [Hc|Hcs]%orb_prop; auto.
Qed.

(** X15. In whatever order, and however often, the three tests are run
    on a fresh class, a database driver is only ever created when the
    [.env] file exists and the three connection variables are set: the
    connection test is skipped until the two other tests have passed. *)
Theorem driver_only_in_ready_environment (tests : list test_body)
  (env : environment) :
  Forall is_test tests ->
  existsb is_make_driver (snd (run tests env initial)) = true ->
  ready env.
Proof.
  intros Htests. apply run_keeps_sound; [exact Htests|].
  split; discriminate.
Qed.

(** X16. The verdicts of the suite, in its own order.  Without the
    [.env] file the first test fails and the two others are skipped,
    even when the variables are set in the process environment and the
    database could be reached; with the file and a missing variable the
    second fails and the third is skipped; otherwise the third passes
    when the database is reached, fails when the verification raises,
    and is in error when the driver cannot be created. *)
Theorem suite_verdicts (env : environment) :
  fst (fst (run suite env initial))
  = if negb (path_exists env ".env") then [Failed; Skipped; Skipped]
    else if negb (env_variable_exists env "NEO4J_URI"
                  && env_variable_exists env "NEO4J_USERNAME"
                  && env_variable_exists env "NEO4J_PASSWORD")
    then [Passed; Failed; Skipped]
    else
      [Passed; Passed;
       match connect env (getenv env "NEO4J_URI")
               (getenv env "NEO4J_USERNAME") (getenv env "NEO4J_PASSWORD")
       with
       | Connected => Passed
       | VerifyRaises => Failed
       | DriverRaises => Errored
       end].
Proof.
  unfold suite, run, test_env_file_exists, test_neo4j_variables,
    test_neo4j_connection, initial.
  cbn [skip_env_variable_tests skip_neo4j_test].
  destruct (path_exists env ".env"); cbn [negb]; [|reflexivity].
  cbn [skip_env_variable_tests skip_neo4j_test].
  destruct (env_variable_exists env "NEO4J_URI"); cbn [negb andb];
    [|reflexivity].
  destruct (env_variable_exists env "NEO4J_USERNAME"); cbn [negb andb];
    [|reflexivity].
  destruct (env_variable_exists env "NEO4J_PASSWORD"); cbn [negb andb];
    [|reflexivity].
  cbn [skip_neo4j_test].
  destruct (connect env _ _ _); reflexivity.
Qed.

End TestEnvironmentFacts.

(** * The further properties at work *)

(** The builder of [search], answered by a blank line, [x] and [5], then
    a blank line for the optional parameter. *)
Lemma builder_never_contacts_server_witness :
  server (demo []) = server (demo [""; "x"; "5"; ""])
  /\ (exists used, stdin (demo [""; "x"; "5"; ""]) = used ++ stdin (demo []))
  /\ Forall (fun e => is_request e = false)
       [Print MsgProvideParameters;
        Print (MsgParameter "limit" true "How many" "integer");
        Input PromptEnterValue; Print MsgRequired;
        Input PromptEnterValue; Print (MsgInvalidInput "integer");
        Input PromptEnterValue;
        Print (MsgParameter "exact" false "" "boolean");
        Input PromptEnterValue].
Proof.
  apply (builder_never_contacts_server search_schema
           (demo [""; "x"; "5"; ""]) (demo []) _ (Ok [("limit", VInt 5)])).
  reflexivity.
Defined.

Lemma result_keys_follow_declaration_witness :
  Dict.keys [("limit", VInt 5)]
  = filter (fun k => Dict.mem k [("limit", VInt 5)]) ["limit"; "exact"]
  /\ (forall name, ~ In name ["limit"; "exact"] ->
        Dict.get name [("limit", VInt 5)] = None).
Proof.
  apply (result_keys_follow_declaration search_schema
           [("limit", integer_info); ("exact", boolean_info)]
           (demo ["5"; ""]) (demo [])
           [Print MsgProvideParameters;
            Print (MsgParameter "limit" true "How many" "integer");
            Input PromptEnterValue;
            Print (MsgParameter "exact" false "" "boolean");
            Input PromptEnterValue]).
  - reflexivity.
  - repeat constructor; cbn; intuition discriminate.
  - reflexivity.
Defined.

Lemma one_accepted_line_per_parameter_witness :
  build_arguments_from_schema search_schema (demo [" 5 "; ""; "q"])
  = ([Print MsgProvideParameters;
      Print (MsgParameter "limit" true "How many" "integer");
      Input PromptEnterValue;
      Print (MsgParameter "exact" false "" "boolean");
      Input PromptEnterValue],
     Ok [("limit", VInt 5)], demo ["q"]).
Proof.
  apply (one_accepted_line_per_parameter search_schema
           [{| a_name := "limit"; a_info := integer_info; a_line := " 5 ";
               a_value := Some (VInt 5) |};
            {| a_name := "exact"; a_info := boolean_info; a_line := "";
               a_value := None |}]
           [Line "q"] demo_server).
  - reflexivity.
  - repeat constructor; cbn; intuition discriminate.
  - repeat constructor; cbn; try reflexivity. vm_compute. discriminate.
Defined.

(** The server answers one listing and is gone at the next. *)
Lemma loop_raises_only_from_listing_witness :
  exists s s' : nat,
    list_tools s = (Raise (OtherException "connection closed"), s')
    \/ list_resources s = (Raise (OtherException "connection closed"), s')
    \/ list_resource_templates s
       = (Raise (OtherException "connection closed"), s').
Proof.
  assert (Hcall : forall name arguments (s : nat) e s',
            call_tool name arguments s = (Raise e, s') ->
            is_caught e = true) by (intros; discriminate).
  assert (Hread : forall u (s : nat) e s',
            read_resource u s = (Raise e, s') -> is_caught e = true)
    by (cbn; intros u s e s' [= <- _]; reflexivity).
  apply (loop_raises_only_from_listing Hcall Hread
           3 (Build_world [Line "1"; Line ""] 1) (Build_world [] 0)
           [Send ListTools; Send ListResources; Send ListResourceTemplates;
            Print (MsgMenu [ping] [] []); Input PromptSelect;
            Print (MsgExecutingTool "ping"); Print (MsgCalling "ping" []);
            Send (CallTool "ping" []); Print MsgResult;
            Print (MsgText "pong"); Print MsgRule; Input PromptContinue;
            Send ListTools]).
  reflexivity.
Defined.

(** Two rounds of the demonstration server with nothing left to read. *)
Lemma end_of_input_never_ends_loop_witness :
  session_loop 2 (demo [])
  = (eof_round [ping; search] [catalogue] [cast]
       ++ eof_round [ping; search] [catalogue] [cast] ++ [],
     Ok false, demo []).
Proof.
  apply (end_of_input_never_ends_loop [ping; search] [catalogue] [cast]
           demo_server 2); try reflexivity.
  discriminate.
Defined.

(** The tool of the server that rejects every call: the [ValueError] is
    answered as a choice that is not a number. *)
Lemma tool_call_exception_is_classified_witness :
  try_except (try_body [ping] [] []) handlers
    (Build_world [Line "1"; Line "q"] picky_server)
  = ([Input PromptSelect; Print (MsgExecutingTool "ping");
      Print (MsgCalling "ping" []); Send (CallTool "ping" []);
      Print MsgInvalidNumber],
     Ok Continue, Build_world [Line "q"] picky_server).
Proof.
  apply (tool_call_exception_is_classified [ping] [] [] "1" 1 ping
           [Line "q"] picky_server [] []
           (Build_world [Line "q"] picky_server)
           (ValueError "unsupported argument") picky_server).
  - reflexivity.
  - cbn; lia.
  - reflexivity.
  - reflexivity.
  - reflexivity.
Defined.

Lemma direct_resource_round_witness :
  try_except (try_body [ping; search] [catalogue] [cast]) handlers
    (demo ["3"; " Q "])
  = ([Input PromptSelect;
      Print (MsgReadingResource "catalogue" "movies://all");
      Send (ReadResource "movies://all"); Print MsgResourceContents;
      Print (MsgText "movies://all"); Print MsgRule; Input PromptContinue;
      Print MsgGoodbye],
     Ok Break, demo []).
Proof.
  apply (direct_resource_round [ping; search] [catalogue] [cast] "3" 3
           catalogue demo_server demo_server
           {| contents := [TextContent "movies://all"] |} " Q " []).
  - reflexivity.
  - cbn; lia.
  - reflexivity.
  - reflexivity.
Defined.

Lemma other_spellings_of_zero_are_refused_witness :
  try_except (try_body [ping; search] [catalogue] [cast]) handlers
    (demo ["00"])
  = ([Input PromptSelect; Print MsgInvalidSelection], Ok Continue, demo []).
Proof.
  apply (other_spellings_of_zero_are_refused [ping; search] [catalogue]
           [cast] "00" [] demo_server).
  - reflexivity.
  - vm_compute. discriminate.
Defined.

Lemma repeated_placeholder_is_never_read_witness :
  Forall (fun e => is_request e = false)
    [Print (MsgReadingTemplate "knows" "people/{id}/knows/{id}");
     Print MsgProvideParameters; ask "id"; ask "id";
     Print MsgMissingParameters]
  /\ server (demo []) = server (demo ["7"; "7"])
  /\ Ok (Some Continue) <> Ok None.
Proof.
  apply (repeated_placeholder_is_never_read (Srv := FixedServer) knows
           (demo ["7"; "7"]) (demo [])).
  - vm_compute. intros Hnd. inversion Hnd as [|x l Hx _]. apply Hx. now left.
  - reflexivity.
Defined.

Lemma template_without_placeholder_is_read_as_is_witness :
  template_branch plain (demo ["q"])
  = ([Print (MsgReadingTemplate "plain" "movies://all");
      Print MsgProvideParameters; Print (MsgConstructedURI "movies://all");
      Send (ReadResource "movies://all"); Print MsgResourceContents;
      Print (MsgText "movies://all"); Print MsgRule],
     Ok None, demo ["q"]).
Proof.
  destruct (template_without_placeholder_is_read_as_is
              (Srv := FixedServer) plain (demo ["q"])) as [Hread Hnone].
  rewrite Hread; [reflexivity|].
  apply Hnone. reflexivity.
Defined.

Lemma well_formed_template_is_resolved_witness :
  template_branch cast (demo [" 603 "])
  = ([Print (MsgReadingTemplate "cast" "movies/{tmdbId}/cast");
      Print MsgProvideParameters; ask "tmdbId";
      Print (MsgConstructedURI "movies/603/cast");
      Send (ReadResource "movies/603/cast"); Print MsgResourceContents;
      Print (MsgText "movies/603/cast"); Print MsgRule],
     Ok None, demo [])
  /\ no_open_brace "movies/603/cast" = true.
Proof.
  destruct (well_formed_template_is_resolved (Srv := FixedServer) cast
              [Lit "movies/"; Hole "tmdbId"; Lit "/cast"] [" 603 "] []
              demo_server) as [Hrun Hno].
  - reflexivity.
  - reflexivity.
  - repeat constructor. intros [].
  - reflexivity.
  - repeat constructor. vm_compute. discriminate.
  - split; [exact Hrun | exact Hno].
Defined.

Lemma menu_number_selects_its_entry_witness :
  try_body [ping; search] [catalogue] [cast] (demo [" 4 "])
  = after [Input PromptSelect]
      (bind (template_branch cast) after_branch (demo [])).
Proof.
  apply (menu_number_selects_its_entry [ping; search] [catalogue] [cast] 4
           (TemplateItem cast) " 4 " [] demo_server).
  - cbn. tauto.
  - reflexivity.
Defined.

(** The input ends while [limit] is being asked for. *)
Lemma arguments_left_unfinished_witness :
  (EOFError = EOFError \/ EOFError = KeyboardInterrupt
   \/ decoder_failed [Line ""] EOFError)
  /\ try_except (try_body [ping; search] [catalogue] [cast]) handlers
       (demo ["2"; ""])
     = ([Input PromptSelect; Print (MsgExecutingTool "search");
         Print MsgProvideParameters;
         Print (MsgParameter "limit" true "How many" "integer");
         Input PromptEnterValue; Print MsgRequired; Input PromptEnterValue;
         Print (MsgErrorExecuting EOFError)],
        Ok Continue, demo [])
  /\ Forall (fun ev => is_request ev = false)
       [Print MsgProvideParameters;
        Print (MsgParameter "limit" true "How many" "integer");
        Input PromptEnterValue; Print MsgRequired; Input PromptEnterValue]
  /\ server (demo []) = demo_server.
Proof.
  apply (arguments_left_unfinished [ping; search] [catalogue] [cast] "2" 2
           search [Line ""] demo_server
           [Print MsgProvideParameters;
            Print (MsgParameter "limit" true "How many" "integer");
            Input PromptEnterValue; Print MsgRequired; Input PromptEnterValue]
           EOFError (demo [])).
  - reflexivity.
  - cbn; lia.
  - reflexivity.
  - reflexivity.
Defined.

(** 4300 zeros and a one: the value is 1, but the text has 4301
    digits; with 4299 zeros it is read as 1. *)
Lemma overlong_choice_is_not_a_number_witness :
  PyStr.count_digits (PyStr.strip (zeros 4300 ++ "1")) = 4301
  /\ PyStr.int (PyStr.strip (zeros 4300 ++ "1")) = None
  /\ try_except (try_body [ping; search] [catalogue] [cast]) handlers
       (Build_world [Line (zeros 4300 ++ "1")] demo_server)
     = ([Input PromptSelect; Print MsgInvalidNumber], Ok Continue, demo [])
  /\ PyStr.int (zeros 4299 ++ "1") = Some 1%Z.
Proof.
  assert (Hcount : PyStr.count_digits (PyStr.strip (zeros 4300 ++ "1"))
                   = 4301) by (vm_compute; reflexivity).
  split; [exact Hcount|].
  assert (Hlong : PyStr.int_max_str_digits
                  < PyStr.count_digits (PyStr.strip (zeros 4300 ++ "1")))
    by (apply Nat.ltb_lt; vm_compute; reflexivity).
  destruct (overlong_choice_is_not_a_number [ping; search] [catalogue]
              [cast] (zeros 4300 ++ "1") [] demo_server Hlong)
    as (Hint & Hround).
  split; [exact Hint|]. split; [exact Hround|].
  vm_compute. reflexivity.
Defined.

(** The suite in a complete environment creates the driver. *)
Lemma driver_only_in_ready_environment_witness :
  TestEnvironment.ready TestEnvironment.complete.
Proof.
  apply (TestEnvironmentFacts.driver_only_in_ready_environment
           TestEnvironment.suite TestEnvironment.complete).
  - repeat constructor; unfold TestEnvironment.is_test; tauto.
  - reflexivity.
Defined.
